(** * Beetle detector pipeline: cleaning filter and inference batch runner

    A shallow embedding of the two scripts that carry original logic,

    - [scripts/02_clean_and_export_yolo.py]  ([filter_small_boxes]),
    - [scripts/05_infer_cli.py]  ([process_single_image],
      [process_batch_images], [save_results_json], [get_image_files]),

    together with the properties the specification states about them.

    Python values are modelled as follows.  A Python [int] is a [Z]; a Python
    [float] is a primitive binary64 float; a [str] is a [string] (of bytes);
    a [dict] is a list of items in insertion order; a raised exception is the
    [Raise] branch of [result].  The dataset store, the detector, the clock
    and the file system are the collaborators: they appear as explicit stores
    and oracles.  Printing is left out, except where formatting a value can
    raise.

    The definitions come first ([PyNum], [PyPath], [Cleaning], [Inference],
    [Resolve], each followed by the notions the specification uses to talk
    about it), then the facts and the properties, component by component. *)

From Stdlib Require Import ZArith List String Ascii Bool Lia Floats.
From stdpp Require Import base list sorting strings gmap.
Import ListNotations.

Local Open Scope Z_scope.

(** ** Exceptions and fallible computations *)

Inductive exn : Type :=
  | AttributeError
  | TypeError
  | ValueError
  | OverflowError
  | ZeroDivisionError
  | FileNotFoundError
  | IndexError
  | KeyError
  | OSError
  | DetectorError.

Inductive result (A : Type) : Type :=
  | Ok (a : A)
  | Raise (e : exn).

Arguments Ok {A} a.
Arguments Raise {A} e.

#[global] Instance result_ret : MRet result := fun A a => Ok a.

#[global] Instance result_bind : MBind result := fun A B k r =>
  match r with
  | Ok a => k a
  | Raise e => Raise e
  end.

Definition is_ok {A : Type} (r : result A) : bool :=
  match r with Ok _ => true | Raise _ => false end.

(** ** Python numbers *)

Module PyNum.

(** [float(z)]: the nearest binary64 value, ties to even;
    [OverflowError] when [z] is too large to convert. *)
Definition int_to_float (z : Z) : result float :=
  match binary_normalize prec emax z 0 false with
  | S754_infinity _ => Raise OverflowError
  | sf => Ok (SF2Prim sf)
  end.

(** [float(len(l))]: a length is below [2^63] and always converts. *)
Definition len_to_float (n : nat) : float :=
  SF2Prim (binary_normalize prec emax (Z.of_nat n) 0 false).

(** [f * z] with a float on the left and an int on the right. *)
Definition float_mul_int (f : float) (z : Z) : result float :=
  x ← int_to_float z; Ok (PrimFloat.mul f x).

(** [f >= z], float against int: Python compares the exact values;
    an infinite or NaN float is compared as a float against [0.0]. *)
Definition float_ge_int (f : float) (z : Z) : bool :=
  match Prim2SF f with
  | S754_zero _ => z <=? 0
  | S754_infinity s => negb s
  | S754_nan => false
  | S754_finite s m e =>
      let v := if s then Z.neg m else Z.pos m in
      if 0 <=? e then z <=? v * 2 ^ e else z * 2 ^ (- e) <=? v
  end.

(** [x / y] on two floats: Python raises on a zero divisor. *)
Definition float_truediv (x y : float) : result float :=
  if PrimFloat.eqb y 0%float then Raise ZeroDivisionError
  else Ok (PrimFloat.div x y).

(** [x / len(l)]: the length is converted, and the converted divisor is
    zero exactly when the length is. *)
Definition float_div_len (x : float) (n : nat) : result float :=
  match n with
  | O => Raise ZeroDivisionError
  | S _ => Ok (PrimFloat.div x (len_to_float n))
  end.

End PyNum.

(** ** Paths ([pathlib.Path] with the POSIX flavour, [os.path.join]) *)

Module PyPath.
Local Open Scope string_scope.

Definition slash : ascii := "/"%char.
Definition dot : ascii := "."%char.

(** [s.split(sep)] *)
Fixpoint split (sep : ascii) (s : string) : list string :=
  match s with
  | EmptyString => [EmptyString]
  | String c rest =>
      if Ascii.eqb c sep then EmptyString :: split sep rest
      else match split sep rest with
           | [] => [String c EmptyString]
           | hd :: tl => String c hd :: tl
           end
  end.

(** The number of [sep] characters [s] starts with. *)
Fixpoint leading (sep : ascii) (s : string) : nat :=
  match s with
  | String c rest => if Ascii.eqb c sep then S (leading sep rest) else O
  | EmptyString => O
  end.

(** A parsed path: the root ([""], ["/"] or ["//"]) and the components,
    with empty and ["."] components dropped. *)
Record Path : Type := { root : string; parts : list string }.

Definition is_component (x : string) : bool :=
  negb (String.eqb x "") && negb (String.eqb x ".").

(** [Path(s)] *)
Definition of_string (s : string) : Path :=
  {| root := match leading slash s with
             | O => ""
             | 2%nat => "//"
             | _ => "/"
             end;
     parts := List.filter is_component (split slash s) |}.

Fixpoint join_parts (l : list string) : string :=
  match l with
  | [] => ""
  | [x] => x
  | x :: rest => x ++ "/" ++ join_parts rest
  end.

(** [str(p)] *)
Definition to_string (p : Path) : string :=
  match parts p with
  | [] => if String.eqb (root p) "" then "." else root p
  | _ :: _ => root p ++ join_parts (parts p)
  end.

(** [p.name]: the final component, if any. *)
Definition name (p : Path) : string := List.last (parts p) "".

(** [p / entry] for a directory entry name. *)
Definition child (p : Path) (entry : string) : Path :=
  {| root := root p; parts := parts p ++ [entry] |}.

(** [s.rfind(".")] *)
Fixpoint rfind_dot (s : string) : option nat :=
  match s with
  | EmptyString => None
  | String c rest =>
      match rfind_dot rest with
      | Some i => Some (S i)
      | None => if Ascii.eqb c dot then Some O else None
      end
  end.

(** [p.suffix]: the part of the name from its last dot, unless that dot
    starts or ends the name. *)
Definition suffix (p : Path) : string :=
  let n := name p in
  match rfind_dot n with
  | Some i =>
      if (0 <? i)%nat && (i <? String.length n - 1)%nat
      then String.substring i (String.length n - i) n
      else ""
  | None => ""
  end.

(** [p.stem]: the name without its suffix. *)
Definition stem (p : Path) : string :=
  let n := name p in
  match rfind_dot n with
  | Some i =>
      if (0 <? i)%nat && (i <? String.length n - 1)%nat
      then String.substring 0 i n
      else n
  | None => n
  end.

(** [s.lower()] and [s.upper()]. On the bytes of a string only the ASCII
    letters change; no other character lowers to a letter of the extension
    list below. *)
Definition lower_char (c : ascii) : ascii :=
  let n := nat_of_ascii c in
  if (65 <=? n)%nat && (n <=? 90)%nat then ascii_of_nat (n + 32) else c.

Definition upper_char (c : ascii) : ascii :=
  let n := nat_of_ascii c in
  if (97 <=? n)%nat && (n <=? 122)%nat then ascii_of_nat (n - 32) else c.

Fixpoint lower (s : string) : string :=
  match s with
  | EmptyString => EmptyString
  | String c rest => String (lower_char c) (lower rest)
  end.

Fixpoint upper (s : string) : string :=
  match s with
  | EmptyString => EmptyString
  | String c rest => String (upper_char c) (upper rest)
  end.

(** [s.startswith(t)] and [s.endswith(t)] *)
Definition startswith (s t : string) : bool := String.prefix t s.

Fixpoint endswith (s t : string) : bool :=
  String.eqb s t
  || match s with
     | String _ rest => endswith rest t
     | EmptyString => false
     end.

(** [os.path.join(a, b)] *)
Definition join (a b : string) : string :=
  if startswith b "/" then b
  else if String.eqb a "" || endswith a "/" then a ++ b
  else a ++ "/" ++ b.

End PyPath.

(** ** The cleaning filter ([scripts/02_clean_and_export_yolo.py]) *)

Module Cleaning.
Import PyNum.

(** A ground-truth box: [bounding_box] is [[x, y, w, h]] in normalised
    coordinates. *)
Record Detection : Type := {
  label : string;
  bounding_box : float * float * float * float
}.

Definition box_w (d : Detection) : float :=
  let '(_, _, w, _) := bounding_box d in w.
Definition box_h (d : Detection) : float :=
  let '(_, _, _, h) := bounding_box d in h.

(** The [Detections] label object held by a sample. *)
Record Detections : Type := { detections : list Detection }.

Record ImageMetadata : Type := {
  width : option Z;
  height : option Z
}.

Record Sample : Type := {
  sample_id : string;
  filepath : string;
  metadata : option ImageMetadata;
  sample_detections : option Detections
}.

(** The backing store, in iteration order. *)
Definition Dataset : Type := list Sample.

(** [sample.metadata.width] and [sample.metadata.height]: attribute access
    on a missing metadata object raises. *)
Definition metadata_width (s : Sample) : result (option Z) :=
  match metadata s with
  | None => Raise AttributeError
  | Some md => Ok (width md)
  end.

Definition metadata_height (s : Sample) : result (option Z) :=
  match metadata s with
  | None => Raise AttributeError
  | Some md => Ok (height md)
  end.

(** [d.bounding_box[k] * dim]: a float times an int, or a [TypeError] when
    the dimension is [None]. *)
Definition scale (f : float) (dim : option Z) : result float :=
  match dim with
  | None => Raise TypeError
  | Some z => float_mul_int f z
  end.

(** Lines 40-45: the test applied to one detection. *)
Definition keep_test (min_side min_area : Z) (s : Sample) (d : Detection)
  : result bool :=
  mw ← metadata_width s;
  w ← scale (box_w d) mw;
  mh ← metadata_height s;
  h ← scale (box_h d) mh;
  let area := PrimFloat.mul w h in
  Ok (float_ge_int w min_side && float_ge_int h min_side
      && float_ge_int area min_area).

(** Lines 38-46: the inner loop, appending to [keep]. *)
Fixpoint keep_loop (min_side min_area : Z) (s : Sample)
    (ds : list Detection) (keep : list Detection) : result (list Detection) :=
  match ds with
  | [] => Ok keep
  | d :: rest =>
      b ← keep_test min_side min_area s d;
      keep_loop min_side min_area s rest
        (if (b : bool) then keep ++ [d] else keep)
  end.

(** The locals of [filter_small_boxes]. *)
Record counters : Type := {
  to_delete : list string;
  total_boxes_before : Z;
  total_boxes_after : Z
}.

Definition init_counters : counters :=
  {| to_delete := []; total_boxes_before := 0; total_boxes_after := 0 |}.

(** Lines 48-51: the sample with its detection list replaced, as saved. *)
Definition with_detections (s : Sample) (keep : list Detection) : Sample :=
  {| sample_id := sample_id s;
     filepath := filepath s;
     metadata := metadata s;
     sample_detections := Some {| detections := keep |} |}.

(** Lines 29-55: the loop over the samples. [done] holds the samples already
    visited, as they now stand in the store; [todo] those still to visit.
    The store is returned with the outcome, since [sample.save()] has
    already taken effect when a later sample raises. [if not det] is taken
    for a missing label object; a label object with an empty list goes
    through the inner loop and is marked for deletion at line 55, with the
    same counters. *)
Fixpoint sample_loop (min_side min_area : Z) (todo done : list Sample)
    (c : counters) : Dataset * result counters :=
  match todo with
  | [] => (done, Ok c)
  | sample :: rest =>
      match sample_detections sample with
      | None =>
          sample_loop min_side min_area rest (done ++ [sample])
            {| to_delete := to_delete c ++ [sample_id sample];
               total_boxes_before := total_boxes_before c;
               total_boxes_after := total_boxes_after c |}
      | Some det =>
          let before :=
            total_boxes_before c + Z.of_nat (length (detections det)) in
          match keep_loop min_side min_area sample (detections det) [] with
          | Raise e => (done ++ todo, Raise e)
          | Ok [] =>
              sample_loop min_side min_area rest (done ++ [sample])
                {| to_delete := to_delete c ++ [sample_id sample];
                   total_boxes_before := before;
                   total_boxes_after := total_boxes_after c |}
          | Ok keep =>
              sample_loop min_side min_area rest
                (done ++ [with_detections sample keep])
                {| to_delete := to_delete c;
                   total_boxes_before := before;
                   total_boxes_after :=
                     total_boxes_after c + Z.of_nat (length keep) |}
          end
      end
  end.

(** [dataset.delete_samples(ids)]: the store without the samples whose
    identifier is listed. *)
Definition listed (ids : list string) (s : Sample) : bool :=
  existsb (String.eqb (sample_id s)) ids.

Definition delete_samples (store : Dataset) (ids : list string) : Dataset :=
  List.filter (fun s => negb (listed ids s)) store.

(** Line 63 formats [(total_boxes_before - total_boxes_after) /
    total_boxes_before * 100] for printing. True division of two ints
    raises when the divisor is [0]; the quotient is otherwise a float
    between 0 and 1 that is printed and dropped, so only the failure is
    kept here. *)
Definition removal_rate (before after : Z) : result unit :=
  if before =? 0 then Raise ZeroDivisionError else Ok tt.

(** Lines 13-65. The first component is the store when the call ends,
    whether it returns or raises; the second is the returned pair
    [(len(to_delete), total_boxes_before - total_boxes_after)]. *)
Definition filter_small_boxes (dataset : Dataset) (min_side min_area : Z)
  : Dataset * result (Z * Z) :=
  match sample_loop min_side min_area dataset [] init_counters with
  | (store, Raise e) => (store, Raise e)
  | (store, Ok c) =>
      let store' :=
        match to_delete c with
        | [] => store
        | _ :: _ => delete_samples store (to_delete c)
        end in
      (store',
       _ ← removal_rate (total_boxes_before c) (total_boxes_after c);
       Ok (Z.of_nat (length (to_delete c)),
           total_boxes_before c - total_boxes_after c))
  end.

End Cleaning.


(** ** The spec's reading of the cleaning filter *)

Module CleaningSpec.
Import PyNum Cleaning.

(** The image dimensions as floats, when the metadata carries them. *)
Definition pixel_dims (s : Sample) : option (float * float) :=
  match metadata s with
  | Some {| width := Some w; height := Some h |} =>
      match int_to_float w, int_to_float h with
      | Ok fw, Ok fh => Some (fw, fh)
      | _, _ => None
      end
  | _ => None
  end.

(** The boxes of a sample ([[]] when it has no label object). *)
Definition boxes (s : Sample) : list Detection :=
  match sample_detections s with
  | None => []
  | Some det => detections det
  end.

(** A sample the filter can process: it has no box, or its metadata gives
    both dimensions, each small enough to convert to a float. *)
Definition well_formed (s : Sample) : Prop :=
  boxes s = [] \/ is_Some (pixel_dims s).

(** The failures that come from the metadata of a sample. *)
Definition collaborator_error (e : exn) : Prop :=
  e = AttributeError \/ e = TypeError \/ e = OverflowError.

Definition pixel_w (fw : float) (d : Detection) : float :=
  PrimFloat.mul (box_w d) fw.
Definition pixel_h (fh : float) (d : Detection) : float :=
  PrimFloat.mul (box_h d) fh.
Definition area (fw fh : float) (d : Detection) : float :=
  PrimFloat.mul (pixel_w fw d) (pixel_h fh d).

(** [pixel_w >= min_side AND pixel_h >= min_side AND area >= min_area]. *)
Definition meets (min_side min_area : Z) (s : Sample) (d : Detection) : bool :=
  match pixel_dims s with
  | Some (fw, fh) =>
      float_ge_int (pixel_w fw d) min_side
      && float_ge_int (pixel_h fh d) min_side
      && float_ge_int (area fw fh d) min_area
  | None => false
  end.

Definition kept (min_side min_area : Z) (s : Sample) : list Detection :=
  List.filter (meets min_side min_area s) (boxes s).

Definition survives (min_side min_area : Z) (s : Sample) : bool :=
  match kept min_side min_area s with [] => false | _ :: _ => true end.

Definition saved (min_side min_area : Z) (s : Sample) : Sample :=
  if survives min_side min_area s
  then with_detections s (kept min_side min_area s)
  else s.

(** Boxes of a sample that fail at least one threshold. *)
Definition failing (min_side min_area : Z) (s : Sample) : list Detection :=
  List.filter (fun d => negb (meets min_side min_area s d)) (boxes s).

Definition sumZ (l : list Z) : Z := fold_right Z.add 0 l.

Definition count_boxes (ds : Dataset) : Z :=
  sumZ (map (fun s => Z.of_nat (length (boxes s))) ds).
Definition count_kept (min_side min_area : Z) (ds : Dataset) : Z :=
  sumZ (map (fun s => Z.of_nat (length (kept min_side min_area s))) ds).
Definition count_failing (min_side min_area : Z) (ds : Dataset) : Z :=
  sumZ (map (fun s => Z.of_nat (length (failing min_side min_area s))) ds).

Definition doomed (min_side min_area : Z) (ds : Dataset) : list string :=
  map sample_id (List.filter (fun s => negb (survives min_side min_area s)) ds).

End CleaningSpec.
(** ** The inference CLI ([scripts/05_infer_cli.py]) *)

Module Inference.
Import PyNum.
Local Open Scope string_scope.

(** Python values held by the result dictionaries and the JSON report. A
    [dict] keeps its items in insertion order. *)
#[local] Unset Elimination Schemes.

Inductive pyval : Type :=
  | PNone
  | PInt (z : Z)
  | PFloat (f : float)
  | PStr (s : string)
  | PList (l : list pyval)
  | PDict (items : list (string * pyval)).

#[local] Set Elimination Schemes.

Fixpoint lookup_item (key : string) (items : list (string * pyval))
  : option pyval :=
  match items with
  | [] => None
  | (k, v) :: rest => if String.eqb k key then Some v else lookup_item key rest
  end.

(** [d[key]] *)
Definition getitem (d : pyval) (key : string) : result pyval :=
  match d with
  | PDict items =>
      match lookup_item key items with
      | Some v => Ok v
      | None => Raise KeyError
      end
  | _ => Raise TypeError
  end.

(** What [process_single_image] stores under [num_detections] is
    [len(detections)], an int (line 99), and that is all the batch loop ever
    adds to [total_detections] (line 137). *)
Definition as_int (v : pyval) : result Z :=
  match v with PInt z => Ok z | _ => Raise TypeError end.

(** What [process_single_image] stores under [inference_time_ms] is
    [inference_time * 1000], a float (line 98), and that is all the batch
    loop ever adds to [total_time] (line 138). *)
Definition as_float (v : pyval) : result float :=
  match v with PFloat f => Ok f | _ => Raise TypeError end.

(** [bool(v)], as an [if] takes it. *)
Definition truthy (v : pyval) : bool :=
  match v with
  | PNone => false
  | PInt z => negb (Z.eqb z 0)
  | PFloat f => negb (PrimFloat.eqb f 0%float)
  | PStr s => negb (String.eqb s "")
  | PList l => match l with [] => false | _ :: _ => true end
  | PDict items => match items with [] => false | _ :: _ => true end
  end.

(** [f"{v:.2f}"]: a float is formatted, an int is converted first, a string
    has no such format code and no other value takes a format. *)
Definition format_f (v : pyval) : result unit :=
  match v with
  | PFloat _ => Ok tt
  | PInt z => _ ← int_to_float z; Ok tt
  | PStr _ => Raise ValueError
  | _ => Raise TypeError
  end.

(** *** The collaborators *)

(** One box of a detector result: class index, confidence, corners. *)
Record Box : Type := {
  cls : Z;
  conf : float;
  xyxy : float * float * float * float
}.

(** An annotated raster. *)
Definition Image : Type := list Z.

(** One detector result: its boxes, and what [result.plot()] gives, a
    raster or an exception. *)
Record Result : Type := {
  boxes : option (list Box);
  plot : result Image
}.

(** The detector, the clock, the operating system and the two library
    functions whose arithmetic is not the script's. The detector and the
    clock are asked by call number, so that two calls on one path may
    differ.

    - [cv2_imwrite] raises or returns the flag that [cv2.imwrite] returns
      ([False] when the file could not be written).
    - [open_for_writing] is [open(path, 'w')], [json_dump] is [json.dump]
      into the file just opened.
    - [sum_with_floats total f rest] is how the built-in [sum] goes on from
      an int [total] once a float [f] has come up, [rest] being the results
      not yet looked at: the floating-point accumulation differs between
      interpreter versions.
    - [mean_of_floats] is [np.mean] of a list of floats that is not empty,
      which raises nothing; its summation order is numpy's.
      [mean_of_others] is [np.mean] of a list, not empty, that holds another
      kind of value. *)
Record Env : Type := {
  path_exists : string -> bool;
  names : list (Z * string);
  predict : nat -> string -> float -> result (list Result);
  elapsed : nat -> float;
  makedirs : string -> result unit;
  cv2_imwrite : string -> Image -> result bool;
  open_for_writing : string -> result unit;
  json_dump : string -> pyval -> result unit;
  sum_with_floats : Z -> float -> list pyval -> result pyval;
  mean_of_floats : list float -> float;
  mean_of_others : list pyval -> result pyval;
  strftime : string
}.

(** What the calls leave behind: the number of detector calls, the
    directories made, the calls of [cv2.imwrite] that returned (the script
    does not look at the flag), the files opened for writing, which are
    thereby created or emptied, and the reports that [json.dump] has
    written in full. *)
Record World : Type := {
  calls : nat;
  dirs : list string;
  images : list (string * Image);
  opened : list string;
  reports : list (string * pyval)
}.

Definition new_world : World :=
  {| calls := 0; dirs := []; images := []; opened := []; reports := [] |}.

(** Computations that change the world and may raise. *)
Definition M (A : Type) : Type := World -> World * result A.

#[global] Instance M_ret : MRet M := fun A a w => (w, Ok a).

#[global] Instance M_bind : MBind M := fun A B k m w =>
  match m w with
  | (w', Ok a) => k a w'
  | (w', Raise e) => (w', Raise e)
  end.

Definition raise {A : Type} (e : exn) : M A := fun w => (w, Raise e).

Definition lift {A : Type} (r : result A) : M A := fun w => (w, r).

(** [model(image_path, conf=conf, verbose=False)], timed. *)
Definition call_model (env : Env) (image_path : string) (c : float)
  : M (list Result * float) := fun w =>
  let n := calls w in
  let w' := {| calls := S n; dirs := dirs w; images := images w;
               opened := opened w; reports := reports w |} in
  match predict env n image_path c with
  | Ok results => (w', Ok (results, elapsed env n))
  | Raise e => (w', Raise e)
  end.

(** [os.makedirs(output_dir, exist_ok=True)] *)
Definition do_makedirs (env : Env) (output_dir : string) : M unit := fun w =>
  match makedirs env output_dir with
  | Ok _ =>
      ({| calls := calls w; dirs := dirs w ++ [output_dir];
          images := images w; opened := opened w;
          reports := reports w |}, Ok tt)
  | Raise e => (w, Raise e)
  end.

(** [cv2.imwrite(output_path, annotated_img)], whose flag is dropped. *)
Definition imwrite (env : Env) (output_path : string) (img : Image)
  : M unit := fun w =>
  match cv2_imwrite env output_path img with
  | Ok _ =>
      ({| calls := calls w; dirs := dirs w;
          images := images w ++ [(output_path, img)];
          opened := opened w; reports := reports w |}, Ok tt)
  | Raise e => (w, Raise e)
  end.

(** [with open(output_path, 'w') as f:] *)
Definition open_w (env : Env) (output_path : string) : M unit := fun w =>
  match open_for_writing env output_path with
  | Ok _ =>
      ({| calls := calls w; dirs := dirs w; images := images w;
          opened := opened w ++ [output_path];
          reports := reports w |}, Ok tt)
  | Raise e => (w, Raise e)
  end.

(** [json.dump(data, f)] into the file opened at [output_path] *)
Definition dump (env : Env) (output_path : string) (data : pyval)
  : M unit := fun w =>
  match json_dump env output_path data with
  | Ok _ =>
      ({| calls := calls w; dirs := dirs w; images := images w;
          opened := opened w;
          reports := reports w ++ [(output_path, data)] |}, Ok tt)
  | Raise e => (w, Raise e)
  end.

(** Lines 181-182: the file is opened, and so emptied, before anything is
    written to it. *)
Definition dump_json (env : Env) (output_path : string) (data : pyval)
  : M unit :=
  _ ← open_w env output_path;
  dump env output_path data.

(** [model.names[class_id]] *)
Fixpoint lookup_name (class_id : Z) (table : list (Z * string))
  : result string :=
  match table with
  | [] => Raise KeyError
  | (k, v) :: rest =>
      if Z.eqb k class_id then Ok v else lookup_name class_id rest
  end.

(** *** [process_single_image] *)

(** Lines 72-77: the dictionary built for one box. *)
Definition detection_of (env : Env) (box : Box) : result pyval :=
  class_name ← lookup_name (cls box) (names env);
  let '(x1, y1, x2, y2) := xyxy box in
  Ok (PDict [("class_id", PInt (cls box));
             ("class_name", PStr class_name);
             ("confidence", PFloat (conf box));
             ("bbox", PList [PFloat x1; PFloat y1; PFloat x2; PFloat y2])]).

(** Lines 71-78: the loop over the boxes, appending to [detections]. *)
Fixpoint detections_loop (env : Env) (bs : list Box) (detections : list pyval)
  : result (list pyval) :=
  match bs with
  | [] => Ok detections
  | box :: rest =>
      detection ← detection_of env box;
      detections_loop env rest (detections ++ [detection])
  end.

(** Lines 68-78 *)
Definition parse_detections (env : Env) (r : Result) : result (list pyval) :=
  match boxes r with
  | None => Ok []
  | Some bs => detections_loop env bs []
  end.

Definition nonempty {A : Type} (l : list A) : bool :=
  match l with [] => false | _ :: _ => true end.

(** Line 90: where the annotated copy of [image_path] goes. *)
Definition annotated_path (output_dir image_path : string) : string :=
  PyPath.join output_dir
    (PyPath.stem (PyPath.of_string image_path) ++ "_result.jpg").

(** Lines 81-93: the value of [output_path] after the saving block. *)
Definition save_annotated (env : Env) (save_result : bool)
    (output_dir image_path : string) (r : Result) (detections : list pyval)
  : M pyval :=
  if save_result && nonempty detections then
    _ ← do_makedirs env output_dir;
    annotated_img ← lift (plot r);
    let output_path := annotated_path output_dir image_path in
    _ ← imwrite env output_path annotated_img;
    mret (PStr output_path)
  else mret PNone.

(** Lines 41-104 *)
Definition process_single_image (env : Env) (image_path : string)
    (c : float) (save_result : bool) (output_dir : string) : M pyval :=
  if negb (path_exists env image_path) then raise FileNotFoundError
  else
    '(results, inference_time) ← call_model env image_path c;
    r ← lift (match results with
              | [] => Raise IndexError
              | r :: _ => Ok r
              end);
    detections ← lift (parse_detections env r);
    output_path ← save_annotated env save_result output_dir image_path r
                    detections;
    inference_time_ms ← lift (float_mul_int inference_time 1000);
    mret (PDict [("image_path", PStr image_path);
                 ("inference_time_ms", PFloat inference_time_ms);
                 ("num_detections", PInt (Z.of_nat (length detections)));
                 ("detections", PList detections);
                 ("output_path", output_path)]).

(** *** [process_batch_images] *)

(** The locals of the loop. *)
Record batch_state : Type := {
  all_results : list pyval;
  total_detections : Z;
  total_time : float
}.

Definition init_batch : batch_state :=
  {| all_results := []; total_detections := 0; total_time := 0%float |}.

(** Lines 136-138: what follows a successful [process_single_image] inside
    the [try]. The two values read back are the ones that call has stored
    under these keys, an int and a float; a statement that raises leaves
    the earlier ones done. [total_time] starts as the int [0], which the
    first addition converts to [0.0]. *)
Definition record_result (st : batch_state) (result_info : pyval)
  : batch_state :=
  let st1 := {| all_results := all_results st ++ [result_info];
                total_detections := total_detections st;
                total_time := total_time st |} in
  match getitem result_info "num_detections" ≫= as_int with
  | Raise _ => st1
  | Ok n =>
      let st2 := {| all_results := all_results st1;
                    total_detections := total_detections st1 + n;
                    total_time := total_time st1 |} in
      match getitem result_info "inference_time_ms" ≫= as_float with
      | Raise _ => st2
      | Ok t =>
          {| all_results := all_results st2;
             total_detections := total_detections st2;
             total_time := PrimFloat.add (total_time st2) t |}
      end
  end.

(** Lines 129-145: one iteration; [except Exception] swallows any failure
    and goes on with the next image. *)
Definition batch_step (env : Env) (c : float) (save_results : bool)
    (output_dir : string) (st : batch_state) (image_path : string)
  : World -> World * batch_state := fun w =>
  match process_single_image env image_path c save_results output_dir w with
  | (w', Ok result_info) => (w', record_result st result_info)
  | (w', Raise _) => (w', st)
  end.

(** Lines 128-145 *)
Fixpoint batch_loop (env : Env) (c : float) (save_results : bool)
    (output_dir : string) (image_paths : list string) (st : batch_state)
  : World -> World * batch_state := fun w =>
  match image_paths with
  | [] => (w, st)
  | image_path :: rest =>
      let '(w', st') := batch_step env c save_results output_dir st image_path w in
      batch_loop env c save_results output_dir rest st' w'
  end.

(** Line 148: [total_time / len(all_results) if all_results else 0] *)
Definition avg_time_of (st : batch_state) : result float :=
  if nonempty (all_results st)
  then float_div_len (total_time st) (length (all_results st))
  else Ok 0%float.

(** Line 149: [1000 / avg_time if avg_time > 0 else 0] *)
Definition avg_fps_of (avg_time : float) : result float :=
  if PrimFloat.ltb 0%float avg_time
  then float_truediv 1000%float avg_time
  else Ok 0%float.

(** The figures printed at lines 152-155. *)
Record batch_stats : Type := {
  processed : nat;
  requested : nat;
  detections_found : Z;
  avg_time : float;
  avg_fps : float
}.

Definition stats_of (image_paths : list string) (st : batch_state)
  : result batch_stats :=
  t ← avg_time_of st;
  f ← avg_fps_of t;
  Ok {| processed := length (all_results st);
        requested := length image_paths;
        detections_found := total_detections st;
        avg_time := t;
        avg_fps := f |}.

(** Lines 106-157, returning the printed statistics beside [all_results]. *)
Definition process_batch_images (env : Env) (image_paths : list string)
    (c : float) (save_results : bool) (output_dir : string)
  : M (list pyval * batch_stats) := fun w =>
  let '(w', st) :=
    batch_loop env c save_results output_dir image_paths init_batch w in
  match stats_of image_paths st with
  | Ok stats => (w', Ok (all_results st, stats))
  | Raise e => (w', Raise e)
  end.

(** *** [save_results_json] *)

(** [sum(r["num_detections"] for r in results)]: the generator is consumed
    one result at a time. Ints are added exactly; a value that is no number
    cannot be added to the total. *)
Fixpoint sum_detections (env : Env) (results : list pyval) (acc : Z)
  : result pyval :=
  match results with
  | [] => Ok (PInt acc)
  | r :: rest =>
      v ← getitem r "num_detections";
      match v with
      | PInt n => sum_detections env rest (acc + n)
      | PFloat f => sum_with_floats env acc f rest
      | _ => Raise TypeError
      end
  end.

(** [[r["inference_time_ms"] for r in results]] *)
Fixpoint inference_times (results : list pyval) : result (list pyval) :=
  match results with
  | [] => Ok []
  | r :: rest =>
      t ← getitem r "inference_time_ms";
      ts ← inference_times rest;
      Ok (t :: ts)
  end.

(** The floats of a list that holds nothing else. *)
Fixpoint all_floats (xs : list pyval) : option (list float) :=
  match xs with
  | [] => Some []
  | PFloat f :: rest => fs ← all_floats rest; Some (f :: fs)
  | _ :: _ => None
  end.

(** [np.mean(xs)]: over no element it is [0.0 / 0.0], with a warning and no
    exception. *)
Definition np_mean (env : Env) (xs : list pyval) : result pyval :=
  match xs with
  | [] => Ok (PFloat (PrimFloat.div 0%float (len_to_float 0)))
  | _ :: _ =>
      match all_floats xs with
      | Some fs => Ok (PFloat (mean_of_floats env fs))
      | None => mean_of_others env xs
      end
  end.

(** Lines 169-174 *)
Definition summary_of (env : Env) (results : list pyval) : result pyval :=
  total ← sum_detections env results 0;
  times ← inference_times results;
  avg ← np_mean env times;
  Ok (PDict [("total_images", PInt (Z.of_nat (length results)));
             ("total_detections", total);
             ("avg_inference_time_ms", avg);
             ("processing_timestamp", PStr (strftime env))]).

(** Lines 159-184 *)
Definition save_results_json (env : Env) (results : list pyval)
    (output_path : string) : M unit :=
  summary ← lift (summary_of env results);
  let output_data :=
    PDict [("summary", summary); ("results", PList results)] in
  dump_json env output_path output_data.

End Inference.

(** ** The spec's reading of the inference runner *)

Module InferenceSpec.
Import PyNum Inference.
Local Open Scope string_scope.

(** An InferenceRecord with the five fields of the report schema. *)
Definition record_of (image_path : string) (ms : float)
    (detections : list pyval) (output_path : pyval) : pyval :=
  PDict [("image_path", PStr image_path);
         ("inference_time_ms", PFloat ms);
         ("num_detections", PInt (Z.of_nat (length detections)));
         ("detections", PList detections);
         ("output_path", output_path)].

Definition record_shape (r : pyval) : Prop :=
  exists p ms dets out,
    r = record_of p ms dets out /\ (out = PNone \/ exists o, out = PStr o).

(** The record invariant: the count agrees with the list, and the other
    fields are there, the output path possibly [None]. *)
Definition record_consistent (r : pyval) : Prop :=
  (exists dets,
     getitem r "detections" = Ok (PList dets) /\
     getitem r "num_detections" = Ok (PInt (Z.of_nat (length dets)))) /\
  (exists ms, getitem r "inference_time_ms" = Ok (PFloat ms)) /\
  (exists p, getitem r "image_path" = Ok (PStr p)) /\
  (getitem r "output_path" = Ok PNone \/
   exists o, getitem r "output_path" = Ok (PStr o)).

Definition record_ms (r : pyval) : float :=
  match getitem r "inference_time_ms" with
  | Ok (PFloat ms) => ms
  | _ => 0%float
  end.

Definition record_count (r : pyval) : Z :=
  match getitem r "num_detections" with
  | Ok (PInt n) => n
  | _ => 0
  end.

(** The arithmetic mean of a list of floats: their sum, taken from the
    left, over their number. *)
Definition float_sum (xs : list float) : float :=
  fold_left PrimFloat.add xs 0%float.

Definition mean (xs : list float) : float :=
  PrimFloat.div (float_sum xs) (len_to_float (length xs)).

(** The records of the images of a batch that are processed without a
    failure, in order. *)
Fixpoint successes (env : Env) (c : float) (save_results : bool)
    (output_dir : string) (image_paths : list string) (w : World)
  : list pyval :=
  match image_paths with
  | [] => []
  | image_path :: rest =>
      match process_single_image env image_path c save_results output_dir w with
      | (w', Ok r) => r :: successes env c save_results output_dir rest w'
      | (w', Raise _) => successes env c save_results output_dir rest w'
      end
  end.

(** The world after a call of the detector. *)
Definition after_call (w : World) : World :=
  {| calls := S (calls w); dirs := dirs w; images := images w;
     opened := opened w; reports := reports w |}.

(** The world after a call of the detector and the making of the output
    directory. *)
Definition after_mkdir (w : World) (output_dir : string) : World :=
  {| calls := S (calls w); dirs := dirs w ++ [output_dir];
     images := images w; opened := opened w; reports := reports w |}.

(** The world after a call of the detector and the saving of the
    annotated copy. *)
Definition after_save (w : World) (output_dir target : string) (img : Image)
  : World :=
  {| calls := S (calls w); dirs := dirs w ++ [output_dir];
     images := images w ++ [(target, img)];
     opened := opened w; reports := reports w |}.

End InferenceSpec.

(** ** Image-source resolution ([get_image_files], [scripts/05_infer_cli.py]) *)

Module Resolve.
Import PyPath.
Local Open Scope string_scope.

(** The file system as [get_image_files] consults it. A path is given by
    its string; [scandir] lists the names of the entries directly inside a
    directory; [glob] is [glob.glob]. *)
Record FS : Type := {
  is_file : string -> bool;
  is_dir : string -> bool;
  scandir : string -> list string;
  glob : string -> list string
}.

(** Line 197. The set is listed in the order of the source; the final sort
    makes the order of its iteration immaterial. *)
Definition image_extensions : list string :=
  [".jpg"; ".jpeg"; ".png"; ".bmp"; ".tiff"; ".webp"].

(** [x in image_extensions] *)
Definition in_extensions (x : string) : bool :=
  existsb (String.eqb x) image_extensions.

(** [source_path.glob("*" + ext)]: the entries of the directory whose name
    ends with [ext], as children of [source_path]. With the POSIX flavour the
    match is case-sensitive and a leading dot is not special. *)
Definition path_glob (fs : FS) (source_path : Path) (ext : string) : list Path :=
  map (child source_path)
    (List.filter (fun entry => endswith entry ext)
       (scandir fs (to_string source_path))).

(** Lines 208-210: the loop over the extensions, extending [image_files]
    twice for each. *)
Fixpoint glob_loop (fs : FS) (source_path : Path) (exts : list string)
    (image_files : list Path) : list Path :=
  match exts with
  | [] => image_files
  | ext :: rest =>
      glob_loop fs source_path rest
        ((image_files ++ path_glob fs source_path ext)
           ++ path_glob fs source_path (upper ext))
  end.

(** [a <= b] on strings. *)
Definition str_le (a b : string) : Prop := Is_true (String.leb a b).

#[global] Instance str_le_dec : RelDecision str_le :=
  fun a b => Is_true_dec (String.leb a b).

(** [sorted(l)] on a list of strings. *)
Definition sorted (l : list string) : list string := merge_sort str_le l.

(** Lines 186-218 *)
Definition get_image_files (fs : FS) (source : string) : list string :=
  let source_path := of_string source in
  let image_files :=
    if is_file fs (to_string source_path) then
      if in_extensions (lower (suffix source_path))
      then [to_string source_path]
      else []
    else if is_dir fs (to_string source_path) then
      map to_string (glob_loop fs source_path image_extensions [])
    else
      List.filter (fun f => in_extensions (lower (suffix (of_string f))))
        (glob fs source)
  in
  sorted image_files.

End Resolve.

(** ** The spec's reading of image-source resolution *)

Module ResolveSpec.
Import PyPath Resolve.
Local Open Scope string_scope.

(** An entry name carries an allowed extension as written in the list or in
    upper case. *)
Definition name_matches (entry : string) : bool :=
  existsb (fun ext => endswith entry ext || endswith entry (upper ext))
    image_extensions.

(** The patterns the directory branch globs for, without the star. *)
Definition patterns : list string :=
  flat_map (fun ext => [ext; upper ext]) image_extensions.












End ResolveSpec.

(** ** Concrete stores, environments and directories *)

Module CleaningExamples.
Import Cleaning.

(** Samples used to run the filter on concrete stores. *)
Definition vga : option ImageMetadata :=
  Some {| width := Some 640; height := Some 480 |}.
Definition large_box : Detection :=
  {| label := "Beetle"; bounding_box := (0.25, 0.25, 0.5, 0.5)%float |}.
Definition thin_box : Detection :=
  {| label := "Beetle"; bounding_box := (0.25, 0.25, 0.0078125, 0.5)%float |}.
Definition mixed : Sample :=
  {| sample_id := "s1"; filepath := "img/s1.jpg"; metadata := vga;
     sample_detections := Some {| detections := [thin_box; large_box] |} |}.
Definition tiny_only : Sample :=
  {| sample_id := "s2"; filepath := "img/s2.jpg"; metadata := vga;
     sample_detections := Some {| detections := [thin_box] |} |}.
Definition unlabelled : Sample :=
  {| sample_id := "s3"; filepath := "img/s3.jpg"; metadata := vga;
     sample_detections := None |}.
Definition no_metadata : Sample :=
  {| sample_id := "s4"; filepath := "img/s4.jpg"; metadata := None;
     sample_detections := Some {| detections := [large_box] |} |}.

End CleaningExamples.

Module InferenceExamples.
Import Inference.
Local Open Scope string_scope.

Definition beetle_box : Box :=
  {| cls := 0; conf := 0.875%float; xyxy := (10, 20, 110, 220)%float |}.

(** The dictionary that [process_single_image] builds for that box. *)
Definition beetle_detection : pyval :=
  PDict [("class_id", PInt 0); ("class_name", PStr "Beetle");
         ("confidence", PFloat 0.875);
         ("bbox", PList [PFloat 10; PFloat 20; PFloat 110; PFloat 220])].

(** The built-in [sum] of an interpreter that adds floats from the left,
    from an int total and a float on. *)
Fixpoint left_sum (total : float) (rest : list pyval) : result pyval :=
  match rest with
  | [] => Ok (PFloat total)
  | r :: rest' =>
      v ← getitem r "num_detections";
      match v with
      | PInt n => x ← PyNum.int_to_float n; left_sum (PrimFloat.add total x) rest'
      | PFloat f => left_sum (PrimFloat.add total f) rest'
      | _ => Raise TypeError
      end
  end.

(** Two images exist; the detector finds one beetle in the first and
    nothing in the second. Every file can be written; sums and means are
    taken from the left. *)
Definition demo_env : Env :=
  {| path_exists := fun p =>
       String.eqb p "imgs/a.jpg" || String.eqb p "imgs/c.jpg";
     names := [(0, "Beetle")];
     predict := fun _ p _ =>
       if String.eqb p "imgs/a.jpg"
       then Ok [{| boxes := Some [beetle_box]; plot := Ok [1; 2; 3] |}]
       else Ok [{| boxes := Some []; plot := Ok [4; 5; 6] |}];
     elapsed := fun n =>
       if Nat.eqb n 0 then 0.0078125%float else 0.015625%float;
     makedirs := fun _ => Ok tt;
     cv2_imwrite := fun _ _ => Ok true;
     open_for_writing := fun _ => Ok tt;
     json_dump := fun _ _ => Ok tt;
     sum_with_floats := fun total f rest =>
       x ← PyNum.int_to_float total; left_sum (PrimFloat.add x f) rest;
     mean_of_floats := fun xs =>
       PrimFloat.div (fold_left PrimFloat.add xs 0%float)
         (PyNum.len_to_float (length xs));
     mean_of_others := fun _ => Raise TypeError;
     strftime := "2025-01-01 00:00:00" |}.

(** An environment with another detector. *)
Definition with_predict (e : Env)
    (p : nat -> string -> float -> result (list Result)) : Env :=
  {| path_exists := path_exists e;
     names := names e;
     predict := p;
     elapsed := elapsed e;
     makedirs := makedirs e;
     cv2_imwrite := cv2_imwrite e;
     open_for_writing := open_for_writing e;
     json_dump := json_dump e;
     sum_with_floats := sum_with_floats e;
     mean_of_floats := mean_of_floats e;
     mean_of_others := mean_of_others e;
     strftime := strftime e |}.

(** The same images with a detector that raises on every call. *)
Definition broken_env : Env :=
  with_predict demo_env (fun _ _ _ => Raise DetectorError).


(** A disk that fills up while the report is written. *)
Definition full_disk_env : Env :=
  {| path_exists := path_exists demo_env;
     names := names demo_env;
     predict := predict demo_env;
     elapsed := elapsed demo_env;
     makedirs := makedirs demo_env;
     cv2_imwrite := cv2_imwrite demo_env;
     open_for_writing := open_for_writing demo_env;
     json_dump := fun _ _ => Raise OSError;
     sum_with_floats := sum_with_floats demo_env;
     mean_of_floats := mean_of_floats demo_env;
     mean_of_others := mean_of_others demo_env;
     strftime := strftime demo_env |}.


Definition three_images : list string :=
  ["imgs/a.jpg"; "imgs/b.jpg"; "imgs/c.jpg"].

End InferenceExamples.

Module ResolveExamples.
Import Resolve.
Local Open Scope string_scope.

(** A directory [imgs] holding [a.jpg], [b.PNG] and [c.txt], and beside it
    a file [notes.txt] and a file [shot.JPeG]. *)
Definition demo_fs : FS :=
  {| is_file := fun p =>
       String.eqb p "notes.txt" || String.eqb p "shot.JPeG"
       || String.eqb p "imgs/a.jpg" || String.eqb p "imgs/b.PNG"
       || String.eqb p "imgs/c.txt";
     is_dir := fun p => String.eqb p "imgs";
     scandir := fun p =>
       if String.eqb p "imgs" then ["c.txt"; "b.PNG"; "a.jpg"] else [];
     glob := fun pattern =>
       if String.eqb pattern "imgs/*"
       then ["imgs/c.txt"; "imgs/b.PNG"; "imgs/a.jpg"]
       else [] |}.

(** A directory [d] holding a file [x.jpg] and a sub-directory named
    [sub.png]. *)
Definition nested_fs : FS :=
  {| is_file := fun p => String.eqb p "d/x.jpg";
     is_dir := fun p => String.eqb p "d" || String.eqb p "d/sub.png";
     scandir := fun p =>
       if String.eqb p "d" then ["x.jpg"; "sub.png"] else [];
     glob := fun _ => [] |}.

End ResolveExamples.

(** ** The entry point of the inference CLI ([main], [load_model]) *)

Module InferMain.
Import PyNum Inference Resolve.
Local Open Scope string_scope.

(** The parsed command line (lines 243-258). *)
Record Args : Type := {
  arg_model : string;
  arg_source : string;
  arg_conf : float;
  arg_output_dir : string;
  arg_no_save : bool;
  arg_save_json : bool;
  arg_device : string
}.

(** The collaborators of [main]: those of the runner, the file system, the
    construction of the model (with the report of its device and classes,
    lines 34-37) and [model.to(device)]. *)
Record MainEnv : Type := {
  env : Env;
  fs : FS;
  load_yolo : string -> result unit;
  move_to : string -> result unit
}.

(** Lines 20-39 *)
Definition load_model (me : MainEnv) (model_path : string) : M unit :=
  if negb (path_exists (env me) model_path) then raise FileNotFoundError
  else lift (load_yolo me model_path).

(** Line 296: [det['class_name']] and [det['confidence']:.3f] for one
    detection. *)
Definition show_detection (det : pyval) : result unit :=
  _ ← getitem det "class_name";
  _ ← getitem det "confidence" ≫= format_f;
  Ok tt.

Fixpoint show_detections (dets : list pyval) : result unit :=
  match dets with
  | [] => Ok tt
  | det :: rest => _ ← show_detection det; show_detections rest
  end.

(** Lines 288-296: the look-ups made to print the result of a single
    image. The detections are listed when the value under [detections] is
    true; enumerating a number fails, and the elements of a string or the
    keys of a dictionary are strings, which take no string index. *)
Definition show_single (r : pyval) : result unit :=
  _ ← getitem r "image_path";
  _ ← getitem r "num_detections";
  _ ← getitem r "inference_time_ms" ≫= format_f;
  dets ← getitem r "detections";
  if truthy dets then
    dets ← getitem r "detections";
    match dets with
    | PList l => show_detections l
    | _ => Raise TypeError
    end
  else Ok tt.

(** Lines 260-314: the body of the [try], giving the exit code. *)
Definition main_try (me : MainEnv) (args : Args) : M Z :=
  _ ← load_model me (arg_model args);
  _ ← (if negb (String.eqb (arg_device args) "")
       then lift (move_to me (arg_device args))
       else mret tt);
  let image_files := get_image_files (fs me) (arg_source args) in
  match image_files with
  | [] => mret 1
  | _ :: _ =>
      let save_results := negb (arg_no_save args) in
      results ←
        match image_files with
        | [image] =>
            r ← process_single_image (env me) image (arg_conf args)
                  save_results (arg_output_dir args);
            _ ← lift (show_single r);
            mret [r]
        | _ =>
            '(rs, _) ← process_batch_images (env me) image_files
                         (arg_conf args) save_results (arg_output_dir args);
            mret rs
        end;
      _ ← (if arg_save_json args then
             let json_path :=
               PyPath.join (arg_output_dir args) "inference_results.json" in
             _ ← do_makedirs (env me) (arg_output_dir args);
             save_results_json (env me) results json_path
           else mret tt);
      mret 0
  end.

(** Lines 220-318: [except Exception] turns any failure into exit code 1. *)
Definition main (me : MainEnv) (args : Args) : World -> World * Z := fun w =>
  match main_try me args w with
  | (w', Ok code) => (w', code)
  | (w', Raise _) => (w', 1)
  end.

End InferMain.

Module InferMainSpec.
Import Inference InferenceSpec Resolve InferMain.
Local Open Scope string_scope.

(** The model is loaded and moved: the first two steps of [main] pass. *)
Definition ready (me : MainEnv) (args : Args) : Prop :=
  path_exists (env me) (arg_model args) = true /\
  load_yolo me (arg_model args) = Ok tt /\
  (arg_device args = "" \/ move_to me (arg_device args) = Ok tt).

(** Where [main] writes the report. *)
Definition json_path (args : Args) : string :=
  PyPath.join (arg_output_dir args) "inference_results.json".

(** The report can be written: the directory made, the file opened and the
    data dumped. *)
Definition report_writable (me : MainEnv) (args : Args) : Prop :=
  makedirs (env me) (arg_output_dir args) = Ok tt /\
  open_for_writing (env me) (json_path args) = Ok tt /\
  forall data, json_dump (env me) (json_path args) data = Ok tt.

(** The records of a run started in [w]: the record of the single image,
    or the records of the images of the batch that are processed. *)
Definition run_records (me : MainEnv) (args : Args) (w : World)
  : list pyval :=
  let save_results := negb (arg_no_save args) in
  match get_image_files (fs me) (arg_source args) with
  | [image] =>
      match process_single_image (env me) image (arg_conf args)
              save_results (arg_output_dir args) w with
      | (_, Ok r) => [r]
      | (_, Raise _) => []
      end
  | image_files =>
      successes (env me) (arg_conf args) save_results (arg_output_dir args)
        image_files w
  end.

End InferMainSpec.

Module InferMainExamples.
Import Inference Resolve InferMain InferenceExamples ResolveExamples.
Local Open Scope string_scope.

(** The demonstration images and detector, with a model file [best.pt]. *)
Definition with_model (e : Env) : Env :=
  {| path_exists := fun p => String.eqb p "best.pt" || path_exists e p;
     names := names e;
     predict := predict e;
     elapsed := elapsed e;
     makedirs := makedirs e;
     cv2_imwrite := cv2_imwrite e;
     open_for_writing := open_for_writing e;
     json_dump := json_dump e;
     sum_with_floats := sum_with_floats e;
     mean_of_floats := mean_of_floats e;
     mean_of_others := mean_of_others e;
     strftime := strftime e |}.

Definition demo_main_env : MainEnv :=
  {| env := with_model demo_env;
     fs := demo_fs;
     load_yolo := fun _ => Ok tt;
     move_to := fun _ => Ok tt |}.

Definition broken_main_env : MainEnv :=
  {| env := with_model broken_env;
     fs := demo_fs;
     load_yolo := fun _ => Ok tt;
     move_to := fun _ => Ok tt |}.

Definition demo_args (source : string) (json : bool) : Args :=
  {| arg_model := "best.pt";
     arg_source := source;
     arg_conf := 0.25%float;
     arg_output_dir := "out";
     arg_no_save := false;
     arg_save_json := json;
     arg_device := "" |}.

End InferMainExamples.

(** ** Export and entry point of the cleaning script
    ([export_to_yolo], [create_attribution_csv], [main],
    [scripts/02_clean_and_export_yolo.py]) *)

Module ExportMain.
Import Inference Cleaning.
Local Open Scope string_scope.

(** The parsed command line (lines 172-188). *)
Record Args : Type := {
  arg_train_dataset : string;
  arg_val_dataset : string;
  arg_export_dir : string;
  arg_min_side : Z;
  arg_min_area : Z;
  arg_skip_cleaning : bool;
  arg_full_scale : bool
}.

(** The collaborators, each telling whether the operation goes through
    ([false] or [None]: it raises). [yaml] is [None] when [data.yaml] does
    not exist after the export, and otherwise tells whether it can be
    read. *)
Record ExportEnv : Type := {
  mkdir_ok : string -> bool;
  export_ok : string -> string -> Dataset -> bool;
  yaml : string -> option bool;
  listing_ok : string -> bool;
  sample_get : Sample -> option string;
  today : string;
  csv_ok : string -> bool;
  list_datasets_ok : bool
}.

(** The dataset store by name, the exports made (directory, split,
    samples) and the CSV files written (path, rows). A dataset handle is the
    name of its dataset: two handles on one name share the samples. *)
Record XWorld : Type := {
  db : gmap string Dataset;
  exported : list (string * string * Dataset);
  csvs : list (string * list pyval)
}.

(** Computations on that world; [None] stands for a raised exception, which
    the script only ever prints. *)
Definition XM (A : Type) : Type := XWorld -> XWorld * option A.

#[global] Instance XM_ret : MRet XM := fun A a w => (w, Some a).

#[global] Instance XM_bind : MBind XM := fun A B k m w =>
  match m w with
  | (w', Some a) => k a w'
  | (w', None) => (w', None)
  end.

(** An operation of a collaborator without effect on the world. *)
Definition guard (ok : bool) : XM unit := fun w =>
  (w, if ok then Some tt else None).

(** [try: body except Exception: handler] *)
Definition catch {A : Type} (body handler : XM A) : XM A := fun w =>
  match body w with
  | (w', Some a) => (w', Some a)
  | (w', None) => handler w'
  end.

(** [fo.load_dataset(name)] *)
Definition load_dataset (name : string) : XM string := fun w =>
  (w, match db w !! name with Some _ => Some name | None => None end).

(** The samples behind a handle. *)
Definition samples_of (handle : string) : XM Dataset := fun w =>
  (w, db w !! handle).

(** [filter_small_boxes(dataset, min_side, min_area)] on a handle: the call
    of [Cleaning.filter_small_boxes] on the samples, whose store replaces
    them whether the call returns or raises. *)
Definition clean (handle : string) (min_side min_area : Z) : XM (Z * Z) :=
  fun w =>
  match db w !! handle with
  | None => (w, None)
  | Some ds =>
      let '(store, outcome) := filter_small_boxes ds min_side min_area in
      ({| db := <[handle := store]> (db w);
          exported := exported w;
          csvs := csvs w |},
       match outcome with Ok r => Some r | Raise _ => None end)
  end.

(** [dataset.export(export_dir=..., split=split, ...)] *)
Definition export_dataset (ee : ExportEnv) (dir split handle : string)
  : XM unit := fun w =>
  match db w !! handle with
  | None => (w, None)
  | Some ds =>
      if export_ok ee dir split ds
      then ({| db := db w;
               exported := exported w ++ [(dir, split, ds)];
               csvs := csvs w |}, Some tt)
      else (w, None)
  end.

(** Lines 67-128 *)
Definition export_to_yolo (ee : ExportEnv) (train_dataset val_dataset : string)
    (export_dir : string) : XM bool :=
  let export_path := PyPath.of_string export_dir in
  let dir := PyPath.to_string export_path in
  _ ← guard (mkdir_ok ee dir);
  catch
    (_ ← export_dataset ee dir "train" train_dataset;
     _ ← export_dataset ee dir "val" val_dataset;
     let data_yaml := PyPath.to_string (PyPath.child export_path "data.yaml") in
     _ ← match yaml ee data_yaml with
         | Some readable => guard readable
         | None => mret tt
         end;
     _ ← guard (listing_ok ee dir);
     mret true)
    (mret false).

(** [os.path.basename(p)]: what follows the last slash. *)
Definition basename (p : string) : string :=
  List.last (PyPath.split PyPath.slash p) "".

(** Lines 147-158: the record appended for one sample. *)
Definition attribution_record (ee : ExportEnv) (split : string)
    (sample : Sample) : option pyval :=
  image_id ← sample_get ee sample;
  Some (PDict
    [("split", PStr split);
     ("image_id", PStr image_id);
     ("filename", PStr (basename (filepath sample)));
     ("source", PStr "Open Images Dataset V7");
     ("license", PStr "CC BY 2.0 (individual verification required)");
     ("attribution",
      PStr "Image from Open Images Dataset V7, licensed under CC BY 2.0");
     ("url",
      PStr ("https://storage.googleapis.com/openimages/web/visualizer/index.html?set=train&type=detection&c=%2Fm%2F0cyf8&id="
            ++ image_id));
     ("usage_date", PStr (today ee))]).

(** Lines 145-158: the loop over the samples of one dataset. *)
Fixpoint attribution_loop (ee : ExportEnv) (split : string)
    (samples : list Sample) (attribution_data : list pyval)
  : option (list pyval) :=
  match samples with
  | [] => Some attribution_data
  | sample :: rest =>
      record ← attribution_record ee split sample;
      attribution_loop ee split rest (attribution_data ++ [record])
  end.

(** [df.to_csv(output_path, index=False)], after the parent directory has
    been made. *)
Definition write_csv (ee : ExportEnv) (path : string) (rows : list pyval)
  : XM string := fun w =>
  if csv_ok ee path
  then ({| db := db w; exported := exported w;
           csvs := csvs w ++ [(path, rows)] |}, Some path)
  else (w, None).

(** The outcome of a computation that leaves the world alone. *)
Definition pure_step {A : Type} (o : option A) : XM A := fun w => (w, o).

(** Lines 130-169 *)
Definition create_attribution_csv (ee : ExportEnv)
    (train_dataset val_dataset : string) (output_path : string) : XM string :=
  train ← samples_of train_dataset;
  from_train ← pure_step (attribution_loop ee "train" train []);
  val ← samples_of val_dataset;
  attribution_data ← pure_step (attribution_loop ee "val" val from_train);
  write_csv ee (PyPath.to_string (PyPath.of_string output_path))
    attribution_data.

(** Lines 199-234: the body of the [try]. *)
Definition main_try (ee : ExportEnv) (args : Args)
    (train_name val_name : string) : XM Z :=
  train_dataset ← load_dataset train_name;
  val_dataset ← load_dataset val_name;
  _ ← (if negb (arg_skip_cleaning args) then
         _ ← clean train_dataset (arg_min_side args) (arg_min_area args);
         _ ← clean val_dataset (arg_min_side args) (arg_min_area args);
         mret tt
       else mret tt);
  success ← export_to_yolo ee train_dataset val_dataset (arg_export_dir args);
  if (success : bool) then
    _ ← create_attribution_csv ee train_dataset val_dataset
          "docs/ATTRIBUTION.csv";
    mret 0
  else mret 1.

(** Lines 171-242. The handler lists the datasets before it returns 1; if
    that fails, [main] itself raises. *)
Definition main (ee : ExportEnv) (args : Args) : XM Z :=
  let train_name :=
    if arg_full_scale args then "oid_beetle_train_1200"
    else arg_train_dataset args in
  let val_name :=
    if arg_full_scale args then "oid_beetle_val_300"
    else arg_val_dataset args in
  catch (main_try ee args train_name val_name)
        (_ ← guard (list_datasets_ok ee); mret 1).

End ExportMain.

Module ExportMainSpec.
Import Inference Cleaning CleaningSpec ExportMain.
Local Open Scope string_scope.

(** The names [main] loads. *)
Definition train_name (args : Args) : string :=
  if arg_full_scale args then "oid_beetle_train_1200"
  else arg_train_dataset args.

Definition val_name (args : Args) : string :=
  if arg_full_scale args then "oid_beetle_val_300"
  else arg_val_dataset args.

(** The command line with [--skip-cleaning] set. *)
Definition skipping (args : Args) : Args :=
  {| arg_train_dataset := arg_train_dataset args;
     arg_val_dataset := arg_val_dataset args;
     arg_export_dir := arg_export_dir args;
     arg_min_side := arg_min_side args;
     arg_min_area := arg_min_area args;
     arg_skip_cleaning := true;
     arg_full_scale := arg_full_scale args |}.

(** The world in which [main] turns to the export: the one it started in
    with [--skip-cleaning], and otherwise the one the two calls of the
    filter leave, if both return. *)
Definition after_cleaning (args : Args) (w : XWorld) : option XWorld :=
  if arg_skip_cleaning args then Some w
  else
    match clean (train_name args) (arg_min_side args) (arg_min_area args) w with
    | (w1, Some _) =>
        match clean (val_name args) (arg_min_side args) (arg_min_area args)
                w1 with
        | (w2, Some _) => Some w2
        | (_, None) => None
        end
    | (_, None) => None
    end.

(** The path [main] gives to [create_attribution_csv], as it is written. *)
Definition attribution_path : string :=
  PyPath.to_string (PyPath.of_string "docs/ATTRIBUTION.csv").

(** What [main] returns when the body of its [try] raises. *)
Definition after_error (ee : ExportEnv) : option Z :=
  if list_datasets_ok ee then Some 1 else None.

(** A sample as the filter leaves it: it has a box, and each of its boxes
    meets the thresholds. *)
Definition clean_sample (min_side min_area : Z) (s : Sample) : Prop :=
  boxes s <> [] /\
  forall d, d ∈ boxes s -> meets min_side min_area s d = true.

(** The directory as [export_to_yolo] passes it on. *)
Definition export_target (export_dir : string) : string :=
  PyPath.to_string (PyPath.of_string export_dir).

(** Whether [export_to_yolo] gets past [data.yaml] and the listing of the
    exported tree. *)
Definition inspection_ok (ee : ExportEnv) (export_dir : string) : bool :=
  match yaml ee (PyPath.to_string
                   (PyPath.child (PyPath.of_string export_dir) "data.yaml")) with
  | Some readable => readable
  | None => true
  end
  && listing_ok ee (export_target export_dir).

(** The string holds a slash. *)
Fixpoint has_slash (s : string) : bool :=
  match s with
  | EmptyString => false
  | String c rest => Ascii.eqb c PyPath.slash || has_slash rest
  end.

(** A row of the attribution table for a sample of a split. *)
Definition row_for (split : string) (row : pyval) (s : Sample) : Prop :=
  getitem row "split" = Ok (PStr split) /\
  getitem row "filename" = Ok (PStr (basename (filepath s))).

End ExportMainSpec.

Module ExportMainExamples.
Import Cleaning CleaningExamples ExportMain.
Local Open Scope string_scope.

Definition helpful_env : ExportEnv :=
  {| mkdir_ok := fun _ => true;
     export_ok := fun _ _ _ => true;
     yaml := fun _ => Some true;
     listing_ok := fun _ => true;
     sample_get := fun s => Some (sample_id s);
     today := "2025-01-01";
     csv_ok := fun _ => true;
     list_datasets_ok := true |}.

(** An export that fails on the training split. *)
Definition no_train_export : ExportEnv :=
  {| mkdir_ok := mkdir_ok helpful_env;
     export_ok := fun _ split _ => negb (String.eqb split "train");
     yaml := yaml helpful_env;
     listing_ok := listing_ok helpful_env;
     sample_get := sample_get helpful_env;
     today := today helpful_env;
     csv_ok := csv_ok helpful_env;
     list_datasets_ok := true |}.

(** A [docs] directory that cannot be written to. *)
Definition read_only_docs : ExportEnv :=
  {| mkdir_ok := mkdir_ok helpful_env;
     export_ok := export_ok helpful_env;
     yaml := yaml helpful_env;
     listing_ok := listing_ok helpful_env;
     sample_get := sample_get helpful_env;
     today := today helpful_env;
     csv_ok := fun _ => false;
     list_datasets_ok := true |}.

Definition demo_db : gmap string Dataset :=
  <["train" := [mixed; tiny_only; unlabelled]]>
    (<["val" := [mixed]]> (<["empty" := [unlabelled]]>  ∅)).

Definition demo_world : XWorld :=
  {| db := demo_db; exported := []; csvs := [] |}.

Definition demo_args (train val : string) (skip : bool) : Args :=
  {| arg_train_dataset := train;
     arg_val_dataset := val;
     arg_export_dir := "datasets/beetle-oid-yolo";
     arg_min_side := 8;
     arg_min_area := 64;
     arg_skip_cleaning := skip;
     arg_full_scale := false |}.

End ExportMainExamples.


(** ** Facts about the cleaning filter *)

Module CleaningFacts.
Import PyNum Cleaning CleaningSpec.

Section Thresholds.
Variables min_side min_area : Z.

Local Abbreviation meets := (meets min_side min_area).
Local Abbreviation kept := (kept min_side min_area).
Local Abbreviation survives := (survives min_side min_area).
Local Abbreviation saved := (saved min_side min_area).

Lemma keep_test_meets s d :
  is_Some (pixel_dims s) -> keep_test min_side min_area s d = Ok (meets s d).
Proof.
  intros [[fw fh] Hd]. unfold keep_test, meets. rewrite Hd.
  unfold pixel_dims in Hd. unfold metadata_width, metadata_height.
  destruct (metadata s) as [[[w|] [h|]]|]; try discriminate. simpl.
  unfold float_mul_int.
  destruct (int_to_float w) as [fw'|]; try discriminate.
  destruct (int_to_float h) as [fh'|]; try discriminate.
  by simplify_eq.
Qed.

Lemma keep_loop_filter s ds keep :
  ds = [] \/ is_Some (pixel_dims s) ->
  keep_loop min_side min_area s ds keep = Ok (keep ++ List.filter (meets s) ds).
Proof.
  intros [->|Hs]; [simpl; by rewrite app_nil_r|].
  revert keep. induction ds as [|d ds IH]; intros keep; simpl.
  - by rewrite app_nil_r.
  - rewrite keep_test_meets by done. simpl.
    destruct (meets s d); rewrite IH; [by rewrite <- app_assoc | done].
Qed.

Lemma pixel_dims_with_detections s k :
  pixel_dims (with_detections s k) = pixel_dims s.
Proof. reflexivity. Qed.

Lemma meets_with_detections s k d : meets (with_detections s k) d = meets s d.
Proof. reflexivity. Qed.

Lemma filter_twice {A} (p : A -> bool) l :
  List.filter p (List.filter p l) = List.filter p l.
Proof.
  induction l as [|x l IH]; simpl; [done|].
  destruct (p x) eqn:E; simpl; rewrite ?E, IH; done.
Qed.

Lemma kept_with_detections s : kept (with_detections s (kept s)) = kept s.
Proof. unfold kept at 1. simpl. apply filter_twice. Qed.

Lemma survives_true s : survives s = true <-> kept s <> [].
Proof. unfold survives. destruct (kept s); split; congruence. Qed.

Lemma survives_false s : survives s = false <-> kept s = [].
Proof. unfold survives. destruct (kept s); split; congruence. Qed.

Lemma saved_id s : sample_id (saved s) = sample_id s.
Proof. unfold saved. by destruct (survives s). Qed.

Lemma well_formed_with_kept s :
  well_formed s -> survives s = true -> well_formed (with_detections s (kept s)).
Proof.
  intros [Hb|Hd] Hsv; [|by right]. apply survives_true in Hsv.
  unfold CleaningSpec.kept in Hsv. by rewrite Hb in Hsv.
Qed.

Lemma well_formed_saved s : well_formed s -> well_formed (saved s).
Proof.
  intros Hs. unfold CleaningSpec.saved. destruct (survives s) eqn:Hsv; [|done].
  by apply well_formed_with_kept.
Qed.

(** What the loop over the samples computes when no sample raises. *)
Lemma sample_loop_spec todo : forall seen c,
  Forall well_formed todo ->
  sample_loop min_side min_area todo seen c =
    (seen ++ map saved todo,
     Ok {| to_delete := to_delete c ++ doomed min_side min_area todo;
           total_boxes_before := total_boxes_before c + count_boxes todo;
           total_boxes_after :=
             total_boxes_after c + count_kept min_side min_area todo |}).
Proof.
  induction todo as [|s todo IH]; intros seen c Hwf.
  - simpl. rewrite !app_nil_r. unfold count_boxes, count_kept. simpl.
    rewrite !Z.add_0_r. by destruct c.
  - apply Forall_cons in Hwf as [Hs Hwf]. simpl.
    unfold doomed, count_boxes, count_kept, saved, survives, kept, boxes.
    simpl. destruct (sample_detections s) as [det|] eqn:Hdet; simpl.
    + rewrite keep_loop_filter
        by (unfold well_formed, boxes in Hs; by rewrite Hdet in Hs).
      simpl.
      destruct (List.filter (meets s) (detections det)) as [|d k] eqn:Hk.
      * rewrite IH by done. simpl. rewrite <- !app_assoc. simpl.
        unfold doomed, count_boxes, count_kept, saved, survives, kept, boxes.
        do 3 f_equal; lia.
      * rewrite IH by done. simpl. rewrite <- !app_assoc. simpl.
        unfold doomed, count_boxes, count_kept, saved, survives, kept, boxes.
        do 3 f_equal; lia.
    + rewrite IH by done. simpl. rewrite <- !app_assoc. simpl.
      unfold doomed, count_boxes, count_kept, saved, survives, kept, boxes.
      do 3 f_equal; lia.
Qed.


Lemma delete_samples_nil store : delete_samples store [] = store.
Proof.
  unfold delete_samples, listed. simpl.
  induction store as [|x l IH]; simpl; [done | by rewrite IH].
Qed.

Lemma listed_spec ids s : listed ids s = true <-> sample_id s ∈ ids.
Proof.
  unfold listed. rewrite existsb_exists, list_elem_of_In. split.
  - intros (i & Hi & He). apply String.eqb_eq in He. by subst.
  - intros Hi. exists (sample_id s). split; [done | apply String.eqb_refl].
Qed.

Lemma elem_of_delete_samples store ids s :
  s ∈ delete_samples store ids <-> s ∈ store /\ sample_id s ∉ ids.
Proof.
  unfold delete_samples.
  rewrite (list_elem_of_In (List.filter _ _) s), filter_In.
  rewrite <- list_elem_of_In, negb_true_iff, <- not_true_iff_false.
  by rewrite listed_spec.
Qed.

Lemma elem_of_doomed i ds :
  i ∈ doomed min_side min_area ds <->
  exists s, s ∈ ds /\ survives s = false /\ sample_id s = i.
Proof.
  unfold doomed. rewrite list_elem_of_In, in_map_iff. split.
  - intros (s & Hi & Hs). apply filter_In in Hs as [Hs Hb].
    exists s. rewrite list_elem_of_In. by apply negb_true_iff in Hb.
  - intros (s & Hs & Hb & Hi). exists s. split; [done|].
    apply filter_In. rewrite <- list_elem_of_In. by rewrite Hb.
Qed.

(** The store when the call ends, and what the call returns. *)
Lemma filter_small_boxes_store ds :
  Forall well_formed ds ->
  (filter_small_boxes ds min_side min_area).1 =
    delete_samples (map saved ds) (doomed min_side min_area ds).
Proof.
  intros Hwf. unfold filter_small_boxes.
  rewrite sample_loop_spec by done. simpl.
  destruct (doomed min_side min_area ds); [by rewrite delete_samples_nil | done].
Qed.

Lemma filter_small_boxes_outcome ds :
  Forall well_formed ds ->
  (filter_small_boxes ds min_side min_area).2 =
    if count_boxes ds =? 0 then Raise ZeroDivisionError
    else Ok (Z.of_nat (length (doomed min_side min_area ds)),
             count_boxes ds - count_kept min_side min_area ds).
Proof.
  intros Hwf. unfold filter_small_boxes.
  rewrite sample_loop_spec by done. simpl. unfold removal_rate.
  rewrite !Z.add_0_l. destruct (count_boxes ds =? 0); done.
Qed.

Lemma filter_split {A} (p : A -> bool) l :
  length l = (length (List.filter p l)
              + length (List.filter (fun x => negb (p x)) l))%nat.
Proof.
  induction l as [|x l IH]; simpl; [done|].
  destruct (p x); simpl; lia.
Qed.

Lemma count_boxes_cons s ds :
  count_boxes (s :: ds) = Z.of_nat (length (boxes s)) + count_boxes ds.
Proof. reflexivity. Qed.

Lemma count_kept_cons s ds :
  count_kept min_side min_area (s :: ds) =
  Z.of_nat (length (kept s)) + count_kept min_side min_area ds.
Proof. reflexivity. Qed.

Lemma count_failing_cons s ds :
  count_failing min_side min_area (s :: ds) =
  Z.of_nat (length (failing min_side min_area s))
  + count_failing min_side min_area ds.
Proof. reflexivity. Qed.

Lemma fold_sumZ_app l1 l2 : sumZ (l1 ++ l2) = sumZ l1 + sumZ l2.
Proof. induction l1 as [|x l IH]; simpl; [done | rewrite IH; lia]. Qed.

Lemma count_failing_diff ds :
  count_boxes ds - count_kept min_side min_area ds =
  count_failing min_side min_area ds.
Proof.
  induction ds as [|s ds IH]; [done|].
  rewrite count_boxes_cons, count_kept_cons, count_failing_cons.
  pose proof (filter_split (meets s) (boxes s)) as Hsplit.
  unfold CleaningSpec.kept, failing. lia.
Qed.

Lemma count_boxes_pos ds s d :
  s ∈ ds -> d ∈ boxes s -> 0 < count_boxes ds.
Proof.
  intros Hs Hd.
  assert (Hnn : forall l : Dataset, 0 <= count_boxes l).
  { induction l; [done|]. rewrite count_boxes_cons. lia. }
  induction Hs as [s l|s s' l Hs IH]; rewrite count_boxes_cons.
  - specialize (Hnn l). destruct (boxes s); [by apply elem_of_nil in Hd|].
    simpl length. lia.
  - specialize (IH Hd). lia.
Qed.

Lemma ids_injective (ds : Dataset) s1 s2 :
  NoDup (map sample_id ds) -> s1 ∈ ds -> s2 ∈ ds ->
  sample_id s1 = sample_id s2 -> s1 = s2.
Proof.
  induction ds as [|x l IH]; intros Hnd H1 H2 He.
  - by apply elem_of_nil in H1.
  - simpl in Hnd. apply NoDup_cons in Hnd as [Hx Hnd].
    apply elem_of_cons in H1 as [->|H1]; apply elem_of_cons in H2 as [->|H2].
    + done.
    + exfalso. apply Hx. rewrite He. by apply list_elem_of_fmap_2.
    + exfalso. apply Hx. rewrite <- He. by apply list_elem_of_fmap_2.
    + by apply IH.
Qed.

(** Every sample left in the store is a surviving input sample, saved
    with its kept boxes. *)
Lemma store_elements ds x :
  Forall well_formed ds ->
  x ∈ (filter_small_boxes ds min_side min_area).1 ->
  exists s, s ∈ ds /\ survives s = true /\ x = with_detections s (kept s).
Proof.
  intros Hwf. rewrite filter_small_boxes_store by done.
  rewrite elem_of_delete_samples. intros [Hx Hnl].
  apply list_elem_of_fmap in Hx as (s & -> & Hs).
  exists s. split; [done|]. rewrite saved_id in Hnl.
  destruct (survives s) eqn:Hsv.
  - split; [done|]. unfold CleaningSpec.saved. by rewrite Hsv.
  - exfalso. apply Hnl. apply elem_of_doomed. by exists s.
Qed.

(** *** Failures *)

Lemma int_to_float_error z e : int_to_float z = Raise e -> e = OverflowError.
Proof.
  unfold int_to_float. destruct (binary_normalize _ _ _ _ _); congruence.
Qed.

Lemma scale_error f dim e :
  scale f dim = Raise e -> e = TypeError \/ e = OverflowError.
Proof.
  destruct dim as [z|]; simpl; [|intros [= <-]; by left].
  unfold float_mul_int. destruct (int_to_float z) eqn:Hz; simpl; [done|].
  intros [= <-]. right. by eapply int_to_float_error.
Qed.

Lemma keep_test_error s d e :
  keep_test min_side min_area s d = Raise e -> collaborator_error e.
Proof.
  unfold keep_test, metadata_width, metadata_height, collaborator_error.
  destruct (metadata s) as [md|]; simpl; [|intros [= <-]; by left].
  destruct (scale (box_w d) (width md)) eqn:Hw; simpl.
  - destruct (scale (box_h d) (height md)) eqn:Hh; simpl; [done|].
    intros [= <-]. right. by eapply scale_error.
  - intros [= <-]. right. by eapply scale_error.
Qed.

Lemma keep_test_no_dims s d :
  pixel_dims s = None -> exists e, keep_test min_side min_area s d = Raise e.
Proof.
  unfold pixel_dims, keep_test, metadata_width, metadata_height.
  destruct (metadata s) as [[[w|] [h|]]|]; simpl; eauto.
  - unfold float_mul_int. destruct (int_to_float w); simpl; eauto.
    destruct (int_to_float h); simpl; [done | eauto].
  - unfold float_mul_int. destruct (int_to_float w); simpl; eauto.
Qed.

Lemma keep_loop_error s ds : forall keep e,
  keep_loop min_side min_area s ds keep = Raise e -> collaborator_error e.
Proof.
  induction ds as [|d ds IH]; intros keep e; simpl; [done|].
  destruct (keep_test min_side min_area s d) eqn:Ht; simpl.
  - apply IH.
  - intros [= <-]. by eapply keep_test_error.
Qed.

Lemma not_well_formed s :
  ~ well_formed s -> boxes s <> [] /\ pixel_dims s = None.
Proof.
  unfold well_formed. intros H. split; [tauto|].
  destruct (pixel_dims s); [|done]. exfalso. apply H. right. eauto.
Qed.

Lemma well_formed_dec s : well_formed s \/ ~ well_formed s.
Proof.
  unfold well_formed. destruct (boxes s); [by left; left|].
  destruct (pixel_dims s); [left; right; eauto|].
  right. intros [?|[? ?]]; done.
Qed.

Lemma well_formed_all_or_not (ds : Dataset) :
  Forall well_formed ds \/ Exists (fun s => ~ well_formed s) ds.
Proof.
  induction ds as [|s ds [IH|IH]].
  - left. constructor.
  - destruct (well_formed_dec s) as [Hs|Hs].
    + left. by constructor.
    + right. by apply Exists_cons_hd.
  - right. by apply Exists_cons_tl.
Qed.

(** Whatever the loop raises comes from the metadata of a sample. *)
Lemma sample_loop_error todo : forall seen c store e,
  sample_loop min_side min_area todo seen c = (store, Raise e) ->
  collaborator_error e.
Proof.
  induction todo as [|s todo IH]; intros seen c store e; simpl; [done|].
  destruct (sample_detections s) as [det|]; [|apply IH].
  destruct (keep_loop min_side min_area s (detections det) []) as [[|d k]|e']
    eqn:Hk; [apply IH | apply IH |].
  intros [= _ <-]. by eapply keep_loop_error.
Qed.

(** A sample that cannot be processed makes the loop raise: it is not
    skipped. *)
Lemma sample_loop_ill_formed todo : forall seen c,
  Exists (fun s => ~ well_formed s) todo ->
  exists store e, sample_loop min_side min_area todo seen c = (store, Raise e).
Proof.
  induction todo as [|s todo IH]; intros seen c Hex;
    [by apply Exists_nil in Hex|].
  simpl. destruct (well_formed_dec s) as [Hs|Hs].
  - apply Exists_cons in Hex as [Hex|Hex]; [done|].
    destruct (sample_detections s) as [det|]; [|by apply IH].
    destruct (keep_loop min_side min_area s (detections det) []) as [[|d k]|e'];
      [by apply IH | by apply IH | eauto].
  - apply not_well_formed in Hs as [Hb Hd]. unfold boxes in Hb.
    destruct (sample_detections s) as [det|]; [|done].
    destruct (detections det) as [|d ds]; [done|]. simpl.
    destruct (keep_test_no_dims s d Hd) as [e He]. rewrite He. simpl. eauto.
Qed.

End Thresholds.
End CleaningFacts.

(** ** Properties of the cleaning filter *)

Module CleaningProperties.
Import PyNum Cleaning CleaningSpec CleaningFacts CleaningExamples.

Lemma store_well_formed : Forall well_formed [mixed; tiny_only; unlabelled].
Proof.
  do 3 (constructor; [right; eexists; vm_compute; reflexivity|]). constructor.
Defined.

Lemma store_ids_distinct : NoDup (map sample_id [mixed; tiny_only; unlabelled]).
Proof. apply (bool_decide_unpack _). vm_compute. exact I. Defined.

Example filter_mixed_store :
  filter_small_boxes [mixed; tiny_only; unlabelled] 8 64 =
    ([with_detections mixed [large_box]], Ok (2, 2)).
Proof. vm_compute. reflexivity. Qed.

(** A sample whose metadata is missing fails the whole call, with the
    samples saved before it left as they were saved and nothing deleted. *)
Example missing_metadata_raises :
  filter_small_boxes [mixed; tiny_only; no_metadata; unlabelled] 8 64 =
    ([with_detections mixed [large_box]; tiny_only; no_metadata; unlabelled],
     Raise AttributeError).
Proof. vm_compute. reflexivity. Qed.

(** On well-formed samples the call raises exactly when the store holds no
    box at all, and otherwise returns the number of deleted samples and the
    number of boxes failing a threshold. *)
Lemma filter_small_boxes_returns min_side min_area ds :
  Forall well_formed ds ->
  (filter_small_boxes ds min_side min_area).2 =
    if count_boxes ds =? 0 then Raise ZeroDivisionError
    else Ok (Z.of_nat (length (doomed min_side min_area ds)),
             count_failing min_side min_area ds).
Proof.
  intros Hwf. rewrite filter_small_boxes_outcome by done.
  by rewrite count_failing_diff.
Qed.

(** C1: a sample with at least one detection meeting the three thresholds
    survives [filter_small_boxes]: the call returns, the sample stays in the
    store under its identifier, and its detections are exactly those with
    [pixel_w >= min_side], [pixel_h >= min_side] and [area >= min_area], and
    no others. *)
Theorem survivor_keeps_exactly_passing
    (min_side min_area : Z) (ds : Dataset) (s : Sample) :
  NoDup (map sample_id ds) ->
  Forall well_formed ds ->
  s ∈ ds ->
  (exists d, d ∈ boxes s /\ meets min_side min_area s d = true) ->
  let out := filter_small_boxes ds min_side min_area in
  (exists r, out.2 = Ok r) /\
  (exists s', s' ∈ out.1 /\ sample_id s' = sample_id s) /\
  (forall s', s' ∈ out.1 -> sample_id s' = sample_id s ->
     filepath s' = filepath s /\ metadata s' = metadata s /\
     exists det, sample_detections s' = Some det /\
       detections det = List.filter (meets min_side min_area s) (boxes s) /\
       forall d, d ∈ detections det <->
                 d ∈ boxes s /\ meets min_side min_area s d = true).
Proof.
  intros Hnd Hwf Hs (d & Hd & Hm) out. subst out.
  assert (Hsv : survives min_side min_area s = true).
  { apply survives_true. intros Hk.
    assert (Hin : d ∈ kept min_side min_area s).
    { unfold kept. rewrite list_elem_of_In, filter_In, <- list_elem_of_In. done. }
    rewrite Hk in Hin. by apply elem_of_nil in Hin. }
  split; [|split].
  - rewrite filter_small_boxes_outcome by done.
    pose proof (count_boxes_pos ds s d Hs Hd) as Hpos.
    destruct (count_boxes ds =? 0) eqn:Hz; [apply Z.eqb_eq in Hz; lia | eauto].
  - exists (with_detections s (kept min_side min_area s)). split; [|done].
    rewrite filter_small_boxes_store by done.
    apply elem_of_delete_samples. split.
    + replace (with_detections s (kept min_side min_area s))
        with (saved min_side min_area s)
        by (unfold saved; by rewrite Hsv).
      by apply list_elem_of_fmap_2.
    + simpl. intros Hdoom.
      apply elem_of_doomed in Hdoom as (s2 & Hs2 & Hsv2 & Hid).
      assert (s2 = s) by by apply (ids_injective ds). subst s2. congruence.
  - intros s' Hs' Hid.
    destruct (store_elements min_side min_area ds s' Hwf Hs')
      as (s2 & Hs2 & Hsv2 & ->).
    simpl in Hid. assert (s2 = s) by by apply (ids_injective ds). subst s2.
    simpl. repeat split; [].
    eexists. split; [done|]. simpl. split; [done|].
    intros d'. unfold kept.
    by rewrite list_elem_of_In, filter_In, <- list_elem_of_In.
Qed.

Lemma survivor_keeps_exactly_passing_witness :
  let out := filter_small_boxes [mixed; tiny_only; unlabelled] 8 64 in
  (exists r, out.2 = Ok r) /\
  (exists s', s' ∈ out.1 /\ sample_id s' = sample_id mixed) /\
  (forall s', s' ∈ out.1 -> sample_id s' = sample_id mixed ->
     filepath s' = filepath mixed /\ metadata s' = metadata mixed /\
     exists det, sample_detections s' = Some det /\
       detections det = List.filter (meets 8 64 mixed) (boxes mixed) /\
       forall d, d ∈ detections det <->
                 d ∈ boxes mixed /\ meets 8 64 mixed d = true).
Proof.
  apply (survivor_keeps_exactly_passing 8 64 [mixed; tiny_only; unlabelled] mixed).
  - exact store_ids_distinct.
  - exact store_well_formed.
  - apply list_elem_of_here.
  - exists large_box. split; [|vm_compute; reflexivity].
    apply list_elem_of_further, list_elem_of_here.
Defined.

(** C2: on a store holding one sample without detections the sample is
    deleted, but the call raises at the line that prints the removal rate
    and returns no counts. *)
Theorem zero_boxes_no_counts :
  filter_small_boxes [unlabelled] 8 64 = ([], Raise ZeroDivisionError).
Proof. vm_compute. reflexivity. Qed.

(** C4: on the empty store, which is well-formed, the call raises
    [ZeroDivisionError] of its own, whatever the thresholds. *)
Theorem empty_store_raises (min_side min_area : Z) :
  Forall well_formed ([] : Dataset) /\
  filter_small_boxes [] min_side min_area = ([], Raise ZeroDivisionError).
Proof. split; [constructor | reflexivity]. Qed.

(** The same failure on every well-formed store without a single box. *)
Lemma zero_boxes_raise min_side min_area ds :
  Forall well_formed ds -> count_boxes ds = 0 ->
  (filter_small_boxes ds min_side min_area).2 = Raise ZeroDivisionError.
Proof.
  intros Hwf Hz. rewrite filter_small_boxes_outcome by done. by rewrite Hz.
Qed.

(** The call fails in two ways only: on a sample whose metadata cannot be
    used, and at the printing of the removal rate of a store without boxes. *)
Lemma filter_small_boxes_failures min_side min_area ds e :
  (filter_small_boxes ds min_side min_area).2 = Raise e ->
  collaborator_error e \/ (e = ZeroDivisionError /\ count_boxes ds = 0).
Proof.
  destruct (well_formed_all_or_not ds) as [Hwf|Hex].
  - rewrite filter_small_boxes_outcome by done.
    destruct (count_boxes ds =? 0) eqn:Hz; [|done].
    intros [= <-]. right. split; [done | by apply Z.eqb_eq].
  - unfold filter_small_boxes.
    destruct (sample_loop_ill_formed min_side min_area ds [] init_counters Hex)
      as (store & e' & Hloop).
    rewrite Hloop. simpl. intros [= <-]. left.
    by eapply sample_loop_error.
Qed.

(** A sample with boxes and without usable metadata fails the whole call. *)
Lemma ill_formed_sample_fails_call min_side min_area ds s :
  s ∈ ds -> ~ well_formed s ->
  exists e, (filter_small_boxes ds min_side min_area).2 = Raise e
            /\ collaborator_error e.
Proof.
  intros Hs Hill. unfold filter_small_boxes.
  assert (Hex : Exists (fun s => ~ well_formed s) ds)
    by (apply Exists_exists; eauto).
  destruct (sample_loop_ill_formed min_side min_area ds [] init_counters Hex)
    as (store & e & Hloop).
  rewrite Hloop. simpl. exists e. split; [done|].
  by eapply sample_loop_error.
Qed.

(** C8: a sample none of whose detections meets the thresholds (which
    includes a sample without detections) is deleted from the store, no
    sample is left with an empty detection list, and the sample adds
    nothing to [total_boxes_after]. *)
Theorem hopeless_sample_deleted
    (min_side min_area : Z) (ds : Dataset) (s : Sample) :
  Forall well_formed ds ->
  s ∈ ds ->
  (forall d, d ∈ boxes s -> meets min_side min_area s d = false) ->
  let out := filter_small_boxes ds min_side min_area in
  (forall s', s' ∈ out.1 -> sample_id s' <> sample_id s) /\
  (forall s', s' ∈ out.1 -> boxes s' <> []) /\
  (forall l1 l2, ds = l1 ++ s :: l2 ->
     exists c c',
       (sample_loop min_side min_area ds [] init_counters).2 = Ok c /\
       (sample_loop min_side min_area (l1 ++ l2) [] init_counters).2 = Ok c' /\
       total_boxes_after c = total_boxes_after c').
Proof.
  intros Hwf Hs Hfail out. subst out.
  assert (Hk : kept min_side min_area s = []).
  { unfold kept. destruct (List.filter _ _) as [|d k] eqn:Hf; [done|].
    assert (Hin : In d (List.filter (meets min_side min_area s) (boxes s)))
      by (rewrite Hf; by left).
    apply filter_In in Hin as [Hin Hm].
    apply list_elem_of_In, Hfail in Hin. congruence. }
  split; [|split].
  - intros s' Hs' Hid. rewrite filter_small_boxes_store in Hs' by done.
    apply elem_of_delete_samples in Hs' as [_ Hnl]. apply Hnl.
    apply elem_of_doomed. exists s. by rewrite survives_false.
  - intros s' Hs'.
    destruct (store_elements min_side min_area ds s' Hwf Hs')
      as (s2 & Hs2 & Hsv2 & ->).
    simpl. unfold boxes. simpl. by apply survives_true.
  - intros l1 l2 ->.
    assert (Hwf' : Forall well_formed (l1 ++ l2)).
    { apply Forall_app in Hwf as [H1 H2]. apply Forall_cons in H2 as [_ H2].
      by apply Forall_app. }
    rewrite !sample_loop_spec by done. do 2 eexists.
    split; [done|]. split; [done|]. simpl. f_equal.
    unfold count_kept. rewrite !map_app, !fold_sumZ_app. simpl.
    rewrite Hk. simpl. lia.
Qed.

Lemma hopeless_sample_deleted_witness :
  let out := filter_small_boxes [mixed; tiny_only; unlabelled] 8 64 in
  (forall s', s' ∈ out.1 -> sample_id s' <> sample_id tiny_only) /\
  (forall s', s' ∈ out.1 -> boxes s' <> []) /\
  (forall l1 l2, [mixed; tiny_only; unlabelled] = l1 ++ tiny_only :: l2 ->
     exists c c',
       (sample_loop 8 64 [mixed; tiny_only; unlabelled] [] init_counters).2
         = Ok c /\
       (sample_loop 8 64 (l1 ++ l2) [] init_counters).2 = Ok c' /\
       total_boxes_after c = total_boxes_after c').
Proof.
  apply (hopeless_sample_deleted 8 64 [mixed; tiny_only; unlabelled] tiny_only).
  - exact store_well_formed.
  - apply list_elem_of_further, list_elem_of_here.
  - intros d Hd. apply list_elem_of_singleton in Hd. subst d.
    vm_compute. reflexivity.
Defined.

(** C3: run on the store that a first run leaves, [filter_small_boxes]
    changes nothing: no sample is marked or deleted and no box is removed.
    It returns [(0, 0)], unless the first run left the store empty, where
    the removal rate cannot be printed. *)
Theorem second_run_is_noop (min_side min_area : Z) (ds : Dataset) :
  Forall well_formed ds ->
  let store1 := (filter_small_boxes ds min_side min_area).1 in
  let out2 := filter_small_boxes store1 min_side min_area in
  out2.1 = store1 /\
  (exists c,
     sample_loop min_side min_area store1 [] init_counters = (store1, Ok c) /\
     to_delete c = [] /\
     total_boxes_before c - total_boxes_after c = 0) /\
  out2.2 = match store1 with
           | [] => Raise ZeroDivisionError
           | _ :: _ => Ok (0, 0)
           end.
Proof.
  intros Hwf store1 out2.
  assert (Hclean : Forall (fun x => well_formed x /\
                             survives min_side min_area x = true /\
                             saved min_side min_area x = x) store1).
  { apply Forall_forall. intros x Hx.
    destruct (store_elements min_side min_area ds x Hwf Hx)
      as (s & Hs & Hsv & ->).
    assert (Hsv' : survives min_side min_area
                     (with_detections s (kept min_side min_area s)) = true).
    { unfold survives. rewrite kept_with_detections. exact Hsv. }
    split; [|split; [done|]].
    - rewrite Forall_forall in Hwf. apply well_formed_with_kept; [|done].
      by apply Hwf.
    - unfold saved. rewrite Hsv', kept_with_detections. reflexivity. }
  clearbody store1.
  assert (Hwf1 : Forall well_formed store1)
    by (eapply Forall_impl; [exact Hclean | by intros x (Hx & _)]).
  assert (Hmap : map (saved min_side min_area) store1 = store1).
  { clear -Hclean. induction Hclean as [|x l (_ & _ & Hx) _ IH]; simpl;
      [done | by rewrite Hx, IH]. }
  assert (Hdoom : doomed min_side min_area store1 = []).
  { clear -Hclean. unfold doomed.
    induction Hclean as [|x l (_ & Hx & _) _ IH]; simpl; [done|].
    by rewrite Hx. }
  assert (Hcount : count_kept min_side min_area store1 = count_boxes store1).
  { clear -Hclean. induction Hclean as [|x l (_ & Hsv & Hx) _ IH]; [done|].
    rewrite count_boxes_cons, count_kept_cons, IH. do 2 f_equal.
    rewrite <- Hx at 2. unfold saved. rewrite Hsv. reflexivity. }
  subst out2. split; [|split].
  - rewrite filter_small_boxes_store by done.
    by rewrite Hdoom, delete_samples_nil, Hmap.
  - rewrite sample_loop_spec by done. rewrite Hmap, Hdoom, Hcount.
    eexists. split; [reflexivity|]. simpl. split; [done | lia].
  - rewrite filter_small_boxes_outcome by done. rewrite Hdoom, Hcount.
    destruct Hclean as [|x l (_ & Hsv & _) _]; [done|].
    rewrite count_boxes_cons.
    assert (0 <= count_boxes l).
    { clear. induction l; [done|]. rewrite count_boxes_cons. lia. }
    assert (boxes x <> []).
    { apply survives_true in Hsv. unfold kept in Hsv.
      intros Hb. rewrite Hb in Hsv. done. }
    destruct (boxes x) as [|b bs]; [done|]. simpl length.
    destruct (_ =? 0) eqn:Hz; [apply Z.eqb_eq in Hz; lia|].
    simpl. do 2 f_equal. lia.
Qed.

Lemma second_run_is_noop_witness :
  let store1 := (filter_small_boxes [mixed; tiny_only; unlabelled] 8 64).1 in
  let out2 := filter_small_boxes store1 8 64 in
  out2.1 = store1 /\
  (exists c,
     sample_loop 8 64 store1 [] init_counters = (store1, Ok c) /\
     to_delete c = [] /\
     total_boxes_before c - total_boxes_after c = 0) /\
  out2.2 = match store1 with
           | [] => Raise ZeroDivisionError
           | _ :: _ => Ok (0, 0)
           end.
Proof.
  apply (second_run_is_noop 8 64 [mixed; tiny_only; unlabelled]).
  exact store_well_formed.
Defined.

End CleaningProperties.

(** ** Facts about the inference runner *)

Module InferenceFacts.
Import PyNum Inference InferenceSpec.
Local Open Scope string_scope.

Lemma float_mul_int_1000 (t : float) :
  float_mul_int t 1000 = Ok (PrimFloat.mul t 1000%float).
Proof. reflexivity. Qed.

Lemma record_shape_consistent r : record_shape r -> record_consistent r.
Proof.
  intros (p & ms & dets & out & -> & Hout). repeat split.
  - by exists dets.
  - by exists ms.
  - by exists p.
  - destruct Hout as [->|[o ->]]; [by left | right; by exists o].
Qed.

Section Call.
Variables (env : Env) (c : float) (save_result : bool) (output_dir : string).

Local Abbreviation run := (fun p => process_single_image env p c save_result output_dir).

(** A missing file fails before anything else happens. *)
Lemma process_single_image_missing image_path w :
  path_exists env image_path = false ->
  run image_path w = (w, Raise FileNotFoundError).
Proof. intros H. unfold process_single_image. by rewrite H. Qed.

(** What a call that returns has done. *)
Lemma process_single_image_returns image_path w w' rec :
  run image_path w = (w', Ok rec) ->
  exists r rest dets,
    path_exists env image_path = true /\
    predict env (calls w) image_path c = Ok (r :: rest) /\
    parse_detections env r = Ok dets /\
    let ms := PrimFloat.mul (elapsed env (calls w)) 1000%float in
    if save_result && nonempty dets then
      exists img flag,
        makedirs env output_dir = Ok tt /\
        plot r = Ok img /\
        cv2_imwrite env (annotated_path output_dir image_path) img = Ok flag /\
        rec = record_of image_path ms dets
                (PStr (annotated_path output_dir image_path)) /\
        w' = after_save w output_dir (annotated_path output_dir image_path)
               img
    else
      rec = record_of image_path ms dets PNone /\ w' = after_call w.
Proof.
  unfold process_single_image.
  destruct (path_exists env image_path) eqn:Hex; simpl; [|discriminate].
  unfold mbind, M_bind, call_model, lift, save_annotated.
  destruct (predict env (calls w) image_path c) as [[|r rest]|] eqn:Hp;
    try discriminate.
  destruct (parse_detections env r) as [dets|] eqn:Hd; try discriminate.
  destruct (save_result && nonempty dets) eqn:Hs.
  - unfold mbind, M_bind, do_makedirs, imwrite, lift.
    destruct (makedirs env output_dir) as [[]|] eqn:Hm; try discriminate.
    destruct (plot r) as [img|] eqn:Hplot; try discriminate.
    destruct (cv2_imwrite env (annotated_path output_dir image_path) img)
      as [flag|] eqn:Hwrite; try discriminate.
    simpl. intros [= <- <-]. exists r, rest, dets. rewrite Hs.
    repeat split; try done. by exists img, flag.
  - simpl. intros [= <- <-]. exists r, rest, dets. by rewrite Hs.
Qed.

Lemma process_single_image_shape image_path w w' rec :
  run image_path w = (w', Ok rec) -> record_shape rec.
Proof.
  intros H. apply process_single_image_returns in H
    as (r & rest & dets & _ & _ & _ & H).
  simpl in H. destruct (save_result && nonempty dets).
  - destruct H as (img & flag & _ & _ & _ & -> & _).
    do 4 eexists. split; [done|]. right. eauto.
  - destruct H as (-> & _). do 4 eexists. split; [done|]. by left.
Qed.

Lemma successes_shape image_paths : forall w,
  Forall record_shape (successes env c save_result output_dir image_paths w).
Proof.
  induction image_paths as [|p rest IH]; intros w; simpl; [constructor|].
  destruct (run p w) as [w' [rec|e]] eqn:Hrun; [|apply IH].
  constructor; [|apply IH]. by eapply process_single_image_shape.
Qed.

(** Lines 136-138 on a well-shaped record. *)
Lemma record_result_shape st rec :
  record_shape rec ->
  record_result st rec =
    {| all_results := all_results st ++ [rec];
       total_detections := total_detections st + record_count rec;
       total_time := PrimFloat.add (total_time st) (record_ms rec) |}.
Proof. intros (p & ms & dets & out & -> & _). reflexivity. Qed.

(** The loop gathers exactly the records of the images that succeed, and
    its totals are the sums over those records. *)
Lemma batch_loop_successes image_paths : forall st w,
  (batch_loop env c save_result output_dir image_paths st w).2 =
    let recs := successes env c save_result output_dir image_paths w in
    {| all_results := all_results st ++ recs;
       total_detections :=
         fold_left Z.add (map record_count recs) (total_detections st);
       total_time :=
         fold_left PrimFloat.add (map record_ms recs) (total_time st) |}.
Proof.
  induction image_paths as [|p rest IH]; intros st w; simpl.
  - rewrite app_nil_r. by destruct st.
  - unfold batch_step.
    destruct (run p w) as [w' [rec|e]] eqn:Hrun.
    + rewrite IH. simpl.
      rewrite record_result_shape
        by (by eapply process_single_image_shape).
      simpl. by rewrite <- app_assoc.
    + by rewrite IH.
Qed.

End Call.

(** The guard of line 149 keeps the division away from zero. *)
Lemma positive_not_zero (x : float) :
  PrimFloat.ltb 0%float x = true -> PrimFloat.eqb x 0%float = false.
Proof.
  rewrite FloatAxioms.ltb_spec, FloatAxioms.eqb_spec.
  change (Prim2SF 0%float) with (S754_zero false).
  destruct (Prim2SF x) as [s|s| |s m e]; try destruct s; cbv; congruence.
Qed.

Lemma avg_fps_of_value (avg : float) :
  avg_fps_of avg =
    Ok (if PrimFloat.ltb 0%float avg
        then PrimFloat.div 1000%float avg else 0%float).
Proof.
  unfold avg_fps_of, float_truediv.
  destruct (PrimFloat.ltb 0%float avg) eqn:Hlt; [|done].
  by rewrite positive_not_zero.
Qed.

Lemma avg_time_of_value (st : batch_state) :
  avg_time_of st =
    Ok (if nonempty (all_results st)
        then PrimFloat.div (total_time st)
               (len_to_float (length (all_results st)))
        else 0%float).
Proof. unfold avg_time_of. by destruct (all_results st). Qed.

(** The batch statistics: no image is counted but the processed ones, the
    average is [0] over no record and the mean of the recorded times
    otherwise, and the frame rate is [1000 / avg_time] for a positive
    average and [0] for a zero one. The call itself never raises. *)
Lemma process_batch_images_stats env image_paths c save_results output_dir w :
  exists w' stats,
    let recs := successes env c save_results output_dir image_paths w in
    process_batch_images env image_paths c save_results output_dir w =
      (w', Ok (recs, stats)) /\
    processed stats = length recs /\
    avg_time stats =
      (if nonempty recs then mean (map record_ms recs) else 0%float) /\
    avg_fps stats =
      (if PrimFloat.ltb 0%float (avg_time stats)
       then PrimFloat.div 1000%float (avg_time stats) else 0%float).
Proof.
  unfold process_batch_images.
  pose proof (batch_loop_successes env c save_results output_dir image_paths
                init_batch w) as Hloop.
  destruct (batch_loop env c save_results output_dir image_paths init_batch w)
    as [w' st]. simpl in Hloop. subst st.
  unfold stats_of. rewrite avg_time_of_value. simpl.
  rewrite avg_fps_of_value. simpl.
  eexists _, _. split; [reflexivity|]. simpl. split; [done|]. split; [|done].
  destruct (successes _ _ _ _ _ _) as [|r rs]; [done|].
  simpl nonempty. cbv iota. unfold mean, float_sum.
  by rewrite length_map.
Qed.

(** What [save_results_json] has written when it returns: the result list
    is stored as it was given. *)
Lemma save_results_json_returns env results output_path w w' :
  save_results_json env results output_path w = (w', Ok tt) ->
  exists summary,
    summary_of env results = Ok summary /\
    reports w' =
      (reports w ++
         [(output_path,
           PDict [("summary", summary); ("results", PList results)])])%list.
Proof.
  unfold save_results_json, mbind, M_bind, lift, dump_json, open_w, dump.
  destruct (summary_of env results) as [summary|]; [|discriminate].
  unfold mbind, M_bind.
  destruct (open_for_writing env output_path); [|discriminate].
  destruct (json_dump env output_path _); [|discriminate].
  intros [= <-]. by exists summary.
Qed.

Lemma sum_detections_shape env results : forall acc,
  Forall record_shape results ->
  sum_detections env results acc =
    Ok (PInt (fold_left Z.add (map record_count results) acc)).
Proof.
  induction results as [|r rest IH]; intros acc Hall; [done|].
  apply Forall_cons in Hall as [(p & ms & dets & out & -> & _) Hall].
  simpl. change (getitem (record_of p ms dets out) "num_detections")
    with (Ok (PInt (Z.of_nat (length dets)))).
  simpl. by rewrite IH.
Qed.

Lemma inference_times_shape results :
  Forall record_shape results ->
  inference_times results = Ok (map PFloat (map record_ms results)).
Proof.
  induction results as [|r rest IH]; intros Hall; [done|].
  apply Forall_cons in Hall as [(p & ms & dets & out & -> & _) Hall].
  simpl. change (getitem (record_of p ms dets out) "inference_time_ms")
    with (Ok (PFloat ms)).
  simpl. by rewrite IH.
Qed.

Lemma all_floats_map (xs : list float) : all_floats (map PFloat xs) = Some xs.
Proof. induction xs as [|x xs IH]; [done|]. simpl. by rewrite IH. Qed.

(** [np.mean] of the times of well-shaped records. *)
Lemma np_mean_floats env (xs : list float) :
  np_mean env (map PFloat xs) =
    Ok (PFloat (match xs with
                | [] => PrimFloat.div 0%float (len_to_float 0)
                | _ :: _ => mean_of_floats env xs
                end)).
Proof.
  destruct xs as [|x xs]; [done|].
  unfold np_mean. simpl. by rewrite all_floats_map.
Qed.

(** On well-shaped records the summary is built without a failure: the
    total is the exact sum of the counts, and the average is what numpy
    makes of the recorded times, NaN when there is none. *)
Lemma summary_of_shape env results :
  Forall record_shape results ->
  summary_of env results =
    Ok (PDict [("total_images", PInt (Z.of_nat (length results)));
               ("total_detections",
                PInt (fold_left Z.add (map record_count results) 0));
               ("avg_inference_time_ms",
                PFloat (match map record_ms results with
                        | [] => PrimFloat.div 0%float (len_to_float 0)
                        | _ :: _ =>
                            mean_of_floats env (map record_ms results)
                        end));
               ("processing_timestamp", PStr (strftime env))]).
Proof.
  intros Hall. unfold summary_of.
  rewrite sum_detections_shape, inference_times_shape by done. simpl.
  by rewrite np_mean_floats.
Qed.

End InferenceFacts.

(** ** Properties of the inference runner *)

Module InferenceProperties.
Import PyNum Inference InferenceSpec InferenceFacts InferenceExamples.
Local Open Scope string_scope.

Example batch_of_three :
  exists w' stats,
    process_batch_images demo_env three_images 0.25 true "out" new_world =
      (w', Ok ([record_of "imgs/a.jpg" 7.8125 [beetle_detection]
                  (PStr "out/a_result.jpg");
                record_of "imgs/c.jpg" 15.625 [] PNone], stats)) /\
    processed stats = 2%nat /\ requested stats = 3%nat /\
    avg_time stats = 11.71875%float /\
    images w' = [("out/a_result.jpg", [1; 2; 3])].
Proof. do 2 eexists. vm_compute. repeat split. Qed.

(** The spec's example: recorded times of 10, 20 and 30 ms average to 20 ms,
    that is 50 frames per second. *)
Example average_of_three :
  avg_time_of {| all_results := [PNone; PNone; PNone];
                 total_detections := 0;
                 total_time := float_sum [10; 20; 30]%float |} = Ok 20%float
  /\ avg_fps_of 20%float = Ok 50%float.
Proof. split; vm_compute; reflexivity. Qed.

(** C5: when no image of a run is processed the batch statistics report an
    average of [0] and a frame rate of [0], but the summary that
    [save_results_json] builds from the same empty result list holds NaN
    under [avg_inference_time_ms]. *)
Theorem json_average_of_empty_run_is_nan :
  exists w' stats summary,
    process_batch_images broken_env three_images 0.25 true "out" new_world =
      (w', Ok ([], stats)) /\
    avg_time stats = 0%float /\ avg_fps stats = 0%float /\
    summary_of broken_env [] = Ok summary /\
    getitem summary "avg_inference_time_ms" = Ok (PFloat nan).
Proof. do 3 eexists. vm_compute. repeat split. Qed.

(** One record per existing image, in order, when every existing image of
    the batch can be processed. *)
Lemma successes_of_existing env c save_results output_dir image_paths :
  (forall p w0, p ∈ image_paths -> path_exists env p = true ->
     is_ok (process_single_image env p c save_results output_dir w0).2 = true) ->
  forall w,
    Forall2 (fun r p => getitem r "image_path" = Ok (PStr p))
      (successes env c save_results output_dir image_paths w)
      (List.filter (path_exists env) image_paths).
Proof.
  induction image_paths as [|p rest IH]; intros Hok w; simpl; [constructor|].
  assert (Hrest : forall p0 w0, p0 ∈ rest -> path_exists env p0 = true ->
            is_ok (process_single_image env p0 c save_results output_dir w0).2
            = true).
  { intros p0 w0 Hin. apply Hok. by apply list_elem_of_further. }
  destruct (path_exists env p) eqn:Hex.
  - specialize (Hok p w (list_elem_of_here _ _) Hex).
    destruct (process_single_image env p c save_results output_dir w)
      as [w' [rec|e]] eqn:Hrun; [|discriminate].
    constructor; [|by apply IH].
    apply process_single_image_returns in Hrun
      as (r & rs & dets & _ & _ & _ & H). simpl in H.
    destruct (save_results && nonempty dets).
    + by destruct H as (img & flag & _ & _ & _ & -> & _).
    + by destruct H as (-> & _).
  - rewrite process_single_image_missing by done. by apply IH.
Qed.

(** C6: a call of [process_single_image] on a path that does not exist
    raises at once, leaving the world as it was; a batch holding that path
    goes on past it and returns exactly one record for each existing image
    of the batch, in order. *)
Theorem missing_image_is_isolated
    (env : Env) (c : float) (save_results : bool) (output_dir : string)
    (image_paths : list string) (missing : string) (w : World) :
  path_exists env missing = false ->
  missing ∈ image_paths ->
  (forall p w0, p ∈ image_paths -> path_exists env p = true ->
     is_ok (process_single_image env p c save_results output_dir w0).2 = true) ->
  process_single_image env missing c save_results output_dir w =
    (w, Raise FileNotFoundError) /\
  exists w' recs stats,
    process_batch_images env image_paths c save_results output_dir w =
      (w', Ok (recs, stats)) /\
    Forall2 (fun r p => getitem r "image_path" = Ok (PStr p))
      recs (List.filter (path_exists env) image_paths) /\
    length recs = length (List.filter (path_exists env) image_paths) /\
    processed stats = length recs.
Proof.
  intros Hmiss Hin Hok. split; [by apply process_single_image_missing|].
  destruct (process_batch_images_stats env image_paths c save_results
              output_dir w) as (w' & stats & Hrun & Hproc & _).
  simpl in Hrun. eexists _, _, _. split; [exact Hrun|].
  pose proof (successes_of_existing env c save_results output_dir
                image_paths Hok w) as H2.
  split; [exact H2|]. split; [by eapply Forall2_length | exact Hproc].
Qed.

Lemma missing_image_is_isolated_witness :
  process_single_image demo_env "imgs/b.jpg" 0.25 true "out" new_world =
    (new_world, Raise FileNotFoundError) /\
  exists w' recs stats,
    process_batch_images demo_env three_images 0.25 true "out" new_world =
      (w', Ok (recs, stats)) /\
    Forall2 (fun r p => getitem r "image_path" = Ok (PStr p))
      recs (List.filter (path_exists demo_env) three_images) /\
    length recs = length (List.filter (path_exists demo_env) three_images) /\
    processed stats = length recs.
Proof.
  apply (missing_image_is_isolated demo_env 0.25 true "out" three_images
           "imgs/b.jpg" new_world).
  - reflexivity.
  - apply list_elem_of_further, list_elem_of_here.
  - intros p w0 Hp Hex. unfold three_images in Hp.
    repeat (apply elem_of_cons in Hp as [->|Hp]);
      [reflexivity | discriminate | reflexivity | by apply elem_of_nil in Hp].
Defined.



(** C10: every record that [process_single_image] returns has a
    [num_detections] equal to the length of its [detections] list and
    carries [inference_time_ms], [image_path] and [output_path] (a path or
    [None]); so does every record that [process_batch_images] returns; and
    [save_results_json] stores the records it is given unchanged. *)
Theorem inference_records_consistent
    (env : Env) (c : float) (save_results : bool) (output_dir : string) :
  (forall image_path w w' rec,
     process_single_image env image_path c save_results output_dir w
       = (w', Ok rec) ->
     record_consistent rec) /\
  (forall image_paths w,
     exists w' recs stats,
       process_batch_images env image_paths c save_results output_dir w
         = (w', Ok (recs, stats)) /\
       Forall record_consistent recs /\
       forall output_path w'',
         save_results_json env recs output_path w' = (w'', Ok tt) ->
         exists summary,
           reports w'' =
             (reports w' ++
                [(output_path,
                  PDict [("summary", summary); ("results", PList recs)])])%list).
Proof.
  split.
  - intros image_path w w' rec Hrun.
    by eapply record_shape_consistent, process_single_image_shape.
  - intros image_paths w.
    destruct (process_batch_images_stats env image_paths c save_results
                output_dir w) as (w' & stats & Hrun & _).
    simpl in Hrun. eexists _, _, _. split; [exact Hrun|]. split.
    + eapply Forall_impl; [apply successes_shape|].
      apply record_shape_consistent.
    + intros output_path w'' Hsave.
      apply save_results_json_returns in Hsave as (summary & _ & Hrep).
      by exists summary.
Qed.

Lemma inference_records_consistent_witness :
  record_consistent
    (record_of "imgs/a.jpg" 7.8125 [beetle_detection]
       (PStr "out/a_result.jpg")).
Proof.
  apply (proj1 (inference_records_consistent demo_env 0.25 true "out")
           "imgs/a.jpg" new_world
           (after_save new_world "out" "out/a_result.jpg" [1; 2; 3])).
  vm_compute. reflexivity.
Defined.

End InferenceProperties.

(** ** Facts about image-source resolution *)

Module ResolveFacts.
Import PyPath Resolve ResolveSpec.
Local Open Scope string_scope.

(** *** The order on strings and [sorted] *)

#[global] Instance str_le_total : Total str_le.
Proof.
  intros a b. unfold str_le.
  destruct (String.leb_total a b) as [H|H]; rewrite H; [by left | by right].
Qed.

Lemma compare_not_gt_trans (a : string) : forall b c,
  String.compare a b <> Gt -> String.compare b c <> Gt ->
  String.compare a c <> Gt.
Proof.
  induction a as [|x a IH]; intros [|y b] [|z c]; simpl; try congruence.
  unfold Ascii.compare.
  destruct (N.compare_spec (N_of_ascii x) (N_of_ascii y)) as [Hxy|Hxy|Hxy];
    destruct (N.compare_spec (N_of_ascii y) (N_of_ascii z)) as [Hyz|Hyz|Hyz];
    try congruence.
  - rewrite Hxy, Hyz, N.compare_refl. apply IH.
  - intros _ _. rewrite Hxy. apply N.compare_lt_iff in Hyz. by rewrite Hyz.
  - intros _ _. rewrite <- Hyz. apply N.compare_lt_iff in Hxy. by rewrite Hxy.
  - intros _ _. assert (H : (N_of_ascii x < N_of_ascii z)%N) by lia.
    apply N.compare_lt_iff in H. by rewrite H.
Qed.

#[global] Instance str_le_trans : Transitive str_le.
Proof.
  intros a b c. unfold str_le, String.leb. intros Hab Hbc.
  pose proof (compare_not_gt_trans a b c) as H.
  destruct (String.compare a b); destruct (String.compare b c);
    destruct (String.compare a c); simpl in *; try done;
    exfalso; apply H; congruence.
Qed.

Lemma sorted_permutation l : sorted l ≡ₚ l.
Proof. apply merge_sort_Permutation. Qed.

Lemma sorted_is_sorted l : StronglySorted str_le (sorted l).
Proof. apply StronglySorted_merge_sort; apply _. Qed.



Lemma sorted_nil : sorted [] = [].
Proof. reflexivity. Qed.

Lemma sorted_singleton x : sorted [x] = [x].
Proof. reflexivity. Qed.

(** *** [endswith] *)

Lemma endswith_nil t : endswith "" t = String.eqb "" t.
Proof. simpl. apply orb_false_r. Qed.

Lemma endswith_cons c s t :
  endswith (String c s) t = String.eqb (String c s) t || endswith s t.
Proof. reflexivity. Qed.

Lemma endswith_length s : forall t,
  endswith s t = true -> (String.length t <= String.length s)%nat.
Proof.
  induction s as [|c s IH]; intros t.
  - rewrite endswith_nil. intros H. apply String.eqb_eq in H. by subst.
  - rewrite endswith_cons, orb_true_iff. intros [H|H].
    + apply String.eqb_eq in H. by subst.
    + apply IH in H. simpl. lia.
Qed.

Lemma endswith_same_length s t :
  endswith s t = true -> (String.length s <= String.length t)%nat -> s = t.
Proof.
  destruct s as [|c s].
  - rewrite endswith_nil. intros H _. by apply String.eqb_eq in H.
  - rewrite endswith_cons, orb_true_iff. intros [H|H] Hlen.
    + by apply String.eqb_eq in H.
    + apply endswith_length in H. simpl in Hlen. lia.
Qed.






(** *** Paths of directory entries *)






(** *** The directory branch *)

Section Directory.
Variables (fs : FS) (source_path : Path).

Local Abbreviation entries := (scandir fs (to_string source_path)).

Lemma glob_loop_flat exts : forall image_files,
  glob_loop fs source_path exts image_files =
    (image_files ++
       flat_map (fun ext => path_glob fs source_path ext
                            ++ path_glob fs source_path (upper ext)) exts)%list.
Proof.
  induction exts as [|ext rest IH]; intros acc; simpl.
  - by rewrite app_nil_r.
  - rewrite IH. by rewrite <- !app_assoc.
Qed.








Lemma elem_of_flat_map {A B} (f : A -> list B) l y :
  y ∈ flat_map f l <-> exists x, x ∈ l /\ y ∈ f x.
Proof.
  rewrite list_elem_of_In, in_flat_map. split; intros (x & H1 & H2); exists x.
  - by rewrite !list_elem_of_In.
  - by rewrite <- !list_elem_of_In.
Qed.


Lemma name_matches_spec entry :
  name_matches entry = true <->
  exists pat, pat ∈ patterns /\ endswith entry pat = true.
Proof.
  unfold name_matches, patterns. rewrite existsb_exists. split.
  - intros (ext & Hext & H). apply orb_true_iff in H as [H|H].
    + exists ext. split; [|done]. apply elem_of_flat_map. exists ext.
      split; [by apply list_elem_of_In | by left].
    + exists (upper ext). split; [|done]. apply elem_of_flat_map. exists ext.
      split; [by apply list_elem_of_In | right; by left].
  - intros (pat & Hpat & H). apply elem_of_flat_map in Hpat as (ext & Hext & Hp).
    exists ext. split; [by apply list_elem_of_In|].
    apply elem_of_cons in Hp as [->|Hp]; [by rewrite H|].
    apply list_elem_of_singleton in Hp as ->. by rewrite H, orb_true_r.
Qed.



End Directory.

(** *** Endings, extensions and case *)

Lemma endswith_split s : forall t,
  endswith s t = true -> exists pre, s = pre ++ t.
Proof.
  induction s as [|ch s IH]; intros t.
  - rewrite endswith_nil. intros H. apply String.eqb_eq in H. by exists "".
  - rewrite endswith_cons, orb_true_iff. intros [H|H].
    + apply String.eqb_eq in H. by exists "".
    + apply IH in H as [pre ->]. by exists (String ch pre).
Qed.

Lemma rfind_dot_app pre : forall t j,
  rfind_dot t = Some j ->
  rfind_dot (pre ++ t) = Some (String.length pre + j)%nat.
Proof.
  induction pre as [|ch pre IH]; intros t j Ht; simpl; [done|].
  by rewrite (IH t j Ht).
Qed.

Lemma substring_all t : String.substring 0 (String.length t) t = t.
Proof. induction t as [|ch t IH]; simpl; [done | by rewrite IH]. Qed.

Lemma substring_after pre : forall t,
  String.substring (String.length pre) (String.length t) (pre ++ t) = t.
Proof.
  induction pre as [|ch pre IH]; intros t; simpl; [apply substring_all | apply IH].
Qed.

Lemma length_append (a b : string) :
  String.length (a ++ b) = (String.length a + String.length b)%nat.
Proof. induction a as [|ch a IH]; simpl; [done | by rewrite IH]. Qed.



















End ResolveFacts.

(** ** Properties of image-source resolution *)

Module ResolveProperties.
Import PyPath Resolve ResolveSpec ResolveFacts ResolveExamples.
Local Open Scope string_scope.

(** The spec's example: a directory with [a.jpg], [b.PNG] and [c.txt]. *)
Example directory_of_three :
  get_image_files demo_fs "imgs" = ["imgs/a.jpg"; "imgs/b.PNG"].
Proof. vm_compute. reflexivity. Qed.

(** A path that does not exist and that no glob matches. *)
Example nothing_found : get_image_files demo_fs "nowhere/*.jpg" = [].
Proof. vm_compute. reflexivity. Qed.

(** A single file is kept whatever the case of its extension; in a directory
    only the listed and the upper-case spellings are looked for. *)
Example mixed_case_extension :
  get_image_files demo_fs "shot.JPeG" = ["shot.JPeG"]
  /\ name_matches "shot.JPeG" = false.
Proof. split; vm_compute; reflexivity. Qed.

(** The listing of a directory is made by name alone: a sub-directory
    named like an image is returned with the files. *)
Example directory_with_subdirectory :
  get_image_files nested_fs "d" = ["d/sub.png"; "d/x.jpg"]
  /\ is_file nested_fs "d/sub.png" = false
  /\ is_dir nested_fs "d/sub.png" = true.
Proof. vm_compute. repeat split. Qed.




End ResolveProperties.

(** ** Further properties of the cleaning filter *)

Module CleaningMore.
Import PyNum Cleaning CleaningSpec CleaningFacts CleaningExamples.

Section Thresholds.
Variables min_side min_area : Z.

Local Abbreviation meets := (meets min_side min_area).
Local Abbreviation kept := (kept min_side min_area).
Local Abbreviation survives := (survives min_side min_area).
Local Abbreviation saved := (saved min_side min_area).

Lemma delete_marked (marked : list string) (l : Dataset) :
  (forall s, s ∈ l -> (sample_id s ∈ marked <-> survives s = false)) ->
  delete_samples (map saved l) marked = map saved (List.filter survives l).
Proof.
  induction l as [|s l IH]; intros Hmark; [done|].
  assert (Hrest : forall s0, s0 ∈ l ->
            (sample_id s0 ∈ marked <-> survives s0 = false)).
  { intros s0 Hs0. apply Hmark. by right. }
  specialize (IH Hrest). unfold delete_samples in *. simpl.
  specialize (Hmark s (list_elem_of_here _ _)).
  destruct (survives s) eqn:Hsv; simpl.
  - assert (Hl : listed marked (saved s) = false).
    { apply not_true_iff_false. rewrite listed_spec, saved_id, Hmark. done. }
    rewrite Hl. simpl. by rewrite IH.
  - assert (Hl : listed marked (saved s) = true).
    { rewrite listed_spec, saved_id. by apply Hmark. }
    rewrite Hl. simpl. exact IH.
Qed.

Lemma map_saved_survivors (l : Dataset) :
  map saved (List.filter survives l) =
  map (fun s => with_detections s (kept s)) (List.filter survives l).
Proof.
  induction l as [|s l IH]; simpl; [done|].
  destruct (survives s) eqn:Hsv; [|done]. simpl. rewrite IH. f_equal.
  unfold CleaningSpec.saved. by rewrite Hsv.
Qed.

Lemma count_kept_bounds (ds : Dataset) :
  0 <= count_kept min_side min_area ds <= count_boxes ds.
Proof.
  induction ds as [|s ds IH]; [done|].
  rewrite count_boxes_cons, count_kept_cons.
  pose proof (filter_split (meets s) (boxes s)) as Hsplit.
  unfold CleaningSpec.kept. lia.
Qed.

Lemma loop_keeps_ids todo : forall seen c store e,
  sample_loop min_side min_area todo seen c = (store, Raise e) ->
  map sample_id store = map sample_id (seen ++ todo).
Proof.
  induction todo as [|s todo IH]; intros seen c store e; simpl; [done|].
  destruct (sample_detections s) as [det|].
  - destruct (keep_loop min_side min_area s (detections det) [])
      as [[|d k]|e'] eqn:Hk.
    + intros H. apply IH in H. rewrite H, <- app_assoc. done.
    + intros H. apply IH in H. rewrite H, <- app_assoc, !map_app. done.
    + by intros [= <- _].
  - intros H. apply IH in H. by rewrite H, <- app_assoc.
Qed.

End Thresholds.

(** X1: on a store in which every sample with boxes has usable metadata and
    which holds at least one box, the call returns the number of samples left
    without a kept box and the number of boxes that fail a threshold; the
    latter lies between 0 and the number of boxes of the store. *)
Theorem returned_counts (min_side min_area : Z) (ds : Dataset) :
  Forall well_formed ds ->
  count_boxes ds <> 0 ->
  (filter_small_boxes ds min_side min_area).2 =
    Ok (Z.of_nat (length (List.filter
                            (fun s => negb (survives min_side min_area s)) ds)),
        count_failing min_side min_area ds)
  /\ 0 <= count_failing min_side min_area ds <= count_boxes ds.
Proof.
  intros Hwf Hne. split.
  - rewrite filter_small_boxes_outcome by done.
    destruct (count_boxes ds =? 0) eqn:Hz; [apply Z.eqb_eq in Hz; done|].
    rewrite count_failing_diff. unfold doomed. by rewrite length_map.
  - rewrite <- count_failing_diff.
    pose proof (count_kept_bounds min_side min_area ds). lia.
Qed.

Lemma returned_counts_witness :
  (filter_small_boxes [mixed; tiny_only; unlabelled] 8 64).2 =
    Ok (Z.of_nat (length (List.filter (fun s => negb (survives 8 64 s))
                            [mixed; tiny_only; unlabelled])),
        count_failing 8 64 [mixed; tiny_only; unlabelled])
  /\ 0 <= count_failing 8 64 [mixed; tiny_only; unlabelled]
       <= count_boxes [mixed; tiny_only; unlabelled].
Proof.
  apply (returned_counts 8 64 [mixed; tiny_only; unlabelled]).
  - do 3 (constructor; [right; eexists; vm_compute; reflexivity|]). constructor.
  - vm_compute. discriminate.
Defined.

(** X2: whenever the call raises, either the exception comes from the
    metadata of a sample and no sample has been deleted (the store holds the
    identifiers of the input, in order), or it is the [ZeroDivisionError] of
    the removal rate, the input held no box and the store has been emptied. *)
Theorem failure_modes (min_side min_area : Z) (ds : Dataset) (e : exn) :
  (filter_small_boxes ds min_side min_area).2 = Raise e ->
  (collaborator_error e /\
   map sample_id (filter_small_boxes ds min_side min_area).1
     = map sample_id ds)
  \/ (e = ZeroDivisionError /\ count_boxes ds = 0 /\
      (filter_small_boxes ds min_side min_area).1 = []).
Proof.
  destruct (well_formed_all_or_not ds) as [Hwf|Hex].
  - rewrite filter_small_boxes_outcome by done.
    destruct (count_boxes ds =? 0) eqn:Hz; [|done].
    apply Z.eqb_eq in Hz. intros [= <-]. right. split; [done|]. split; [done|].
    destruct (filter_small_boxes ds min_side min_area).1 as [|x l] eqn:Hst;
      [done|]. exfalso.
    assert (Hx : x ∈ (filter_small_boxes ds min_side min_area).1)
      by (rewrite Hst; by left).
    destruct (store_elements min_side min_area ds x Hwf Hx)
      as (s & Hs & Hsv & _).
    apply survives_true in Hsv.
    destruct (kept min_side min_area s) as [|d k] eqn:Hk; [done|].
    assert (Hd : d ∈ boxes s).
    { assert (Hin : In d (kept min_side min_area s)) by (rewrite Hk; by left).
      unfold kept in Hin. apply filter_In in Hin as [Hin _].
      by apply list_elem_of_In. }
    pose proof (count_boxes_pos ds s d Hs Hd). lia.
  - unfold filter_small_boxes.
    destruct (sample_loop_ill_formed min_side min_area ds [] init_counters Hex)
      as (store & e' & Hloop).
    rewrite Hloop. simpl. intros [= <-]. left. split.
    + by eapply sample_loop_error.
    + by apply loop_keeps_ids in Hloop.
Qed.

Lemma failure_modes_witness :
  (collaborator_error AttributeError /\
   map sample_id
     (filter_small_boxes [mixed; tiny_only; no_metadata; unlabelled] 8 64).1
     = map sample_id [mixed; tiny_only; no_metadata; unlabelled])
  \/ (AttributeError = ZeroDivisionError /\
      count_boxes [mixed; tiny_only; no_metadata; unlabelled] = 0 /\
      (filter_small_boxes [mixed; tiny_only; no_metadata; unlabelled] 8 64).1
        = []).
Proof.
  apply (failure_modes 8 64 [mixed; tiny_only; no_metadata; unlabelled]).
  vm_compute. reflexivity.
Defined.

(** X3: a sample that has a box but no usable metadata makes the call raise
    an [AttributeError], [TypeError] or [OverflowError]; it is not skipped,
    and no sample is deleted. *)
Theorem unusable_metadata_fails_call
    (min_side min_area : Z) (ds : Dataset) (s : Sample) :
  s ∈ ds ->
  boxes s <> [] ->
  pixel_dims s = None ->
  exists e,
    (filter_small_boxes ds min_side min_area).2 = Raise e /\
    collaborator_error e /\
    length (filter_small_boxes ds min_side min_area).1 = length ds.
Proof.
  intros Hs Hb Hd.
  assert (Hill : ~ well_formed s).
  { intros [H|[x H]]; [done | congruence]. }
  assert (Hex : Exists (fun s => ~ well_formed s) ds)
    by (apply Exists_exists; eauto).
  unfold filter_small_boxes.
  destruct (sample_loop_ill_formed min_side min_area ds [] init_counters Hex)
    as (store & e & Hloop).
  rewrite Hloop. simpl. exists e. split; [done|]. split.
  - by eapply sample_loop_error.
  - apply loop_keeps_ids in Hloop. apply (f_equal length) in Hloop.
    by rewrite !length_map in Hloop.
Qed.

Lemma unusable_metadata_fails_call_witness :
  exists e,
    (filter_small_boxes [mixed; no_metadata; tiny_only] 8 64).2 = Raise e /\
    collaborator_error e /\
    length (filter_small_boxes [mixed; no_metadata; tiny_only] 8 64).1
      = length [mixed; no_metadata; tiny_only].
Proof.
  apply (unusable_metadata_fails_call 8 64 [mixed; no_metadata; tiny_only]
           no_metadata).
  - apply list_elem_of_further, list_elem_of_here.
  - discriminate.
  - reflexivity.
Defined.

(** X4: on a store with distinct identifiers the call leaves exactly the
    samples that keep a box, in their original order, each with its kept
    boxes in place of its boxes; the samples left and the samples marked for
    deletion add up to the samples given. *)
Theorem store_after_filter (min_side min_area : Z) (ds : Dataset) :
  NoDup (map sample_id ds) ->
  Forall well_formed ds ->
  (filter_small_boxes ds min_side min_area).1 =
    map (fun s => with_detections s (kept min_side min_area s))
      (List.filter (survives min_side min_area) ds)
  /\ (length (filter_small_boxes ds min_side min_area).1
      + length (doomed min_side min_area ds) = length ds)%nat.
Proof.
  intros Hnd Hwf.
  assert (Hstore : (filter_small_boxes ds min_side min_area).1 =
            map (fun s => with_detections s (kept min_side min_area s))
              (List.filter (survives min_side min_area) ds)).
  { rewrite filter_small_boxes_store by done.
    rewrite delete_marked; [apply map_saved_survivors|].
    intros s Hs. rewrite elem_of_doomed. split.
    - intros (s2 & Hs2 & Hsv2 & Hid).
      assert (s2 = s) by by apply (ids_injective ds). by subst.
    - intros Hsv. by exists s. }
  split; [exact Hstore|].
  rewrite Hstore. unfold doomed. rewrite !length_map.
  symmetry. apply filter_split.
Qed.

Lemma store_after_filter_witness :
  (filter_small_boxes [mixed; tiny_only; unlabelled] 8 64).1 =
    map (fun s => with_detections s (kept 8 64 s))
      (List.filter (survives 8 64) [mixed; tiny_only; unlabelled])
  /\ (length (filter_small_boxes [mixed; tiny_only; unlabelled] 8 64).1
      + length (doomed 8 64 [mixed; tiny_only; unlabelled])
      = length [mixed; tiny_only; unlabelled])%nat.
Proof.
  apply (store_after_filter 8 64 [mixed; tiny_only; unlabelled]).
  - apply (bool_decide_unpack _). vm_compute. exact I.
  - do 3 (constructor; [right; eexists; vm_compute; reflexivity|]). constructor.
Defined.

(** *** Thresholds *)

Lemma float_ge_int_mono (f : float) (z1 z2 : Z) :
  z1 <= z2 -> float_ge_int f z2 = true -> float_ge_int f z1 = true.
Proof.
  intros Hle. unfold float_ge_int.
  destruct (Prim2SF f) as [s|s| |s m e]; try done.
  - rewrite !Z.leb_le. lia.
  - destruct (0 <=? e) eqn:He; rewrite !Z.leb_le.
    + lia.
    + apply Z.leb_gt in He. intros H.
      assert (0 < 2 ^ (- e)) by (apply Z.pow_pos_nonneg; lia).
      nia.
Qed.

Lemma meets_mono (lo_side lo_area hi_side hi_area : Z) s d :
  lo_side <= hi_side -> lo_area <= hi_area ->
  meets hi_side hi_area s d = true -> meets lo_side lo_area s d = true.
Proof.
  intros Hs Ha. unfold meets. destruct (pixel_dims s) as [[fw fh]|]; [|done].
  rewrite !andb_true_iff. intros [[H1 H2] H3].
  repeat split; by eapply float_ge_int_mono.
Qed.

(** X5: lowering the thresholds never removes more. Every box kept under
    [hi_side], [hi_area] is kept under smaller thresholds, and every sample
    that stays in the store under the larger thresholds stays under the
    smaller ones. *)
Theorem looser_thresholds_keep_more
    (lo_side lo_area hi_side hi_area : Z) (ds : Dataset) :
  lo_side <= hi_side ->
  lo_area <= hi_area ->
  Forall well_formed ds ->
  (forall s d, d ∈ kept hi_side hi_area s -> d ∈ kept lo_side lo_area s) /\
  (forall i,
     i ∈ map sample_id (filter_small_boxes ds hi_side hi_area).1 ->
     i ∈ map sample_id (filter_small_boxes ds lo_side lo_area).1).
Proof.
  intros Hs Ha Hwf.
  assert (Hkept : forall s d,
            d ∈ kept hi_side hi_area s -> d ∈ kept lo_side lo_area s).
  { intros s d. unfold kept. rewrite !list_elem_of_In, !filter_In.
    intros [Hin Hm]. split; [done|]. by eapply meets_mono. }
  split; [exact Hkept|].
  intros i Hi. apply list_elem_of_fmap in Hi as (x & -> & Hx).
  destruct (store_elements hi_side hi_area ds x Hwf Hx) as (s & Hin & Hsv & ->).
  simpl.
  assert (Hsv' : survives lo_side lo_area s = true).
  { apply survives_true. apply survives_true in Hsv.
    destruct (kept hi_side hi_area s) as [|d k] eqn:Hk; [done|].
    assert (Hd : d ∈ kept lo_side lo_area s)
      by (apply Hkept; rewrite Hk; by left).
    intros Hnil. rewrite Hnil in Hd. by apply elem_of_nil in Hd. }
  apply list_elem_of_fmap.
  exists (with_detections s (kept lo_side lo_area s)). split; [done|].
  rewrite filter_small_boxes_store by done.
  apply elem_of_delete_samples. split.
  - replace (with_detections s (kept lo_side lo_area s))
      with (saved lo_side lo_area s)
      by (unfold saved; by rewrite Hsv').
    by apply list_elem_of_fmap_2.
  - simpl. intros Hdoom.
    apply elem_of_doomed in Hdoom as (s2 & Hs2 & Hsv2 & Hid).
    (* a doomed sample sharing the identifier would have removed it from the
       store under the larger thresholds as well *)
    rewrite filter_small_boxes_store in Hx by done.
    apply elem_of_delete_samples in Hx as [_ Hnl]. apply Hnl. simpl.
    apply elem_of_doomed. exists s2. split; [done|]. split; [|done].
    apply survives_false. apply survives_false in Hsv2.
    destruct (kept hi_side hi_area s2) as [|d k] eqn:Hk; [done|].
    assert (Hd : d ∈ kept lo_side lo_area s2)
      by (apply Hkept; rewrite Hk; by left).
    rewrite Hsv2 in Hd. by apply elem_of_nil in Hd.
Qed.

Lemma looser_thresholds_keep_more_witness :
  (forall s d, d ∈ kept 8 64 s -> d ∈ kept 4 16 s) /\
  (forall i,
     i ∈ map sample_id
           (filter_small_boxes [mixed; tiny_only; unlabelled] 8 64).1 ->
     i ∈ map sample_id
           (filter_small_boxes [mixed; tiny_only; unlabelled] 4 16).1).
Proof.
  apply (looser_thresholds_keep_more 4 16 8 64 [mixed; tiny_only; unlabelled]).
  - lia.
  - lia.
  - do 3 (constructor; [right; eexists; vm_compute; reflexivity|]). constructor.
Defined.

(** *** Degenerate boxes *)




End CleaningMore.

(** ** Further properties of the inference runner *)

Module InferenceMore.
Import PyNum Inference InferenceSpec InferenceFacts InferenceExamples.
Local Open Scope string_scope.

Section Call.
Variables (env : Env) (c : float) (save_result : bool) (output_dir : string).

Local Abbreviation run :=
  (fun p => process_single_image env p c save_result output_dir).

(** What a call that raises has done: nothing when the file is missing;
    the call of the detector; and the making of the output directory as
    well when it is [result.plot()] or [cv2.imwrite] that raises. *)
Lemma process_single_image_raises image_path w w' e :
  run image_path w = (w', Raise e) ->
  (path_exists env image_path = false /\ e = FileNotFoundError /\ w' = w)
  \/ (path_exists env image_path = true /\ w' = after_call w)
  \/ (path_exists env image_path = true /\ save_result = true /\
      w' = after_mkdir w output_dir /\
      exists r rest,
        predict env (calls w) image_path c = Ok (r :: rest) /\
        (plot r = Raise e \/
         exists img,
           plot r = Ok img /\
           cv2_imwrite env (annotated_path output_dir image_path) img
             = Raise e)).
Proof.
  unfold process_single_image.
  destruct (path_exists env image_path) eqn:Hex; simpl;
    [|intros [= <- <-]; by left].
  unfold mbind, M_bind, call_model, lift, save_annotated.
  intros H. right. revert H.
  destruct (predict env (calls w) image_path c) as [[|r rest]|] eqn:Hp;
    try by (intros [= <- _]; left).
  destruct (parse_detections env r) as [dets|] eqn:Hd;
    try by (intros [= <- _]; left).
  destruct (save_result && nonempty dets) eqn:Hs; [|done].
  apply andb_true_iff in Hs as [-> _].
  unfold mbind, M_bind, do_makedirs, imwrite, lift.
  destruct (makedirs env output_dir) as [[]|] eqn:Hm;
    [|by (intros [= <- _]; left)].
  destruct (plot r) as [img|e'] eqn:Hplot.
  - destruct (cv2_imwrite env (annotated_path output_dir image_path) img)
      as [flag|e'] eqn:Hwrite; [done|].
    intros [= <- <-]. right. repeat split. exists r, rest. split; [done|].
    right. by exists img.
  - intros [= <- <-]. right. repeat split. exists r, rest. split; [done|].
    by left.
Qed.

Lemma detections_loop_mirror bs : forall acc dets,
  detections_loop env bs acc = Ok dets ->
  exists new, dets = (acc ++ new)%list /\
    Forall2 (fun det box => detection_of env box = Ok det) new bs.
Proof.
  induction bs as [|box bs IH]; intros acc dets; simpl.
  - intros [= <-]. exists []. split; [by rewrite app_nil_r | constructor].
  - destruct (detection_of env box) as [det|] eqn:Hdet; simpl; [|done].
    intros H. apply IH in H as (new & -> & Hall).
    exists (det :: new). split; [by rewrite <- app_assoc | by constructor].
Qed.



End Call.

Lemma failed_call_effects
    (env : Env) (image_path : string) (c : float) (save_result : bool)
    (output_dir : string) (w w' : World) (e : exn) :
  process_single_image env image_path c save_result output_dir w
    = (w', Raise e) ->
  images w' = images w /\ reports w' = reports w /\ opened w' = opened w /\
  (calls w <= calls w' <= S (calls w))%nat /\
  (dirs w' = dirs w \/
   (save_result = true /\ dirs w' = (dirs w ++ [output_dir])%list)).
Proof.
  intros H. apply process_single_image_raises in H
    as [(_ & _ & ->)|[(_ & ->)|(_ & Hs & -> & _)]]; simpl;
    repeat split; try lia; auto.
Qed.



(** The shape of a returned record, with its detections against the boxes. *)
Lemma detections_mirror_boxes_aux
    (env : Env) (image_path : string) (c : float) (save_result : bool)
    (output_dir : string) (w w' : World) (rec : pyval) :
  process_single_image env image_path c save_result output_dir w
    = (w', Ok rec) ->
  exists ms dets out bs,
    rec = record_of image_path ms dets out /\
    Forall2 (fun det box => detection_of env box = Ok det) dets bs.
Proof.
  intros H. apply process_single_image_returns in H
    as (r & rest & dets & _ & Hp & Hd & H). simpl in H.
  assert (Hall : Forall2 (fun det box => detection_of env box = Ok det)
                   dets (default [] (boxes r))).
  { unfold parse_detections in Hd. destruct (boxes r) as [bs|]; simpl.
    - apply detections_loop_mirror in Hd as (new & -> & Hall). done.
    - injection Hd as <-. constructor. }
  destruct (save_result && nonempty dets).
  - destruct H as (img & flag & _ & _ & _ & -> & _). eauto 10.
  - destruct H as (-> & _). eauto 10.
Qed.





(** *** The batch *)

Section Batch.
Variables (env : Env) (c : float) (save_results : bool) (output_dir : string).

Local Abbreviation run :=
  (fun p => process_single_image env p c save_results output_dir).
Local Abbreviation loop := (batch_loop env c save_results output_dir).
Local Abbreviation recs_of := (successes env c save_results output_dir).

Lemma batch_loop_world image_paths : forall st st' w,
  (loop image_paths st w).1 = (loop image_paths st' w).1.
Proof.
  induction image_paths as [|p rest IH]; intros st st' w; simpl; [done|].
  unfold batch_step. destruct (run p w) as [w1 [rec|e]]; apply IH.
Qed.

Lemma batch_loop_app l1 l2 : forall st w,
  loop (l1 ++ l2) st w = loop l2 (loop l1 st w).2 (loop l1 st w).1.
Proof.
  induction l1 as [|p l1 IH]; intros st w; simpl; [done|].
  destruct (batch_step env c save_results output_dir st p w) as [w1 st1].
  apply IH.
Qed.

Lemma successes_app l1 l2 : forall w,
  recs_of (l1 ++ l2) w =
    (recs_of l1 w ++ recs_of l2 (loop l1 init_batch w).1)%list.
Proof.
  induction l1 as [|p l1 IH]; intros w; simpl; [done|].
  unfold batch_step. destruct (run p w) as [w1 [rec|e]] eqn:Hrun.
  - rewrite IH. simpl.
    by rewrite (batch_loop_world l1 (record_result init_batch rec) init_batch w1).
  - by rewrite IH.
Qed.

(** A relation between worlds that every call respects is respected by the
    loop. *)
Lemma batch_loop_respects (R : World -> World -> Prop) :
  (forall w, R w w) ->
  (forall w1 w2 w3, R w1 w2 -> R w2 w3 -> R w1 w3) ->
  (forall p w, R w (run p w).1) ->
  forall image_paths st w, R w (loop image_paths st w).1.
Proof.
  intros Hrefl Htrans Hstep. induction image_paths as [|p rest IH];
    intros st w; simpl; [apply Hrefl|].
  unfold batch_step. pose proof (Hstep p w) as H.
  destruct (run p w) as [w1 [rec|e]]; simpl in H;
    (eapply Htrans; [exact H | apply IH]).
Qed.

Lemma successes_length image_paths : forall w,
  (length (recs_of image_paths w) <= length image_paths)%nat.
Proof.
  induction image_paths as [|p rest IH]; intros w; simpl; [done|].
  destruct (run p w) as [w1 [rec|e]]; simpl; specialize (IH w1); lia.
Qed.

Lemma batch_images_bound image_paths : forall st w,
  (length (images (loop image_paths st w).1)
   <= length (images w) + length (recs_of image_paths w))%nat.
Proof.
  induction image_paths as [|p rest IH]; intros st w; simpl; [lia|].
  unfold batch_step. destruct (run p w) as [w1 [rec|e]] eqn:Hrun.
  - specialize (IH (record_result st rec) w1).
    apply process_single_image_returns in Hrun
      as (r & rs & dets & _ & _ & _ & H). simpl in H.
    destruct (save_results && nonempty dets).
    + destruct H as (img & flag & _ & _ & _ & _ & ->). simpl in IH.
      rewrite length_app in IH. simpl in *. lia.
    + destruct H as (_ & ->). simpl in *. lia.
  - specialize (IH st w1).
    apply failed_call_effects in Hrun as (Hi & _). rewrite Hi in IH. lia.
Qed.

(** The call in full: the world of the loop, the records of the images
    that succeed, and the printed figures. *)
Lemma process_batch_images_eq image_paths w :
  process_batch_images env image_paths c save_results output_dir w =
    let recs := recs_of image_paths w in
    let t := if nonempty recs then mean (map record_ms recs) else 0%float in
    ((loop image_paths init_batch w).1,
     Ok (recs,
         {| processed := length recs;
            requested := length image_paths;
            detections_found := fold_left Z.add (map record_count recs) 0;
            avg_time := t;
            avg_fps := if PrimFloat.ltb 0%float t
                       then PrimFloat.div 1000%float t else 0%float |})).
Proof.
  unfold process_batch_images.
  pose proof (batch_loop_successes env c save_results output_dir image_paths
                init_batch w) as Hloop.
  destruct (loop image_paths init_batch w) as [w' st]. simpl in Hloop.
  subst st. unfold stats_of. rewrite avg_time_of_value. simpl.
  rewrite avg_fps_of_value. simpl.
  destruct (recs_of image_paths w) as [|r rs]; [done|].
  simpl nonempty. cbv iota. unfold mean, float_sum.
  by rewrite length_map.
Qed.

End Batch.

Lemma fold_add_from (l : list Z) : forall a,
  fold_left Z.add l a = a + fold_left Z.add l 0.
Proof.
  induction l as [|x l IH]; intros a; simpl; [lia|].
  rewrite (IH (a + x)), (IH (0 + x)). lia.
Qed.

(** X10: with saving disabled a batch makes no directory and writes no
    image or report, and every record it returns has [output_path] [None]. *)
Theorem no_save_writes_nothing
    (env : Env) (image_paths : list string) (c : float) (output_dir : string)
    (w : World) :
  let r := process_batch_images env image_paths c false output_dir w in
  dirs r.1 = dirs w /\ images r.1 = images w /\ reports r.1 = reports w /\
  exists recs stats,
    r.2 = Ok (recs, stats) /\
    Forall (fun rec => getitem rec "output_path" = Ok PNone) recs.
Proof.
  simpl. rewrite process_batch_images_eq. simpl.
  assert (Hw : dirs (batch_loop env c false output_dir image_paths init_batch w).1
                 = dirs w /\
               images (batch_loop env c false output_dir image_paths init_batch w).1
                 = images w /\
               reports (batch_loop env c false output_dir image_paths init_batch w).1
                 = reports w).
  { apply (batch_loop_respects env c false output_dir
             (fun w1 w2 => dirs w2 = dirs w1 /\ images w2 = images w1
                           /\ reports w2 = reports w1)).
    - done.
    - intros w1 w2 w3 (H1 & H2 & H3) (H4 & H5 & H6). split; [|split]; congruence.
    - intros p w0.
      destruct (process_single_image env p c false output_dir w0)
        as [w1 [rec|e]] eqn:Hrun; simpl.
      + apply process_single_image_returns in Hrun
          as (r & rs & dets & _ & _ & _ & H). simpl in H.
        by destruct H as (_ & ->).
      + apply failed_call_effects in Hrun as (Hi & Hr & _ & _ & [Hd|[? _]]);
          done. }
  destruct Hw as (Hd & Hi & Hr). repeat split; try done.
  eexists _, _. split; [reflexivity|].
  generalize w. clear. induction image_paths as [|p rest IH]; intros w; simpl;
    [constructor|].
  destruct (process_single_image env p c false output_dir w)
    as [w1 [rec|e]] eqn:Hrun; [|apply IH].
  constructor; [|apply IH].
  apply process_single_image_returns in Hrun
    as (r & rs & dets & _ & _ & _ & H). simpl in H. by destruct H as (-> & _).
Qed.

(** X11: a batch can be split. Running [l1 ++ l2] returns the records of
    [l1] followed by the records of [l2] run on the world that [l1] leaves,
    ends in the same world, and its counts of processed images and of
    detections are the sums of the counts of the two parts. *)
Theorem batch_splits
    (env : Env) (l1 l2 : list string) (c : float) (save_results : bool)
    (output_dir : string) (w : World) :
  exists w1 w2 r1 r2 s1 s2 s12,
    process_batch_images env l1 c save_results output_dir w
      = (w1, Ok (r1, s1)) /\
    process_batch_images env l2 c save_results output_dir w1
      = (w2, Ok (r2, s2)) /\
    process_batch_images env (l1 ++ l2) c save_results output_dir w
      = (w2, Ok ((r1 ++ r2)%list, s12)) /\
    processed s12 = (processed s1 + processed s2)%nat /\
    requested s12 = (requested s1 + requested s2)%nat /\
    detections_found s12 = detections_found s1 + detections_found s2.
Proof.
  pose proof (process_batch_images_eq env c save_results output_dir l1 w) as H1.
  pose proof (process_batch_images_eq env c save_results output_dir l2
                (batch_loop env c save_results output_dir l1 init_batch w).1)
    as H2.
  pose proof (process_batch_images_eq env c save_results output_dir
                (l1 ++ l2) w) as H12.
  cbv zeta in H1, H2, H12.
  rewrite successes_app, batch_loop_app in H12.
  rewrite (batch_loop_world env c save_results output_dir l2
             (batch_loop env c save_results output_dir l1 init_batch w).2
             init_batch) in H12.
  eexists _, _, _, _, _, _, _. split; [exact H1|]. split; [exact H2|].
  split; [exact H12|]. simpl.
  rewrite !length_app, map_app, fold_left_app.
  repeat split. apply fold_add_from.
Qed.

(** X12: a batch returns at most one record per path and calls the detector
    at most once per path; it writes at most one image per record and no
    report. *)
Theorem batch_bounds
    (env : Env) (image_paths : list string) (c : float) (save_results : bool)
    (output_dir : string) (w : World) :
  exists w' recs stats,
    process_batch_images env image_paths c save_results output_dir w
      = (w', Ok (recs, stats)) /\
    processed stats = length recs /\
    requested stats = length image_paths /\
    (processed stats <= requested stats)%nat /\
    (calls w <= calls w' <= calls w + length image_paths)%nat /\
    (length (images w') <= length (images w) + length recs)%nat /\
    reports w' = reports w.
Proof.
  rewrite process_batch_images_eq. cbv zeta.
  eexists _, _, _. split; [reflexivity|]. simpl.
  split; [done|]. split; [done|]. split; [apply successes_length|].
  split; [|split; [apply batch_images_bound|]].
  - generalize init_batch. generalize w. clear.
    induction image_paths as [|p rest IH]; intros w st; simpl; [lia|].
    unfold batch_step.
    destruct (process_single_image env p c save_results output_dir w)
      as [w1 [rec|e]] eqn:Hrun.
    + specialize (IH w1 (record_result st rec)).
      apply process_single_image_returns in Hrun
        as (r & rs & dets & _ & _ & _ & H). simpl in H.
      destruct (save_results && nonempty dets).
      * destruct H as (img & flag & _ & _ & _ & _ & ->). simpl in IH. lia.
      * destruct H as (_ & ->). simpl in IH. lia.
    + specialize (IH w1 st).
      apply failed_call_effects in Hrun as (_ & _ & _ & Hc & _). lia.
  - apply (batch_loop_respects env c save_results output_dir
             (fun w1 w2 => reports w2 = reports w1)); [done|congruence|].
    intros p w0.
    destruct (process_single_image env p c save_results output_dir w0)
      as [w1 [rec|e]] eqn:Hrun; simpl.
    + apply process_single_image_returns in Hrun
        as (r & rs & dets & _ & _ & _ & H). simpl in H.
      destruct (save_results && nonempty dets).
      * by destruct H as (img & flag & _ & _ & _ & _ & ->).
      * by destruct H as (_ & ->).
    + apply failed_call_effects in Hrun. tauto.
Qed.

(** *** The report *)

(** X13: the summary that [save_results_json] builds from the records of a
    batch agrees with the figures the batch printed: [total_images] is the
    number of processed images and [total_detections] the total number of
    detections. *)
Theorem summary_agrees_with_batch
    (env : Env) (image_paths : list string) (c : float) (save_results : bool)
    (output_dir : string) (w : World) :
  exists w' recs stats summary,
    process_batch_images env image_paths c save_results output_dir w
      = (w', Ok (recs, stats)) /\
    summary_of env recs = Ok summary /\
    getitem summary "total_images" = Ok (PInt (Z.of_nat (processed stats))) /\
    getitem summary "total_detections" = Ok (PInt (detections_found stats)).
Proof.
  rewrite process_batch_images_eq. cbv zeta.
  eexists _, _, _, _. split; [reflexivity|].
  rewrite summary_of_shape by apply successes_shape.
  split; [reflexivity|]. simpl. done.
Qed.

(** The sum stops at the first result whose count cannot be looked up or
    is no number, as long as the counts before it are ints. *)
Lemma sum_detections_stops env good bad rest e : forall acc,
  Forall (fun r => exists n, getitem r "num_detections" = Ok (PInt n)) good ->
  getitem bad "num_detections" = Raise e
  \/ (e = TypeError /\
      exists v, getitem bad "num_detections" = Ok v /\
                (forall n, v <> PInt n) /\ (forall f, v <> PFloat f)) ->
  sum_detections env (good ++ bad :: rest) acc = Raise e.
Proof.
  induction good as [|x good IH]; intros acc Hgood Hbad.
  - simpl. destruct Hbad as [->|(-> & v & -> & Hi & Hf)]; [done|]. simpl.
    destruct v; try done; [by destruct (Hi z) | by destruct (Hf f)].
  - apply Forall_cons in Hgood as [[n Hn] Hgood]. simpl. rewrite Hn. simpl.
    by apply IH.
Qed.

Lemma sum_detections_ints env results : forall acc,
  Forall (fun r => exists n, getitem r "num_detections" = Ok (PInt n))
    results ->
  exists total, sum_detections env results acc = Ok (PInt total).
Proof.
  induction results as [|x rest IH]; intros acc Hall; simpl; [eauto|].
  apply Forall_cons in Hall as [[n Hn] Hall]. rewrite Hn. simpl. by apply IH.
Qed.

(** The list of times stops at the first result without one. *)
Lemma inference_times_stops good bad rest e :
  Forall (fun r => is_ok (getitem r "inference_time_ms") = true) good ->
  getitem bad "inference_time_ms" = Raise e ->
  inference_times (good ++ bad :: rest) = Raise e.
Proof.
  induction good as [|x good IH]; intros Hgood Hbad.
  - simpl. by rewrite Hbad.
  - apply Forall_cons in Hgood as [Hx Hgood]. simpl.
    destruct (getitem x "inference_time_ms"); [|done]. simpl.
    by rewrite IH.
Qed.

(** X14: [save_results_json] raises before it opens the file, leaving the
    world as it was, in these cases. The counts of the results up to some
    result are ints, and that result is not a dictionary, or has no
    [num_detections], or has a value there that is not a number: the
    exception is that [TypeError] or [KeyError]. Or all counts are ints,
    and some result is the first that is not a dictionary or has no
    [inference_time_ms]: the exception is the one of that look-up. *)
Theorem malformed_result_fails_report
    (env : Env) (output_path : string) (w : World)
    (good : list pyval) (bad : pyval) (rest : list pyval) (e : exn) :
  (Forall (fun r => exists n, getitem r "num_detections" = Ok (PInt n)) good /\
   (getitem bad "num_detections" = Raise e
    \/ (e = TypeError /\
        exists v, getitem bad "num_detections" = Ok v /\
                  (forall n, v <> PInt n) /\ (forall f, v <> PFloat f))))
  \/ (Forall (fun r => exists n, getitem r "num_detections" = Ok (PInt n))
        (good ++ bad :: rest) /\
      Forall (fun r => is_ok (getitem r "inference_time_ms") = true) good /\
      getitem bad "inference_time_ms" = Raise e) ->
  save_results_json env (good ++ bad :: rest) output_path w = (w, Raise e).
Proof.
  intros H. unfold save_results_json, mbind, M_bind, lift, summary_of.
  destruct H as [[Hgood Hbad]|(Hints & Hgood & Hbad)].
  - by rewrite (sum_detections_stops env good bad rest e 0 Hgood Hbad).
  - destruct (sum_detections_ints env _ 0 Hints) as [total ->]. simpl.
    by rewrite (inference_times_stops good bad rest e Hgood Hbad).
Qed.

Lemma malformed_result_fails_report_witness :
  save_results_json demo_env
    ([record_of "imgs/c.jpg" 15.625 [] PNone]
       ++ PDict [("image_path", PStr "imgs/a.jpg")] :: [])
    "out/inference_results.json" new_world = (new_world, Raise KeyError).
Proof.
  apply (malformed_result_fails_report demo_env "out/inference_results.json"
           new_world [record_of "imgs/c.jpg" 15.625 [] PNone]
           (PDict [("image_path", PStr "imgs/a.jpg")]) [] KeyError).
  left. split.
  - constructor; [by exists 0 | constructor].
  - by left.
Defined.

Lemma report_effect
    (env : Env) (results : list pyval) (output_path : string) (w : World) :
  let r := save_results_json env results output_path w in
  calls r.1 = calls w /\ dirs r.1 = dirs w /\ images r.1 = images w /\
  match r.2 with
  | Raise e =>
      reports r.1 = reports w /\
      (r.1 = w \/
       (opened r.1 = (opened w ++ [output_path])%list /\
        open_for_writing env output_path = Ok tt /\
        exists summary,
          summary_of env results = Ok summary /\
          json_dump env output_path
            (PDict [("summary", summary); ("results", PList results)])
            = Raise e))
  | Ok _ =>
      opened r.1 = (opened w ++ [output_path])%list /\
      exists summary,
        summary_of env results = Ok summary /\
        reports r.1 =
          (reports w ++
             [(output_path,
               PDict [("summary", summary); ("results", PList results)])])%list
  end.
Proof.
  unfold save_results_json, mbind, M_bind, lift, dump_json, open_w, dump.
  simpl.
  destruct (summary_of env results) as [summary|e]; simpl;
    [|by repeat split; auto].
  unfold mbind, M_bind.
  destruct (open_for_writing env output_path) as [[]|e]; simpl;
    [|by repeat split; auto].
  destruct (json_dump env output_path _) as [[]|e] eqn:Hdump; simpl.
  - repeat split. by exists summary.
  - repeat split. right. repeat split. by exists summary.
Qed.


(** A report that fails half-way: the file is left opened and empty. *)
Example interrupted_report :
  let r := save_results_json full_disk_env [] "out/r.json" new_world in
  r.2 = Raise OSError /\ opened r.1 = ["out/r.json"] /\ reports r.1 = [].
Proof. vm_compute. repeat split. Qed.

(** X16: the frame rate of line 149 is computed without a failure for every
    average, be it zero, negative, infinite or NaN: it is [1000 / avg_time]
    for a strictly positive average and [0] in every other case. *)
Theorem frame_rate_never_fails (avg : float) :
  exists fps,
    avg_fps_of avg = Ok fps /\
    (PrimFloat.ltb 0%float avg = true -> fps = PrimFloat.div 1000%float avg) /\
    (PrimFloat.ltb 0%float avg = false -> fps = 0%float).
Proof.
  unfold avg_fps_of, float_truediv.
  destruct (PrimFloat.ltb 0%float avg) eqn:Hlt.
  - rewrite positive_not_zero by done. eexists. repeat split. done.
  - eexists. repeat split. done.
Qed.

Lemma frame_rate_never_fails_witness :
  exists fps,
    avg_fps_of nan = Ok fps /\
    (PrimFloat.ltb 0%float nan = true -> fps = PrimFloat.div 1000%float nan) /\
    (PrimFloat.ltb 0%float nan = false -> fps = 0%float).
Proof. apply (frame_rate_never_fails nan). Defined.

End InferenceMore.

(** ** Further properties of image-source resolution *)

Module ResolveMore.
Import PyPath Resolve ResolveSpec ResolveFacts ResolveExamples.
Local Open Scope string_scope.

#[global] Instance str_le_antisym : AntiSymm (=) str_le.
Proof.
  intros a b Hab Hba. unfold str_le in *.
  apply String.leb_antisym; by apply Is_true_eq_true.
Qed.

Lemma sorted_of_permutation (l1 l2 : list string) :
  l1 ≡ₚ l2 -> sorted l1 = sorted l2.
Proof.
  intros Hp. apply (StronglySorted_unique str_le).
  - apply sorted_is_sorted.
  - apply sorted_is_sorted.
  - by rewrite !sorted_permutation.
Qed.

(** X17: the extensions are held in a Python set, whose iteration order is
    not fixed. In whatever order the loop of lines 208-210 visits them, the
    list returned for a directory is the same. *)
Theorem extension_order_immaterial
    (fs : FS) (source : string) (exts : list string) :
  exts ≡ₚ image_extensions ->
  is_file fs (to_string (of_string source)) = false ->
  is_dir fs (to_string (of_string source)) = true ->
  get_image_files fs source =
    sorted (map to_string (glob_loop fs (of_string source) exts [])).
Proof.
  intros Hperm Hfile Hdir. unfold get_image_files. rewrite Hfile, Hdir.
  apply sorted_of_permutation.
  rewrite !glob_loop_flat, !app_nil_l.
  apply Permutation_map, Permutation_flat_map. by symmetry.
Qed.

Lemma extension_order_immaterial_witness :
  get_image_files demo_fs "imgs" =
    sorted (map to_string
              (glob_loop demo_fs (of_string "imgs")
                 [".webp"; ".tiff"; ".bmp"; ".png"; ".jpeg"; ".jpg"] [])).
Proof.
  apply (extension_order_immaterial demo_fs "imgs"
           [".webp"; ".tiff"; ".bmp"; ".png"; ".jpeg"; ".jpg"]).
  - symmetry. apply (Permutation_rev image_extensions).
  - reflexivity.
  - reflexivity.
Defined.

(** *** The two tests on extensions *)

Lemma name_child p entry : name (child p entry) = entry.
Proof. unfold name, child. simpl. apply last_last. Qed.

(** Every pattern starts with its only dot, is longer than the dot, and
    lowers to a listed extension. *)
Lemma patterns_shape :
  forallb (fun pat =>
    match rfind_dot pat with Some O => true | _ => false end
    && (1 <? String.length pat)%nat
    && in_extensions (lower pat)) patterns = true.
Proof. vm_compute. reflexivity. Qed.

(** X18: the directory branch and the single-file branch agree on ordinary
    names. An entry that the directory branch lists, and whose name is more
    than the bare extension, has a suffix that the test of line 204 accepts:
    it would be kept if it were given as a single file. *)
Theorem listed_entry_passes_file_test (p : Path) (entry : string) :
  name_matches entry = true ->
  entry ∉ patterns ->
  in_extensions (lower (suffix (child p entry))) = true.
Proof.
  intros Hm Hbare.
  apply name_matches_spec in Hm as (pat & Hpat & Hends).
  pose proof patterns_shape as Hshape. rewrite forallb_forall in Hshape.
  specialize (Hshape pat (proj1 (list_elem_of_In _ _) Hpat)).
  apply andb_true_iff in Hshape as [Hshape Hext].
  apply andb_true_iff in Hshape as [Hdot Hlen].
  apply Nat.ltb_lt in Hlen.
  destruct (rfind_dot pat) as [[|j]|] eqn:Hr; try done.
  apply endswith_split in Hends as [pre ->].
  assert (Hpre : pre <> "") by (intros ->; by apply Hbare).
  unfold suffix. rewrite name_child, (rfind_dot_app pre pat 0 Hr).
  rewrite length_append, Nat.add_0_r.
  assert (Hpos : (0 < String.length pre)%nat) by (destruct pre; simpl; [done|lia]).
  replace (0 <? String.length pre)%nat with true
    by (symmetry; by apply Nat.ltb_lt).
  replace (String.length pre <? String.length pre + String.length pat - 1)%nat
    with true by (symmetry; apply Nat.ltb_lt; lia).
  simpl andb. cbv iota.
  replace (String.length pre + String.length pat - String.length pre)%nat
    with (String.length pat) by lia.
  by rewrite substring_after.
Qed.

Lemma listed_entry_passes_file_test_witness :
  in_extensions (lower (suffix (child (of_string "imgs") "b.PNG"))) = true.
Proof.
  apply (listed_entry_passes_file_test (of_string "imgs") "b.PNG").
  - reflexivity.
  - apply (bool_decide_unpack _). vm_compute. exact I.
Defined.

(** The exception: a file named by the bare extension is listed from its
    directory but refused as a single file, having no suffix. *)
Example bare_extension_entry :
  name_matches ".jpg" = true
  /\ in_extensions (lower (suffix (child (of_string "imgs") ".jpg"))) = false.
Proof. split; vm_compute; reflexivity. Qed.

End ResolveMore.

(** ** Properties of the entry point of the inference CLI *)

Module InferMainProperties.
Import PyNum Inference InferenceSpec InferenceFacts InferenceMore.
Import Resolve InferMain InferMainSpec.
Import InferenceExamples ResolveExamples InferMainExamples.
Local Open Scope string_scope.

Lemma detection_of_shown env box det :
  detection_of env box = Ok det -> show_detection det = Ok tt.
Proof.
  unfold detection_of.
  destruct (lookup_name (cls box) (names env)) as [n|]; simpl; [|done].
  destruct (xyxy box) as [[[x1 y1] x2] y2]. by intros [= <-].
Qed.

Lemma show_detections_ok env dets bs :
  Forall2 (fun det box => detection_of env box = Ok det) dets bs ->
  show_detections dets = Ok tt.
Proof.
  induction 1 as [|det box dets bs Hdet _ IH]; simpl; [done|].
  by rewrite (detection_of_shown env box det Hdet).
Qed.

(** The look-ups made to print a returned record never fail. *)
Lemma show_single_ok env image c save_result output_dir w w' r :
  process_single_image env image c save_result output_dir w = (w', Ok r) ->
  show_single r = Ok tt.
Proof.
  intros Hrun.
  destruct (detections_mirror_boxes_aux env image c save_result output_dir
              w w' r Hrun) as (ms & dets & out & bs & -> & Hall).
  unfold show_single. simpl. destruct dets as [|det dets]; [done|].
  by eapply show_detections_ok.
Qed.

(** X19: when the model file does not exist, or the source resolves to no
    image, [main] returns exit code 1 and has done nothing: no detector
    call, no directory, no image, no report. *)
Theorem main_early_exit (me : MainEnv) (args : Args) (w : World) :
  path_exists (env me) (arg_model args) = false
  \/ get_image_files (fs me) (arg_source args) = [] ->
  main me args w = (w, 1).
Proof.
  intros H. unfold main, main_try, load_model, mbind, M_bind, raise, lift.
  destruct (path_exists (env me) (arg_model args)) eqn:Hex; simpl; [|done].
  destruct H as [H|H]; [done|].
  destruct (load_yolo me (arg_model args)); [|done].
  destruct (negb (String.eqb (arg_device args) "")); simpl.
  - destruct (move_to me (arg_device args)); [|done]. by rewrite H.
  - by rewrite H.
Qed.

Lemma main_early_exit_witness :
  main demo_main_env (demo_args "nowhere/*.jpg" true) new_world
    = (new_world, 1).
Proof.
  apply (main_early_exit demo_main_env (demo_args "nowhere/*.jpg" true)).
  right. vm_compute. reflexivity.
Defined.

Lemma main_try_ready me args w :
  ready me args ->
  main_try me args w =
    match get_image_files (fs me) (arg_source args) with
    | [] => (w, Ok 1)
    | image_files =>
        (results ←
           match image_files with
           | [image] =>
               r ← process_single_image (env me) image (arg_conf args)
                     (negb (arg_no_save args)) (arg_output_dir args);
               _ ← lift (show_single r);
               mret [r]
           | _ =>
               '(rs, _) ← process_batch_images (env me) image_files
                            (arg_conf args) (negb (arg_no_save args))
                            (arg_output_dir args);
               mret rs
           end;
         _ ← (if arg_save_json args then
                _ ← do_makedirs (env me) (arg_output_dir args);
                save_results_json (env me) results
                  (PyPath.join (arg_output_dir args) "inference_results.json")
              else mret tt);
         mret 0) w
    end.
Proof.
  intros (Hex & Hload & Hdev).
  unfold main_try, load_model. rewrite Hex. simpl.
  unfold mbind at 1. unfold M_bind at 1. unfold lift at 1. rewrite Hload.
  unfold mbind at 1. unfold M_bind at 1.
  assert (Hd : (if negb (String.eqb (arg_device args) "")
                then lift (move_to me (arg_device args))
                else mret tt) w = (w, Ok tt)).
  { destruct Hdev as [->|Hmove]; [done|].
    destruct (negb (String.eqb (arg_device args) "")); [|done].
    unfold lift. by rewrite Hmove. }
  rewrite Hd. by destruct (get_image_files (fs me) (arg_source args)).
Qed.



(** X21: when the source resolves to two images or more, no failure on an
    image changes the exit code: once the model is loaded, [main] returns 0
    if no report is asked for, and also if one is asked for and it can be
    written (the directory made, the file opened, the data dumped). *)
Theorem batch_failures_are_not_fatal
    (me : MainEnv) (args : Args) (w : World) :
  ready me args ->
  (2 <= length (get_image_files (fs me) (arg_source args)))%nat ->
  arg_save_json args = false \/ report_writable me args ->
  (main me args w).2 = 0.
Proof.
  intros Hready Hlen Hjson. unfold main.
  rewrite main_try_ready by done.
  destruct (get_image_files (fs me) (arg_source args)) as [|p1 [|p2 rest]]
    eqn:Hfiles; simpl in Hlen; try lia.
  unfold mbind, M_bind, mret, M_ret.
  rewrite process_batch_images_eq. cbv zeta.
  destruct Hjson as [Hno|(Hmk & Hopen & Hdump)].
  - rewrite Hno. done.
  - destruct (arg_save_json args); [|done].
    unfold do_makedirs, save_results_json, mbind, M_bind, lift, dump_json,
      open_w, dump.
    rewrite Hmk.
    rewrite summary_of_shape by apply successes_shape.
    unfold mbind, M_bind. fold (json_path args). by rewrite Hopen, Hdump.
Qed.

Lemma batch_failures_are_not_fatal_witness :
  (main broken_main_env (demo_args "imgs" true) new_world).2 = 0.
Proof.
  apply (batch_failures_are_not_fatal broken_main_env (demo_args "imgs" true)).
  - repeat split. by left.
  - vm_compute. lia.
  - right. repeat split.
Defined.

(** X22: when the source resolves to a single image and processing it
    returns a record, [main] returns 0 once the report, if asked for, can be
    written; without [--save-json] it leaves the world as the single call
    left it. *)
Theorem single_image_success
    (me : MainEnv) (args : Args) (w w1 : World) (image : string) (r : pyval) :
  ready me args ->
  get_image_files (fs me) (arg_source args) = [image] ->
  process_single_image (env me) image (arg_conf args)
    (negb (arg_no_save args)) (arg_output_dir args) w = (w1, Ok r) ->
  (arg_save_json args = false -> main me args w = (w1, 0)) /\
  (report_writable me args -> (main me args w).2 = 0).
Proof.
  intros Hready Hfiles Hrun. unfold main.
  rewrite main_try_ready by done. rewrite Hfiles.
  unfold mbind, M_bind, mret, M_ret. rewrite Hrun.
  unfold lift. rewrite (show_single_ok _ _ _ _ _ _ _ _ Hrun).
  split.
  - by intros ->.
  - intros (Hmk & Hopen & Hdump). destruct (arg_save_json args); [|done].
    unfold do_makedirs, save_results_json, mbind, M_bind, lift, dump_json,
      open_w, dump.
    rewrite Hmk.
    rewrite summary_of_shape
      by (constructor; [by eapply process_single_image_shape | constructor]).
    unfold mbind, M_bind. fold (json_path args). by rewrite Hopen, Hdump.
Qed.

Lemma single_image_success_witness :
  (arg_save_json (demo_args "imgs/a.jpg" false) = false ->
   main demo_main_env (demo_args "imgs/a.jpg" false) new_world
     = (after_save new_world "out" "out/a_result.jpg" [1; 2; 3], 0)) /\
  (report_writable demo_main_env (demo_args "imgs/a.jpg" false) ->
   (main demo_main_env (demo_args "imgs/a.jpg" false) new_world).2 = 0).
Proof.
  apply (single_image_success demo_main_env (demo_args "imgs/a.jpg" false)
           new_world (after_save new_world "out" "out/a_result.jpg" [1; 2; 3])
           "imgs/a.jpg"
           (record_of "imgs/a.jpg" 7.8125 [beetle_detection]
              (PStr "out/a_result.jpg"))).
  - repeat split. by left.
  - vm_compute. reflexivity.
  - vm_compute. reflexivity.
Defined.

Lemma main_try_zero me args w w' :
  main_try me args w = (w', Ok 0) ->
  ready me args /\ get_image_files (fs me) (arg_source args) <> [].
Proof.
  unfold main_try, load_model, ready, mbind, M_bind, raise, lift.
  destruct (path_exists (env me) (arg_model args)); simpl; [|done].
  destruct (load_yolo me (arg_model args)) as [[]|]; [|done].
  destruct (String.eqb (arg_device args) "") eqn:Hdev; simpl.
  - apply String.eqb_eq in Hdev.
    destruct (get_image_files (fs me) (arg_source args)); [done|].
    intros _. repeat split; [by left | done].
  - destruct (move_to me (arg_device args)) as [[]|]; [|done].
    destruct (get_image_files (fs me) (arg_source args)); [done|].
    intros _. repeat split; [by right | done].
Qed.

(** The records [main] gathers, and the world in which it turns to the
    report. *)
Lemma main_results me args w w' :
  main_try me args w = (w', Ok 0) ->
  exists w1,
    reports w1 = reports w /\
    opened w1 = opened w /\
    Forall record_shape (run_records me args w) /\
    ((if arg_save_json args then
        _ ← do_makedirs (env me) (arg_output_dir args);
        save_results_json (env me) (run_records me args w) (json_path args)
      else mret tt) w1) = (w', Ok tt).
Proof.
  intros Hmain. destruct (main_try_zero me args w w' Hmain) as [Hready Hne].
  rewrite main_try_ready in Hmain by done. unfold run_records, json_path.
  destruct (get_image_files (fs me) (arg_source args)) as [|p1 [|p2 rest]]
    eqn:Hfiles; [done| |].
  - unfold mbind at 1 in Hmain. unfold M_bind at 1 in Hmain.
    unfold mbind at 1 in Hmain. unfold M_bind at 1 in Hmain.
    destruct (process_single_image (env me) p1 (arg_conf args)
                (negb (arg_no_save args)) (arg_output_dir args) w)
      as [w1 [r|e]] eqn:Hrun; [|done].
    unfold mbind at 1 in Hmain. unfold M_bind at 1 in Hmain.
    unfold lift in Hmain. rewrite (show_single_ok _ _ _ _ _ _ _ _ Hrun) in Hmain.
    unfold mret at 1 in Hmain. unfold M_ret at 1 in Hmain.
    unfold mbind at 1 in Hmain. unfold M_bind at 1 in Hmain.
    exists w1. split; [|split; [|split]].
    + apply process_single_image_returns in Hrun
        as (x & xs & dets & _ & _ & _ & H). simpl in H.
      destruct (negb (arg_no_save args) && nonempty dets).
      * by destruct H as (img & flag & _ & _ & _ & _ & ->).
      * by destruct H as (_ & ->).
    + apply process_single_image_returns in Hrun
        as (x & xs & dets & _ & _ & _ & H). simpl in H.
      destruct (negb (arg_no_save args) && nonempty dets).
      * by destruct H as (img & flag & _ & _ & _ & _ & ->).
      * by destruct H as (_ & ->).
    + constructor; [by eapply process_single_image_shape | constructor].
    + match type of Hmain with
      | (let (_, _) := ?t in _) = _ => destruct t as [w2 [[]|e]] eqn:Hs
      end; [|done].
      by injection Hmain as ->.
  - unfold mbind at 1 in Hmain. unfold M_bind at 1 in Hmain.
    unfold mbind at 1 in Hmain. unfold M_bind at 1 in Hmain.
    rewrite process_batch_images_eq in Hmain. cbv zeta in Hmain.
    unfold mret at 1 in Hmain. unfold M_ret at 1 in Hmain.
    unfold mbind at 1 in Hmain. unfold M_bind at 1 in Hmain.
    eexists. split; [|split; [|split; [apply successes_shape|]]].
    3:{ match type of Hmain with
        | (let (_, _) := ?t in _) = _ => destruct t as [w2 [[]|e]] eqn:Hs
        end; [|done].
        injection Hmain as ->. exact Hs. }
    all: apply (batch_loop_respects (env me) (arg_conf args)
             (negb (arg_no_save args)) (arg_output_dir args)
             (fun w1 w2 => _ w2 = _ w1)); [done|congruence|];
      intros p w0;
      destruct (process_single_image (env me) p (arg_conf args)
                  (negb (arg_no_save args)) (arg_output_dir args) w0)
        as [w1 [rec|e]] eqn:Hrun; simpl;
      [ apply process_single_image_returns in Hrun
          as (x & xs & dets & _ & _ & _ & H); simpl in H;
        destruct (negb (arg_no_save args) && nonempty dets);
        [ by destruct H as (img & flag & _ & _ & _ & _ & ->)
        | by destruct H as (_ & ->) ]
      | apply failed_call_effects in Hrun; tauto ].
Qed.

(** X23: when [main] returns 0 with [--save-json], it has written exactly
    one report, to [inference_results.json] in the output directory, which
    it has made. The report holds the records of the run, that is the
    record of the single image or the records of the images of the batch
    that were processed, in order, each with a count equal to the length of
    its detection list; its summary counts these records. *)
Theorem main_writes_the_report
    (me : MainEnv) (args : Args) (w w' : World) :
  main me args w = (w', 0) ->
  arg_save_json args = true ->
  let recs := run_records me args w in
  exists summary,
    Forall record_consistent recs /\
    summary_of (env me) recs = Ok summary /\
    getitem summary "total_images" = Ok (PInt (Z.of_nat (length recs))) /\
    reports w' =
      (reports w ++
         [(json_path args,
           PDict [("summary", summary); ("results", PList recs)])])%list /\
    opened w' = (opened w ++ [json_path args])%list /\
    arg_output_dir args ∈ dirs w'.
Proof.
  intros Hmain Hjson recs. unfold main in Hmain.
  destruct (main_try me args w) as [w2 [code|e]] eqn:Htry; [|done].
  injection Hmain as -> ->.
  apply main_results in Htry as (w1 & Hrep & Hop & Hshape & Hsave).
  fold recs in Hshape, Hsave.
  rewrite Hjson in Hsave.
  unfold mbind, M_bind, do_makedirs in Hsave.
  destruct (makedirs (env me) (arg_output_dir args)) as [[]|]; [|done].
  pose proof (report_effect (env me) recs (json_path args)
                {| calls := calls w1;
                   dirs := (dirs w1 ++ [arg_output_dir args])%list;
                   images := images w1; opened := opened w1;
                   reports := reports w1 |}) as Hall.
  simpl in Hall. rewrite Hsave in Hall. simpl in Hall.
  destruct Hall as (_ & Hdirs & _ & Hopened & summary & Hsum & Hreports).
  exists summary. split; [|split; [done|split; [|split; [|split]]]].
  - eapply Forall_impl; [exact Hshape | apply record_shape_consistent].
  - rewrite summary_of_shape in Hsum by done. by injection Hsum as <-.
  - by rewrite Hreports, Hrep.
  - by rewrite Hopened, Hop.
  - rewrite Hdirs. apply elem_of_app. right. by left.
Qed.

Lemma main_writes_the_report_witness :
  let me := demo_main_env in
  let args := demo_args "imgs" true in
  let recs := run_records me args new_world in
  exists summary,
    Forall record_consistent recs /\
    summary_of (env me) recs = Ok summary /\
    getitem summary "total_images" = Ok (PInt (Z.of_nat (length recs))) /\
    reports (main me args new_world).1 =
      (reports new_world ++
         [(json_path args,
           PDict [("summary", summary); ("results", PList recs)])])%list /\
    opened (main me args new_world).1 =
      (opened new_world ++ [json_path args])%list /\
    arg_output_dir args ∈ dirs (main me args new_world).1.
Proof.
  apply (main_writes_the_report demo_main_env (demo_args "imgs" true)
           new_world).
  - vm_compute. reflexivity.
  - reflexivity.
Defined.

(** The run of that example: of the two entries of the directory, the one
    that exists is processed and recorded. *)
Example demo_run_records :
  run_records demo_main_env (demo_args "imgs" true) new_world =
    [record_of "imgs/a.jpg" 7.8125 [beetle_detection]
       (PStr "out/a_result.jpg")].
Proof. vm_compute. reflexivity. Qed.

End InferMainProperties.

(** ** Properties of the export and of the entry point of the cleaning
    script *)

Module ExportMainProperties.
Import PyNum Inference Cleaning CleaningSpec CleaningFacts CleaningExamples.
Import ExportMain ExportMainSpec ExportMainExamples.
Local Open Scope string_scope.

(** A call of the filter that returns has raised on no sample, so every
    sample was one it could process. *)
Lemma returns_well_formed min_side min_area ds r :
  (filter_small_boxes ds min_side min_area).2 = Ok r -> Forall well_formed ds.
Proof.
  intros Hok. destruct (well_formed_all_or_not ds) as [Hwf|Hex]; [done|].
  exfalso. unfold filter_small_boxes in Hok.
  destruct (sample_loop_ill_formed min_side min_area ds [] init_counters Hex)
    as (store & e & Hloop).
  by rewrite Hloop in Hok.
Qed.

Lemma filter_leaves_clean min_side min_area ds r :
  (filter_small_boxes ds min_side min_area).2 = Ok r ->
  Forall (clean_sample min_side min_area)
    (filter_small_boxes ds min_side min_area).1.
Proof.
  intros Hok. apply returns_well_formed in Hok.
  apply Forall_forall. intros x Hx.
  destruct (store_elements min_side min_area ds x Hok Hx)
    as (s & Hs & Hsv & ->).
  split.
  - unfold boxes. simpl. by apply survives_true.
  - intros d. unfold boxes at 1. simpl. unfold kept.
    rewrite list_elem_of_In, filter_In. by intros [_ H].
Qed.

(** *** [export_to_yolo] *)

Lemma export_to_yolo_eq ee train val export_dir w T V :
  db w !! train = Some T ->
  db w !! val = Some V ->
  mkdir_ok ee (export_target export_dir) = true ->
  let dir := export_target export_dir in
  export_to_yolo ee train val export_dir w =
    if export_ok ee dir "train" T then
      if export_ok ee dir "val" V then
        ({| db := db w;
            exported := exported w ++ [(dir, "train", T); (dir, "val", V)];
            csvs := csvs w |}, Some (inspection_ok ee export_dir))
      else
        ({| db := db w;
            exported := exported w ++ [(dir, "train", T)];
            csvs := csvs w |}, Some false)
    else (w, Some false).
Proof.
  intros HT HV Hmk dir. subst dir.
  unfold export_to_yolo, inspection_ok, export_target in *. cbv zeta.
  set (dir := PyPath.to_string (PyPath.of_string export_dir)) in *.
  unfold mbind at 1. unfold XM_bind at 1. unfold guard at 1. rewrite Hmk.
  unfold catch, mbind, XM_bind, export_dataset. rewrite HT.
  destruct (export_ok ee dir "train" T); [|done]. simpl. rewrite HV.
  destruct (export_ok ee dir "val" V); [|done]. simpl.
  rewrite <- app_assoc. simpl.
  destruct (yaml ee _) as [[|]|]; simpl; try done;
    unfold guard; by destruct (listing_ok ee dir).
Qed.

(** X24: once the export directory is made, [export_to_yolo] never raises.
    The validation split is exported only after the training split has
    been; a failed training export leaves nothing exported, a failed
    validation export leaves the training export in place, and in both
    cases the result is [False]. The datasets themselves are not changed. *)
Theorem export_steps
    (ee : ExportEnv) (train val export_dir : string) (w : XWorld)
    (T V : Dataset) :
  db w !! train = Some T ->
  db w !! val = Some V ->
  mkdir_ok ee (export_target export_dir) = true ->
  let dir := export_target export_dir in
  let r := export_to_yolo ee train val export_dir w in
  db r.1 = db w /\ csvs r.1 = csvs w /\
  (export_ok ee dir "train" T = false ->
     r.2 = Some false /\ exported r.1 = exported w) /\
  (export_ok ee dir "train" T = true -> export_ok ee dir "val" V = false ->
     r.2 = Some false /\
     exported r.1 = (exported w ++ [(dir, "train", T)])%list) /\
  (export_ok ee dir "train" T = true -> export_ok ee dir "val" V = true ->
     r.2 = Some (inspection_ok ee export_dir) /\
     exported r.1 =
       (exported w ++ [(dir, "train", T); (dir, "val", V)])%list).
Proof.
  intros HT HV Hmk dir r. subst r.
  rewrite (export_to_yolo_eq ee train val export_dir w T V HT HV Hmk).
  fold dir.
  destruct (export_ok ee dir "train" T); [destruct (export_ok ee dir "val" V)|];
    simpl; repeat split; intros; done.
Qed.

Lemma export_steps_witness :
  let dir := export_target "datasets/beetle-oid-yolo" in
  let r := export_to_yolo no_train_export "train" "val"
             "datasets/beetle-oid-yolo" demo_world in
  db r.1 = db demo_world /\ csvs r.1 = csvs demo_world /\
  (export_ok no_train_export dir "train" [mixed; tiny_only; unlabelled] = false ->
     r.2 = Some false /\ exported r.1 = exported demo_world) /\
  (export_ok no_train_export dir "train" [mixed; tiny_only; unlabelled] = true ->
   export_ok no_train_export dir "val" [mixed] = false ->
     r.2 = Some false /\
     exported r.1 =
       (exported demo_world
          ++ [(dir, "train", [mixed; tiny_only; unlabelled])])%list) /\
  (export_ok no_train_export dir "train" [mixed; tiny_only; unlabelled] = true ->
   export_ok no_train_export dir "val" [mixed] = true ->
     r.2 = Some (inspection_ok no_train_export "datasets/beetle-oid-yolo") /\
     exported r.1 =
       (exported demo_world
          ++ [(dir, "train", [mixed; tiny_only; unlabelled]);
              (dir, "val", [mixed])])%list).
Proof.
  apply (export_steps no_train_export "train" "val" "datasets/beetle-oid-yolo"
           demo_world [mixed; tiny_only; unlabelled] [mixed]).
  - vm_compute. reflexivity.
  - vm_compute. reflexivity.
  - reflexivity.
Defined.

(** *** [create_attribution_csv] *)

Lemma attribution_loop_rows ee split samples : forall acc rows,
  attribution_loop ee split samples acc = Some rows ->
  exists new, rows = (acc ++ new)%list /\
    Forall2 (row_for split) new samples.
Proof.
  induction samples as [|s rest IH]; intros acc rows; simpl.
  - intros [= <-]. exists []. split; [by rewrite app_nil_r | constructor].
  - unfold attribution_record.
    destruct (sample_get ee s) as [image_id|]; simpl; [|done].
    intros H. apply IH in H as (new & -> & Hall).
    eexists (_ :: new). split; [by rewrite <- app_assoc|].
    constructor; [|done]. by split.
Qed.

Lemma attribution_loop_fails ee split samples : forall acc s,
  s ∈ samples -> sample_get ee s = None ->
  attribution_loop ee split samples acc = None.
Proof.
  induction samples as [|x rest IH]; intros acc s Hin Hget;
    [by apply elem_of_nil in Hin|].
  simpl. unfold attribution_record.
  destruct (sample_get ee x) as [image_id|] eqn:Hx; simpl; [|done].
  apply elem_of_cons in Hin as [->|Hin]; [congruence|]. by eapply IH.
Qed.

Lemma split_no_slash p :
  Forall (fun piece => has_slash piece = false) (PyPath.split PyPath.slash p).
Proof.
  induction p as [|ch p IH]; simpl; [by constructor|].
  destruct (Ascii.eqb ch PyPath.slash) eqn:Hch; [by constructor|].
  destruct (PyPath.split PyPath.slash p) as [|hd tl]; [repeat constructor|].
  - simpl. by rewrite Hch.
  - apply Forall_cons in IH as [Hhd Htl]. constructor; [|done].
    simpl. by rewrite Hch, Hhd.
Qed.

Lemma basename_no_slash p : has_slash (basename p) = false.
Proof.
  unfold basename. pose proof (split_no_slash p) as H.
  induction H as [|x l Hx Hl IH]; [done|].
  destruct l; [done | exact IH].
Qed.

Lemma create_attribution_csv_eq ee train val output_path w (T V : Dataset) :
  db w !! train = Some T ->
  db w !! val = Some V ->
  create_attribution_csv ee train val output_path w =
    match attribution_loop ee "train" T [] with
    | None => (w, None)
    | Some from_train =>
        match attribution_loop ee "val" V from_train with
        | None => (w, None)
        | Some rows =>
            let path := PyPath.to_string (PyPath.of_string output_path) in
            if csv_ok ee path
            then ({| db := db w; exported := exported w;
                     csvs := csvs w ++ [(path, rows)] |}, Some path)
            else (w, None)
        end
    end.
Proof.
  intros HT HV.
  unfold create_attribution_csv, mbind, XM_bind, samples_of, pure_step,
    write_csv.
  rewrite HT. destruct (attribution_loop ee "train" T []); [|done].
  rewrite HV. by destruct (attribution_loop ee "val" V _).
Qed.

(** X25: when [create_attribution_csv] returns, it has written one table,
    with one row per sample: the rows of the training samples first, tagged
    ["train"], then those of the validation samples, tagged ["val"], in the
    order of the samples, each naming the file by the base name of the
    sample's path, which holds no slash. Nothing else has changed. *)
Theorem attribution_rows
    (ee : ExportEnv) (train val output_path path : string) (w w' : XWorld)
    (T V : Dataset) :
  db w !! train = Some T ->
  db w !! val = Some V ->
  create_attribution_csv ee train val output_path w = (w', Some path) ->
  exists train_rows val_rows,
    csvs w' = (csvs w ++ [(path, train_rows ++ val_rows)])%list /\
    Forall2 (row_for "train") train_rows T /\
    Forall2 (row_for "val") val_rows V /\
    (forall s : Sample, has_slash (basename (filepath s)) = false) /\
    db w' = db w /\ exported w' = exported w.
Proof.
  intros HT HV. rewrite (create_attribution_csv_eq ee train val _ w T V HT HV).
  destruct (attribution_loop ee "train" T []) as [from_train|] eqn:H1; [|done].
  destruct (attribution_loop ee "val" V from_train) as [rows|] eqn:H2; [|done].
  cbv zeta. destruct (csv_ok ee _); [|done]. intros [= <- <-].
  apply attribution_loop_rows in H1 as (train_rows & -> & Htrain).
  apply attribution_loop_rows in H2 as (val_rows & -> & Hval).
  exists train_rows, val_rows. simpl. repeat split; try done.
  intros s. apply basename_no_slash.
Qed.

Lemma attribution_rows_witness :
  exists train_rows val_rows,
    csvs (create_attribution_csv helpful_env "train" "val"
            "docs/ATTRIBUTION.csv" demo_world).1 =
      (csvs demo_world
         ++ [("docs/ATTRIBUTION.csv", train_rows ++ val_rows)])%list /\
    Forall2 (row_for "train") train_rows [mixed; tiny_only; unlabelled] /\
    Forall2 (row_for "val") val_rows [mixed] /\
    (forall s : Sample, has_slash (basename (filepath s)) = false) /\
    db (create_attribution_csv helpful_env "train" "val"
          "docs/ATTRIBUTION.csv" demo_world).1 = db demo_world /\
    exported (create_attribution_csv helpful_env "train" "val"
                "docs/ATTRIBUTION.csv" demo_world).1 = exported demo_world.
Proof.
  apply (attribution_rows helpful_env "train" "val" "docs/ATTRIBUTION.csv"
           "docs/ATTRIBUTION.csv" demo_world _
           [mixed; tiny_only; unlabelled] [mixed]).
  - vm_compute. reflexivity.
  - vm_compute. reflexivity.
  - vm_compute. reflexivity.
Defined.

(** *** [main] *)

Lemma main_unfold ee args w :
  main ee args w =
    match main_try ee args (train_name args) (val_name args) w with
    | (w', Some z) => (w', Some z)
    | (w', None) => (w', after_error ee)
    end.
Proof.
  unfold main, catch, train_name, val_name, after_error.
  destruct (main_try ee args _ _ w) as [w' [z|]]; [done|].
  unfold mbind, XM_bind, guard. by destruct (list_datasets_ok ee).
Qed.

Lemma after_error_not_zero ee : after_error ee <> Some 0.
Proof. unfold after_error. by destruct (list_datasets_ok ee). Qed.

Lemma main_try_missing ee args tn vn w :
  db w !! tn = None \/ db w !! vn = None ->
  main_try ee args tn vn w = (w, None).
Proof.
  intros H. unfold main_try, mbind, XM_bind, load_dataset.
  destruct (db w !! tn); [|done].
  destruct H as [H|H]; [done|]. by rewrite H.
Qed.

Lemma export_to_yolo_no_dir ee train val export_dir w :
  mkdir_ok ee (export_target export_dir) = false ->
  export_to_yolo ee train val export_dir w = (w, None).
Proof.
  intros H. unfold export_to_yolo, export_target in *. cbv zeta.
  unfold mbind at 1. unfold XM_bind at 1. unfold guard at 1. by rewrite H.
Qed.

Lemma main_try_skip ee args tn vn w (T V : Dataset) :
  db w !! tn = Some T ->
  db w !! vn = Some V ->
  arg_skip_cleaning args = true ->
  main_try ee args tn vn w =
    match export_to_yolo ee tn vn (arg_export_dir args) w with
    | (w1, Some true) =>
        match create_attribution_csv ee tn vn "docs/ATTRIBUTION.csv" w1 with
        | (w2, Some _) => (w2, Some 0)
        | (w2, None) => (w2, None)
        end
    | (w1, Some false) => (w1, Some 1)
    | (w1, None) => (w1, None)
    end.
Proof.
  intros HT HV Hskip. unfold main_try. rewrite Hskip. simpl negb. cbv iota.
  unfold mbind at 1 2 3. unfold XM_bind at 1 2 3. unfold load_dataset.
  rewrite HT, HV. unfold mret at 1. unfold XM_ret at 1.
  unfold mbind at 1. unfold XM_bind at 1.
  destruct (export_to_yolo ee tn vn (arg_export_dir args) w)
    as [w1 [[|]|]]; try done;
    unfold mbind, XM_bind;
    by destruct (create_attribution_csv ee tn vn _ w1) as [w2 [path|]].
Qed.

Lemma clean_eq handle min_side min_area w (ds : Dataset) :
  db w !! handle = Some ds ->
  clean handle min_side min_area w =
    ({| db := <[handle := (filter_small_boxes ds min_side min_area).1]> (db w);
        exported := exported w;
        csvs := csvs w |},
     match (filter_small_boxes ds min_side min_area).2 with
     | Ok r => Some r
     | Raise _ => None
     end).
Proof.
  intros H. unfold clean. rewrite H.
  by destruct (filter_small_boxes ds min_side min_area).
Qed.

Lemma main_try_cleaning ee args tn vn w (T V : Dataset) :
  db w !! tn = Some T ->
  db w !! vn = Some V ->
  arg_skip_cleaning args = false ->
  main_try ee args tn vn w =
    match clean tn (arg_min_side args) (arg_min_area args) w with
    | (w1, Some _) =>
        match clean vn (arg_min_side args) (arg_min_area args) w1 with
        | (w2, Some _) => main_try ee (skipping args) tn vn w2
        | (w2, None) => (w2, None)
        end
    | (w1, None) => (w1, None)
    end.
Proof.
  intros HT HV Hskip. unfold main_try. simpl arg_skip_cleaning.
  rewrite Hskip. simpl negb. cbv iota.
  unfold mbind, XM_bind, mret, XM_ret, load_dataset.
  rewrite HT, HV.
  rewrite (clean_eq tn _ _ w T HT).
  destruct (filter_small_boxes T _ _).2 as [r1|e1]; [|done].
  set (w1 := {| db := _ |}).
  assert (exists V1 : Dataset, db w1 !! vn = Some V1) as [V1 HV1].
  { subst w1. simpl. rewrite lookup_insert. case_decide; eauto. }
  rewrite (clean_eq vn _ _ w1 V1 HV1).
  destruct (filter_small_boxes V1 _ _).2 as [r2|e2]; [|done].
  set (w2 := {| db := _ |}).
  assert (is_Some (db w2 !! tn)) as [T2 HT2].
  { subst w2 w1. simpl. rewrite !lookup_insert. repeat case_decide; eauto. }
  assert (is_Some (db w2 !! vn)) as [V2 HV2].
  { subst w2. simpl. rewrite lookup_insert_eq. eauto. }
  rewrite HT2, HV2. done.
Qed.

Lemma main_try_skip_eq ee args tn vn w (T V : Dataset) :
  db w !! tn = Some T ->
  db w !! vn = Some V ->
  arg_skip_cleaning args = true ->
  mkdir_ok ee (export_target (arg_export_dir args)) = true ->
  let dir := export_target (arg_export_dir args) in
  main_try ee args tn vn w =
    if export_ok ee dir "train" T then
      if export_ok ee dir "val" V then
        let w1 := {| db := db w;
                     exported :=
                       exported w ++ [(dir, "train", T); (dir, "val", V)];
                     csvs := csvs w |} in
        if inspection_ok ee (arg_export_dir args) then
          match attribution_loop ee "train" T []
                  ≫= attribution_loop ee "val" V with
          | Some rows =>
              if csv_ok ee attribution_path
              then ({| db := db w;
                       exported := exported w1;
                       csvs := csvs w ++ [(attribution_path, rows)] |}, Some 0)
              else (w1, None)
          | None => (w1, None)
          end
        else (w1, Some 1)
      else ({| db := db w;
               exported := exported w ++ [(dir, "train", T)];
               csvs := csvs w |}, Some 1)
    else (w, Some 1).
Proof.
  intros HT HV Hskip Hmk dir.
  rewrite (main_try_skip ee args tn vn w T V HT HV Hskip).
  rewrite (export_to_yolo_eq ee tn vn _ w T V HT HV Hmk). fold dir.
  destruct (export_ok ee dir "train" T); [|done].
  destruct (export_ok ee dir "val" V); [|done].
  cbv zeta. destruct (inspection_ok ee _); [|done].
  rewrite (create_attribution_csv_eq ee tn vn _
             {| db := db w; exported := _; csvs := csvs w |} T V HT HV).
  fold attribution_path. simpl.
  destruct (attribution_loop ee "train" T []) as [from_train|]; simpl; [|done].
  destruct (attribution_loop ee "val" V from_train) as [rows|]; [|done].
  by destruct (csv_ok ee attribution_path).
Qed.

Lemma main_try_skip_db ee args tn vn w :
  arg_skip_cleaning args = true ->
  db (main_try ee args tn vn w).1 = db w.
Proof.
  intros Hskip.
  destruct (db w !! tn) as [T|] eqn:HT;
    [|by rewrite main_try_missing by auto].
  destruct (db w !! vn) as [V|] eqn:HV;
    [|by rewrite main_try_missing by auto].
  destruct (mkdir_ok ee (export_target (arg_export_dir args))) eqn:Hmk.
  - rewrite (main_try_skip_eq ee args tn vn w T V HT HV Hskip Hmk). cbv zeta.
    repeat match goal with
           | |- context [if ?b then _ else _] => destruct b
           | |- context [match ?o with Some _ => _ | None => _ end] =>
               destruct o
           end; done.
  - rewrite (main_try_skip ee args tn vn w T V HT HV Hskip).
    by rewrite export_to_yolo_no_dir.
Qed.

Lemma main_try_skip_zero ee args tn vn w w' (T V : Dataset) :
  db w !! tn = Some T ->
  db w !! vn = Some V ->
  arg_skip_cleaning args = true ->
  main_try ee args tn vn w = (w', Some 0) ->
  let dir := export_target (arg_export_dir args) in
  exists rows,
    db w' = db w /\
    exported w' = (exported w ++ [(dir, "train", T); (dir, "val", V)])%list /\
    csvs w' = (csvs w ++ [(attribution_path, rows)])%list /\
    length rows = (length T + length V)%nat.
Proof.
  intros HT HV Hskip Hmain dir.
  destruct (mkdir_ok ee (export_target (arg_export_dir args))) eqn:Hmk.
  - rewrite (main_try_skip_eq ee args tn vn w T V HT HV Hskip Hmk) in Hmain.
    cbv zeta in Hmain. fold dir in Hmain.
    destruct (export_ok ee dir "train" T); [|done].
    destruct (export_ok ee dir "val" V); [|done].
    destruct (inspection_ok ee _); [|done].
    destruct (attribution_loop ee "train" T []) as [from_train|] eqn:H1;
      simpl in Hmain; [|done].
    destruct (attribution_loop ee "val" V from_train) as [rows|] eqn:H2;
      [|done].
    destruct (csv_ok ee attribution_path); [|done].
    injection Hmain as <-. exists rows. simpl. repeat split.
    apply attribution_loop_rows in H1 as (r1 & -> & Hr1).
    apply attribution_loop_rows in H2 as (r2 & -> & Hr2).
    apply Forall2_length in Hr1, Hr2. simpl. rewrite length_app. lia.
  - rewrite (main_try_skip ee args tn vn w T V HT HV Hskip) in Hmain.
    by rewrite export_to_yolo_no_dir in Hmain.
Qed.

(** X26: when either dataset does not exist, [main] finds out before it
    touches anything: the store, the exports and the tables are as they
    were, also when the training dataset exists and cleaning was asked for.
    It returns 1, unless listing the datasets fails too. *)
Theorem missing_dataset_stops_main (ee : ExportEnv) (args : Args) (w : XWorld) :
  db w !! train_name args = None \/ db w !! val_name args = None ->
  main ee args w = (w, if list_datasets_ok ee then Some 1 else None).
Proof.
  intros H. rewrite main_unfold. by rewrite main_try_missing.
Qed.

Lemma missing_dataset_stops_main_witness :
  main helpful_env (demo_args "train" "nothing" false) demo_world =
    (demo_world, if list_datasets_ok helpful_env then Some 1 else None).
Proof.
  apply (missing_dataset_stops_main helpful_env
           (demo_args "train" "nothing" false) demo_world).
  right. vm_compute. reflexivity.
Defined.

(** X27: when the filter raises on the training dataset, [main] exports
    nothing and writes no table, and returns 1 (unless listing the datasets
    fails too); but the training dataset stays as the filter left it when it
    raised, and the validation dataset has not been looked at. *)
Theorem cleaning_failure_aborts_export
    (ee : ExportEnv) (args : Args) (w : XWorld) (T V : Dataset) (e : exn) :
  db w !! train_name args = Some T ->
  db w !! val_name args = Some V ->
  arg_skip_cleaning args = false ->
  (filter_small_boxes T (arg_min_side args) (arg_min_area args)).2 = Raise e ->
  main ee args w =
    ({| db := <[train_name args :=
                  (filter_small_boxes T (arg_min_side args)
                     (arg_min_area args)).1]> (db w);
        exported := exported w;
        csvs := csvs w |},
     if list_datasets_ok ee then Some 1 else None).
Proof.
  intros HT HV Hskip Hraise. rewrite main_unfold.
  rewrite (main_try_cleaning ee args _ _ w T V HT HV Hskip).
  rewrite (clean_eq _ _ _ w T HT). by rewrite Hraise.
Qed.

Lemma cleaning_failure_aborts_export_witness :
  main helpful_env (demo_args "empty" "val" false) demo_world =
    ({| db := <[train_name (demo_args "empty" "val" false) :=
                  (filter_small_boxes [unlabelled] 8 64).1]> (db demo_world);
        exported := exported demo_world;
        csvs := csvs demo_world |},
     if list_datasets_ok helpful_env then Some 1 else None).
Proof.
  apply (cleaning_failure_aborts_export helpful_env
           (demo_args "empty" "val" false) demo_world
           [unlabelled] [mixed] ZeroDivisionError).
  - vm_compute. reflexivity.
  - vm_compute. reflexivity.
  - reflexivity.
  - vm_compute. reflexivity.
Defined.

(** X28: when [main] returns 0 on a run that cleans, it has exported the
    two datasets as they are at the end, training split first; every
    exported sample has a box and only boxes that meet the thresholds; and
    the attribution table has one row for each exported sample. This also
    holds when both names denote the same dataset. *)
Theorem exported_data_is_clean
    (ee : ExportEnv) (args : Args) (w w' : XWorld) :
  arg_skip_cleaning args = false ->
  main ee args w = (w', Some 0) ->
  let dir := export_target (arg_export_dir args) in
  let ok := clean_sample (arg_min_side args) (arg_min_area args) in
  exists (T' V' : Dataset) (rows : list pyval),
    db w' !! train_name args = Some T' /\
    db w' !! val_name args = Some V' /\
    Forall ok T' /\ Forall ok V' /\
    exported w' = (exported w ++ [(dir, "train", T'); (dir, "val", V')])%list /\
    csvs w' = (csvs w ++ [(attribution_path, rows)])%list /\
    length rows = (length T' + length V')%nat.
Proof.
  intros Hskip Hmain dir ok. rewrite main_unfold in Hmain.
  set (tn := train_name args) in *. set (vn := val_name args) in *.
  destruct (main_try ee args tn vn w) as [w1 [z|]] eqn:Htry;
    [|injection Hmain as _ H; by apply after_error_not_zero in H].
  injection Hmain as -> ->.
  destruct (db w !! tn) as [T|] eqn:HT;
    [|by rewrite main_try_missing in Htry by auto].
  destruct (db w !! vn) as [V|] eqn:HV;
    [|by rewrite main_try_missing in Htry by auto].
  rewrite (main_try_cleaning ee args tn vn w T V HT HV Hskip) in Htry.
  rewrite (clean_eq tn _ _ w T HT) in Htry.
  destruct (filter_small_boxes T _ _).2 as [r1|e1] eqn:Hf1; [|done].
  pose proof (filter_leaves_clean _ _ _ _ Hf1) as Hc1.
  set (S1 := (filter_small_boxes T _ _).1) in *.
  set (w1 := {| db := _ |}) in Htry.
  assert (exists V1 : Dataset, db w1 !! vn = Some V1) as [V1 HV1].
  { subst w1. simpl. rewrite lookup_insert. case_decide; eauto. }
  rewrite (clean_eq vn _ _ w1 V1 HV1) in Htry.
  destruct (filter_small_boxes V1 _ _).2 as [r2|e2] eqn:Hf2; [|done].
  pose proof (filter_leaves_clean _ _ _ _ Hf2) as Hc2.
  set (S2 := (filter_small_boxes V1 _ _).1) in *.
  set (w2 := {| db := _ |}) in Htry.
  assert (db w2 !! vn = Some S2) as HV2.
  { subst w2. simpl. by rewrite lookup_insert_eq. }
  assert (exists T2 : Dataset, db w2 !! tn = Some T2 /\ Forall ok T2)
    as (T2 & HT2 & HcT2).
  { subst w2 w1. simpl. destruct (decide (vn = tn)) as [Heq|Hne].
    - rewrite Heq, lookup_insert_eq. eauto.
    - rewrite lookup_insert_ne, lookup_insert_eq by done. eauto. }
  destruct (main_try_skip_zero ee (skipping args) tn vn w2 w' T2 S2 HT2 HV2
              eq_refl Htry) as (rows & Hdb & Hex & Hcsv & Hlen).
  exists T2, S2, rows. rewrite Hdb. repeat split; done.
Qed.

Lemma exported_data_is_clean_witness :
  let args := demo_args "train" "val" false in
  let w' := (main helpful_env args demo_world).1 in
  let dir := export_target (arg_export_dir args) in
  let ok := clean_sample (arg_min_side args) (arg_min_area args) in
  exists (T' V' : Dataset) (rows : list pyval),
    db w' !! train_name args = Some T' /\
    db w' !! val_name args = Some V' /\
    Forall ok T' /\ Forall ok V' /\
    exported w' =
      (exported demo_world ++ [(dir, "train", T'); (dir, "val", V')])%list /\
    csvs w' = (csvs demo_world ++ [(attribution_path, rows)])%list /\
    length rows = (length T' + length V')%nat.
Proof.
  apply (exported_data_is_clean helpful_env (demo_args "train" "val" false)
           demo_world).
  - reflexivity.
  - vm_compute. reflexivity.
Defined.

(** X29: with [--skip-cleaning], [main] never changes a dataset, however
    the run ends; and when it returns 0, it has exported the two datasets
    exactly as they were loaded, with one row of the attribution table for
    each of their samples. *)
Theorem skip_cleaning_exports_as_loaded
    (ee : ExportEnv) (args : Args) (w : XWorld) :
  arg_skip_cleaning args = true ->
  let dir := export_target (arg_export_dir args) in
  let r := main ee args w in
  db r.1 = db w /\
  (r.2 = Some 0 ->
   exists (T V : Dataset) (rows : list pyval),
     db w !! train_name args = Some T /\
     db w !! val_name args = Some V /\
     exported r.1 = (exported w ++ [(dir, "train", T); (dir, "val", V)])%list /\
     csvs r.1 = (csvs w ++ [(attribution_path, rows)])%list /\
     length rows = (length T + length V)%nat).
Proof.
  intros Hskip dir r. subst r. rewrite main_unfold.
  set (tn := train_name args). set (vn := val_name args).
  pose proof (main_try_skip_db ee args tn vn w Hskip) as Hdb.
  destruct (main_try ee args tn vn w) as [w1 [z|]] eqn:Htry; simpl in *;
    (split; [done|]); [|by intros H; apply after_error_not_zero in H].
  intros [= ->].
  destruct (db w !! tn) as [T|] eqn:HT;
    [|by rewrite main_try_missing in Htry by auto].
  destruct (db w !! vn) as [V|] eqn:HV;
    [|by rewrite main_try_missing in Htry by auto].
  destruct (main_try_skip_zero ee args tn vn w w1 T V HT HV Hskip Htry)
    as (rows & _ & Hex & Hcsv & Hlen).
  by exists T, V, rows.
Qed.

Lemma skip_cleaning_exports_as_loaded_witness :
  let args := demo_args "train" "val" true in
  let dir := export_target (arg_export_dir args) in
  let r := main helpful_env args demo_world in
  db r.1 = db demo_world /\
  (r.2 = Some 0 ->
   exists (T V : Dataset) (rows : list pyval),
     db demo_world !! train_name args = Some T /\
     db demo_world !! val_name args = Some V /\
     exported r.1 =
       (exported demo_world ++ [(dir, "train", T); (dir, "val", V)])%list /\
     csvs r.1 = (csvs demo_world ++ [(attribution_path, rows)])%list /\
     length rows = (length T + length V)%nat).
Proof.
  apply (skip_cleaning_exports_as_loaded helpful_env
           (demo_args "train" "val" true) demo_world).
  reflexivity.
Defined.

Lemma clean_keeps_files handle min_side min_area w :
  exported (clean handle min_side min_area w).1 = exported w /\
  csvs (clean handle min_side min_area w).1 = csvs w.
Proof.
  unfold clean. destruct (db w !! handle) as [ds|]; [|done].
  by destruct (filter_small_boxes ds min_side min_area).
Qed.

(** Once the datasets are loaded and cleaned, [main] goes on as a run with
    [--skip-cleaning] would from there. *)
Lemma main_try_after_cleaning ee args w w2 (T V : Dataset) :
  after_cleaning args w = Some w2 ->
  db w2 !! train_name args = Some T ->
  db w2 !! val_name args = Some V ->
  exported w2 = exported w /\ csvs w2 = csvs w /\
  main_try ee args (train_name args) (val_name args) w =
    main_try ee (skipping args) (train_name args) (val_name args) w2.
Proof.
  unfold after_cleaning. intros Hclean HT HV.
  set (tn := train_name args) in *. set (vn := val_name args) in *.
  destruct (arg_skip_cleaning args) eqn:Hskip.
  - injection Hclean as <-. repeat split.
    rewrite (main_try_skip ee args tn vn w T V HT HV Hskip).
    by rewrite (main_try_skip ee (skipping args) tn vn w T V HT HV eq_refl).
  - pose proof (clean_keeps_files tn (arg_min_side args) (arg_min_area args) w)
      as [He1 Hc1].
    destruct (db w !! tn) as [T0|] eqn:HT0;
      [|by unfold clean in Hclean; rewrite HT0 in Hclean].
    destruct (clean tn (arg_min_side args) (arg_min_area args) w)
      as [w1 [r1|]] eqn:Hc; [|done].
    pose proof (clean_keeps_files vn (arg_min_side args) (arg_min_area args) w1)
      as [He2 Hc2].
    destruct (db w1 !! vn) as [V1|] eqn:HV1;
      [|by unfold clean in Hclean; rewrite HV1 in Hclean].
    assert (exists V0 : Dataset, db w !! vn = Some V0) as [V0 HV0].
    { rewrite (clean_eq tn _ _ w T0 HT0) in Hc. injection Hc as <- _.
      simpl in HV1. rewrite lookup_insert in HV1.
      case_decide as Heq; [rewrite <- Heq|]; eauto. }
    rewrite (main_try_cleaning ee args tn vn w T0 V0 HT0 HV0 Hskip), Hc.
    destruct (clean vn (arg_min_side args) (arg_min_area args) w1)
      as [w2' [r2|]] eqn:Hc'; [|done].
    injection Hclean as <-. simpl in *. repeat split; congruence.
Qed.

(** X30: when the export has gone through but the attribution table
    cannot be made, because a sample cannot be read or the file cannot be
    written, [main] returns 1 (unless listing the datasets fails too) and
    leaves the exported data in place without any attribution table. The
    datasets meant are those at the time of the export: as loaded with
    [--skip-cleaning], as cleaned otherwise. *)
Theorem export_without_attribution
    (ee : ExportEnv) (args : Args) (w w2 : XWorld) (T V : Dataset) :
  after_cleaning args w = Some w2 ->
  db w2 !! train_name args = Some T ->
  db w2 !! val_name args = Some V ->
  let dir := export_target (arg_export_dir args) in
  mkdir_ok ee dir = true ->
  export_ok ee dir "train" T = true ->
  export_ok ee dir "val" V = true ->
  inspection_ok ee (arg_export_dir args) = true ->
  csv_ok ee attribution_path = false \/
    (exists s, s ∈ (T ++ V)%list /\ sample_get ee s = None) ->
  main ee args w =
    ({| db := db w2;
        exported := exported w ++ [(dir, "train", T); (dir, "val", V)];
        csvs := csvs w |},
     if list_datasets_ok ee then Some 1 else None).
Proof.
  intros Hclean HT HV dir Hmk Het Hev Hin Hfail. rewrite main_unfold.
  destruct (main_try_after_cleaning ee args w w2 T V Hclean HT HV)
    as (He & Hc & ->).
  rewrite (main_try_skip_eq ee (skipping args) _ _ w2 T V HT HV eq_refl Hmk).
  change (arg_export_dir (skipping args)) with (arg_export_dir args).
  fold dir. rewrite Het, Hev, Hin, He, Hc. cbv zeta.
  destruct Hfail as [Hcsv|(s & Hs & Hget)].
  - rewrite Hcsv. by destruct (_ ≫= _).
  - apply elem_of_app in Hs as [Hs|Hs].
    + by rewrite (attribution_loop_fails ee "train" T [] s Hs Hget).
    + destruct (attribution_loop ee "train" T []) as [from_train|]; [|done].
      simpl. by rewrite (attribution_loop_fails ee "val" V from_train s Hs Hget).
Qed.

Lemma export_without_attribution_witness :
  let args := demo_args "train" "val" false in
  let w2 := default demo_world (after_cleaning args demo_world) in
  let T := default [] (db w2 !! "train") in
  let V := default [] (db w2 !! "val") in
  let dir := export_target (arg_export_dir args) in
  main read_only_docs args demo_world =
    ({| db := db w2;
        exported :=
          exported demo_world ++ [(dir, "train", T); (dir, "val", V)];
        csvs := csvs demo_world |},
     if list_datasets_ok read_only_docs then Some 1 else None).
Proof.
  intros args w2 T V dir.
  apply (export_without_attribution read_only_docs args demo_world w2 T V).
  - vm_compute. reflexivity.
  - vm_compute. reflexivity.
  - vm_compute. reflexivity.
  - reflexivity.
  - reflexivity.
  - reflexivity.
  - reflexivity.
  - left. reflexivity.
Defined.

(** In that run the cleaned training set is what is exported: one sample,
    with its one passing box. *)
Example demo_cleaned_export :
  let args := demo_args "train" "val" false in
  map (fun x => (x.1.2, length x.2))
    (exported (main read_only_docs args demo_world).1)
    = [("train", 1%nat); ("val", 1%nat)]
  /\ csvs (main read_only_docs args demo_world).1 = [].
Proof. vm_compute. split; reflexivity. Qed.

End ExportMainProperties.
